(** * AI-Code-Editor: tool dispatcher and editor session state machine

    A shallow embedding of [frontend/js/editor.js] and
    [frontend/js/tool_executor.js].

    - JavaScript strings are [string]; the two-character literal written
      ['\\n'] in the JavaScript source is the Rocq string ["\n"] (a
      backslash followed by [n]); a line feed is the character [LF].
    - The [Map] [openFiles] is an insertion-ordered association list
      ([JsMap]); monaco text models live in a heap indexed by model id, so
      that the editor widget and a document can share one model.
    - Asynchronous functions run to completion in program order (no two
      tool calls are interleaved); exceptions are explicit ([Exc]) and the
      state is threaded through every call ([M]).
    - Collaborators whose code is not part of the two files (file system,
      persistence, indexer, UI log, network, syntax markers) are the fields
      of an environment record [Env]; every call to them is recorded in the
      [trace] of the world.
    - The module variable [editor] is set: the worlds are those of the
      application once [initializeEditor] has run. *)

From Stdlib Require Import String Ascii ZArith List Lia Bool.
From stdpp Require Import base option list strings gmap pretty.

Import ListNotations.
Local Open Scope string_scope.
Local Open Scope list_scope.

(* ================================================================== *)
(** ** JavaScript strings and arrays *)
(* ================================================================== *)

Module JsString.

(** The line-feed character (what [\n] denotes inside a JavaScript
    template literal or a single-backslash string literal). *)
Definition LF : string := String (ascii_of_nat 10) EmptyString.

(** [s.split(sep)] for a non-empty separator [sep]: the pieces between
    successive non-overlapping occurrences of [sep], scanning from the
    left. [skip] counts the characters of a matched separator that are
    still to be dropped. *)
Fixpoint split_from (sep : string) (skip : nat) (s : string) : list string :=
  match s with
  | EmptyString => [EmptyString]
  | String c rest =>
      match skip with
      | S k => split_from sep k rest
      | O =>
          if String.prefix sep s
          then EmptyString :: split_from sep (String.length sep - 1) rest
          else match split_from sep 0 rest with
               | h :: t => String c h :: t
               | [] => [String c EmptyString]
               end
      end
  end.

Definition split (sep s : string) : list string := split_from sep 0 s.

(** [arr.join(sep)]. *)
Fixpoint join (sep : string) (l : list string) : string :=
  match l with
  | [] => EmptyString
  | [x] => x
  | x :: t => x ++ sep ++ join sep t
  end.

(** [arr.splice(start, 0, item)] for an integer [start >= 0]: a start
    beyond the end of the array is clamped to its length. *)
Definition splice_insert {A} (start : nat) (item : A) (l : list A) : list A :=
  take start l ++ item :: drop start l.

(** [arr.pop()] on the result of a split: the last piece. *)
Definition pop (l : list string) : string := List.last l EmptyString.

(** [s.endsWith(suffix)]. *)
Definition endsWith (suffix s : string) : bool :=
  let n := String.length suffix in
  let m := String.length s in
  (n <=? m)%nat && String.eqb (String.substring (m - n) n s) suffix.

(** A value used as a condition: [undefined], [null] and the empty
    string are falsy, every other string is truthy. *)
Definition truthy (v : option string) : bool :=
  match v with
  | None => false
  | Some s => negb (String.eqb s EmptyString)
  end.

(** A possibly [undefined] string inside a template literal. *)
Definition show (v : option string) : string :=
  match v with Some s => s | None => "undefined" end.

(** [a || b] on strings. *)
Definition or_else (v : option string) (d : string) : string :=
  if truthy v then show v else d.

End JsString.

(* ================================================================== *)
(** ** JavaScript [Map] with string keys (insertion ordered) *)
(* ================================================================== *)

Module JsMap.

Definition t (V : Type) : Type := list (string * V).

Section Ops.
Context {V : Type}.

Fixpoint get (k : string) (m : t V) : option V :=
  match m with
  | [] => None
  | (k', v) :: rest => if String.eqb k k' then Some v else get k rest
  end.

Definition has (k : string) (m : t V) : bool :=
  match get k m with Some _ => true | None => false end.

(** [m.set(k, v)]: an existing key keeps its position, a new key goes
    to the end. *)
Fixpoint set (k : string) (v : V) (m : t V) : t V :=
  match m with
  | [] => [(k, v)]
  | (k', v') :: rest =>
      if String.eqb k k' then (k, v) :: rest else (k', v') :: set k v rest
  end.

Fixpoint delete (k : string) (m : t V) : t V :=
  match m with
  | [] => []
  | (k', v') :: rest =>
      if String.eqb k k' then delete k rest else (k', v') :: delete k rest
  end.

Definition keys (m : t V) : list string := map fst m.


(** [m.keys().next().value]: the first key, [undefined] when empty. *)
Definition first_key (m : t V) : option string :=
  match m with
  | [] => None
  | (k, _) :: _ => Some k
  end.

End Ops.

End JsMap.

(** A plain object with string-valued fields, in insertion order. *)
Definition Obj : Type := JsMap.t string.

(* ================================================================== *)
(** ** Exceptions *)
(* ================================================================== *)

Inductive Exc (A : Type) : Type :=
| Ok (a : A)
| Throw (msg : string).

Arguments Ok {A} a.
Arguments Throw {A} msg.

(* ================================================================== *)
(** ** Data model *)
(* ================================================================== *)

(** Opaque cursor/scroll state of the editor widget. *)
Definition ViewState : Type := nat.

(** A monaco text model. The language id given to [createModel] is not
    tracked. *)
Record Model : Type := mkModel {
  m_text : string;
  m_disposed : bool
}.

(** A file handle of the browser's file-system access API. *)
Record Handle : Type := mkHandle {
  h_path : string;
  h_name : string
}.

(** A value of the [openFiles] map. [model] is an id in the model heap. *)
Record FileData : Type := mkFileData {
  handle : Handle;
  name : string;
  model : nat;
  viewState : option ViewState
}.

(** The monaco editor widget held in the module variable [editor]. A
    selection is a pair of offsets (start, end) into the text. *)
Record Widget : Type := mkWidget {
  w_model : option nat;
  w_view : ViewState;
  w_readOnly : bool;
  w_selection : nat * nat
}.

Inductive Focus : Type := FocusNowhere | FocusEditor | FocusChatInput.

(** One entry of [getEditorState().openFiles]. *)
Record SavedFile : Type := mkSavedFile {
  sf_path : string;
  sf_content : string;
  sf_viewState : option ViewState
}.

Record EditorState : Type := mkEditorState {
  es_openFiles : option (list SavedFile);
  es_activeFile : option string
}.

Record Checkpoint : Type := mkCheckpoint {
  cp_name : string;
  cp_editorState : EditorState;
  cp_timestamp : Z
}.

(** The persistence store behind [DbManager]. *)
Record Db : Type := mkDb {
  checkpoints : list Checkpoint;
  codeIndex : option string
}.

Inductive Collaborator : Type :=
| FileSystem | Editor | DbManager | CodebaseIndexer | UI | Network
| Document | Console | Acorn | Timer | PrettierWorker.

(** One call to a collaborator, with what was passed. *)
Inductive Event : Type :=
| Call (c : Collaborator) (fn : string) (info : Obj).

(** Files on disk, by path. *)
Abbreviation FS := (gmap string string).

Record World : Type := mkWorld {
  (* module variables of editor.js *)
  editor : Widget;
  openFiles : JsMap.t FileData;
  activeFilePath : option string;
  (* monaco model heap *)
  models : list Model;
  (* DOM: the rendered tab strip (label, active) and the input focus *)
  tabBar : list (string * bool);
  focus : Focus;
  (* collaborators *)
  fs : FS;
  db : Db;
  trace : list Event
}.

Definition set_editor (x : Widget) (w : World) : World :=
  mkWorld x (openFiles w) (activeFilePath w) (models w) (tabBar w) (focus w) (fs w) (db w) (trace w).
Definition set_openFiles (x : JsMap.t FileData) (w : World) : World :=
  mkWorld (editor w) x (activeFilePath w) (models w) (tabBar w) (focus w) (fs w) (db w) (trace w).
Definition set_activeFilePath (x : option string) (w : World) : World :=
  mkWorld (editor w) (openFiles w) x (models w) (tabBar w) (focus w) (fs w) (db w) (trace w).
Definition set_models (x : list Model) (w : World) : World :=
  mkWorld (editor w) (openFiles w) (activeFilePath w) x (tabBar w) (focus w) (fs w) (db w) (trace w).
Definition set_tabBar (x : list (string * bool)) (w : World) : World :=
  mkWorld (editor w) (openFiles w) (activeFilePath w) (models w) x (focus w) (fs w) (db w) (trace w).
Definition set_focus (x : Focus) (w : World) : World :=
  mkWorld (editor w) (openFiles w) (activeFilePath w) (models w) (tabBar w) x (fs w) (db w) (trace w).
Definition set_fs (x : FS) (w : World) : World :=
  mkWorld (editor w) (openFiles w) (activeFilePath w) (models w) (tabBar w) (focus w) x (db w) (trace w).
Definition set_db (x : Db) (w : World) : World :=
  mkWorld (editor w) (openFiles w) (activeFilePath w) (models w) (tabBar w) (focus w) (fs w) x (trace w).
Definition set_trace (x : list Event) (w : World) : World :=
  mkWorld (editor w) (openFiles w) (activeFilePath w) (models w) (tabBar w) (focus w) (fs w) (db w) x.

(* ================================================================== *)
(** ** The state-and-exception monad *)
(* ================================================================== *)

(** A computation returns normally or throws; either way it leaves a
    world behind (JavaScript has no rollback). *)
Definition M (A : Type) : Type := World -> Exc A * World.

Definition ret {A} (a : A) : M A := fun w => (Ok a, w).

Definition throw {A} (msg : string) : M A := fun w => (Throw msg, w).

Definition bind {A B} (m : M A) (k : A -> M B) : M B :=
  fun w =>
    match m w with
    | (Ok a, w') => k a w'
    | (Throw e, w') => (Throw e, w')
    end.

(** [try { m } catch (error) { h error.message }]. *)
Definition try_catch {A} (m : M A) (h : string -> M A) : M A :=
  fun w =>
    match m w with
    | (Ok a, w') => (Ok a, w')
    | (Throw e, w') => h e w'
    end.

Definition gets {A} (f : World -> A) : M A := fun w => (Ok (f w), w).

Definition modify (f : World -> World) : M unit := fun w => (Ok tt, f w).

Declare Scope js_scope.
Delimit Scope js_scope with js.
Notation "x <- m ;; k" := (bind m (fun x => k))
  (at level 100, m at next level, right associativity) : js_scope.
Notation "m ;;; k" := (bind m (fun _ => k))
  (at level 100, right associativity) : js_scope.
Local Open Scope js_scope.

Definition when (b : bool) (m : M unit) : M unit := if b then m else ret tt.

(** [for (const x of l) { body x }]. *)
Fixpoint for_each {A} (l : list A) (body : A -> M unit) : M unit :=
  match l with
  | [] => ret tt
  | x :: rest => body x ;;; for_each rest body
  end.

(** Record a call to a collaborator. *)
Definition log (c : Collaborator) (fn : string) (info : Obj) : M unit :=
  modify (fun w => set_trace (trace w ++ [Call c fn info]) w).

(** Lift a collaborator function on the file system into [M]. *)
Definition on_fs {A} (f : FS -> Exc (A * FS)) : M A :=
  fun w =>
    match f (fs w) with
    | Ok (a, fs') => (Ok a, set_fs fs' w)
    | Throw e => (Throw e, w)
    end.

Definition result {A} (r : Exc A * World) : Exc A := fst r.
Definition world_of {A} (r : Exc A * World) : World := snd r.

(* ================================================================== *)
(** ** Collaborators *)
(* ================================================================== *)

(** The project-root directory handle, and directory handles in general,
    are opaque. *)
Definition Root : Type := string.
Definition DirHandle : Type := string.

(** A diagnostic marker reported by monaco for a model. *)
Record Marker : Type := mkMarker {
  severity : Z;
  startLineNumber : Z;
  message : string
}.

(** [monaco.MarkerSeverity.Error]. *)
Definition MarkerSeverity_Error : Z := 8.

(** The response of [fetch]: [response.ok] and the parsed JSON body. *)
Record Response : Type := mkResponse {
  ok : bool;
  json : Obj
}.

(** The functions imported from [file_system.js], [db.js], [code_intel.js]
    and [ui.js], and the browser and library services used by the two
    files. A function that can fail returns [Throw] with the message of
    the error it throws. *)
Record Env : Type := mkEnv {
  (* file_system.js *)
  getFileHandleFromPath : option Root -> string -> bool -> FS -> Exc (Handle * FS);
  getParentDirectoryHandle : option Root -> string -> FS -> Exc (DirHandle * string * FS);
  removeEntry : DirHandle -> string -> bool -> FS -> Exc (unit * FS);
  renameEntry : option Root -> string -> string -> FS -> Exc (unit * FS);
  createDirectoryFromPath : option Root -> string -> FS -> Exc (unit * FS);
  searchInDirectory : option Root -> option string -> FS -> Exc (string * FS);
  buildStructureTree : option Root -> FS -> Exc (string * FS);
  formatTreeToString : string -> string;
  (* ui.js *)
  refreshFileTree : option Root -> FS -> Exc (unit * FS);
  (* db.js *)
  saveCheckpoint : Checkpoint -> Db -> Exc Db;
  saveCodeIndex : string -> Db -> Exc Db;
  getCodeIndex : Db -> Exc (option string);
  (* code_intel.js *)
  buildIndex : option Root -> FS -> Exc (string * FS);
  queryIndex : string -> option string -> Exc string;
  (* fetch(endpoint, body): the server may change files on disk *)
  fetch : string -> Obj -> FS -> Exc (Response * FS);
  (* acorn.parse and acorn.walk.simple on a source text *)
  acornAnalyze : string -> Exc string;
  (* monaco.editor.getModelMarkers for a model with the given text *)
  modelMarkers : string -> list Marker;
  (* Date.now() and new Date().toLocaleString() *)
  dateNow : Z;
  dateLocaleString : string
}.


(* ================================================================== *)
(** ** editor.js *)
(* ================================================================== *)

Module EditorJs.

(** *** monaco and DOM primitives *)

(** [monaco.editor.createModel(content, language)]: a fresh model. *)
Definition createModel (content : string) : M nat :=
  fun w => (Ok (length (models w)),
            set_models (models w ++ [mkModel content false]) w).

Definition modelText (id : nat) (w : World) : string :=
  match models w !! id with
  | Some m => m_text m
  | None => EmptyString
  end.

(** [model.getValue()]. *)
Definition model_getValue (id : nat) : M string := gets (modelText id).

(** [model.setValue(text)]. *)
Definition model_setValue (id : nat) (text : string) : M unit :=
  modify (fun w =>
    set_models (alter (fun m => mkModel text (m_disposed m)) id (models w)) w).

(** [model.dispose()]: the model is marked disposed, and an editor
    widget showing it is left without a model. *)
Definition model_dispose (id : nat) : M unit :=
  modify (fun w =>
    let w' := set_models
                (alter (fun m => mkModel (m_text m) true) id (models w)) w in
    let e := editor w' in
    if decide (w_model e = Some id)
    then set_editor (mkWidget None (w_view e) (w_readOnly e) (w_selection e)) w'
    else w').

(** [editor.setModel(model)]: the widget shows the model with a fresh
    view (cursor at the start, nothing selected). *)
Definition editor_setModel (id : nat) : M unit :=
  modify (fun w =>
    set_editor (mkWidget (Some id) 0 (w_readOnly (editor w)) (0, 0)) w).

(** [editor.saveViewState()]: [null] when the widget has no model. *)
Definition editor_saveViewState : M (option ViewState) :=
  gets (fun w =>
    match w_model (editor w) with
    | Some _ => Some (w_view (editor w))
    | None => None
    end).

(** [editor.restoreViewState(state)]. *)
Definition editor_restoreViewState (vs : ViewState) : M unit :=
  modify (fun w =>
    let e := editor w in
    set_editor (mkWidget (w_model e) vs (w_readOnly e) (w_selection e)) w).

(** [editor.focus()]. *)
Definition editor_focus : M unit := modify (set_focus FocusEditor).

(** [editor.updateOptions({ readOnly })]. *)
Definition editor_updateOptions (readOnly : bool) : M unit :=
  modify (fun w =>
    let e := editor w in
    set_editor (mkWidget (w_model e) (w_view e) readOnly (w_selection e)) w).

(** [fileHandle.getFile()] followed by [file.name] and [file.text()]. *)
Definition handle_getFile (h : Handle) : M (string * string) :=
  fun w =>
    match fs w !! h_path h with
    | Some text => (Ok (h_name h, text), w)
    | None => (Throw "A requested file or directory could not be found.", w)
    end.

(** [createWritable()], [write(content)], [close()] on a file handle; a
    write is taken to succeed. *)
Definition handle_write (h : Handle) (content : string) : M unit :=
  modify (fun w => set_fs (<[h_path h := content]> (fs w)) w).

Definition console_error (msg : string) : M unit :=
  log Console "error" [("message", msg)].

(** *** The module's functions *)

(** [renderTabs]: one tab per open file, in map order; the tab of the
    active path is marked. The click handlers are not represented. *)
Definition renderTabs : M unit :=
  modify (fun w =>
    set_tabBar
      (map (fun kv => (name (snd kv),
                       bool_decide (Some (fst kv) = activeFilePath w)))
           (openFiles w)) w).

Definition placeholder : string := "// Select a file to view its content".

Definition clearEditor : M unit :=
  m <- createModel placeholder ;;
  editor_setModel m ;;;
  editor_updateOptions true ;;;
  modify (set_activeFilePath None) ;;;
  modify (set_openFiles []).

(** [openFiles.get(activeFilePath).viewState = editor.saveViewState()]
    under the guard [activeFilePath && openFiles.has(activeFilePath)]. *)
Definition captureActiveViewState : M unit :=
  active <- gets activeFilePath ;;
  files <- gets openFiles ;;
  match active with
  | Some p =>
      if JsString.truthy active then
        match JsMap.get p files with
        | Some fd =>
            vs <- editor_saveViewState ;;
            modify (fun w =>
              set_openFiles
                (JsMap.set p (mkFileData (handle fd) (name fd) (model fd) vs)
                           (openFiles w)) w)
        | None => ret tt
        end
      else ret tt
  | None => ret tt
  end.

Definition switchTab (filePath : string) (focusEditor : bool) : M unit :=
  captureActiveViewState ;;;
  modify (set_activeFilePath (Some filePath)) ;;;
  fileData <- gets (fun w => JsMap.get filePath (openFiles w)) ;;
  match fileData with
  | None =>
      throw "Cannot read properties of undefined (reading 'model')"
  | Some fd =>
      editor_setModel (model fd) ;;;
      match viewState fd with
      | Some vs => editor_restoreViewState vs
      | None => ret tt
      end ;;;
      when focusEditor editor_focus ;;;
      editor_updateOptions false ;;;
      renderTabs
  end.

(** A call to an [async] function that is not awaited: an error inside
    it rejects a promise nobody looks at. *)
Definition not_awaited (m : M unit) : M unit :=
  try_catch m (fun _ => ret tt).

Definition closeTab (filePath : string) : M unit :=
  fileData <- gets (fun w => JsMap.get filePath (openFiles w)) ;;
  match fileData with
  | Some fd => model_dispose (model fd)
  | None => ret tt
  end ;;;
  modify (fun w => set_openFiles (JsMap.delete filePath (openFiles w)) w) ;;;
  active <- gets activeFilePath ;;
  if bool_decide (active = Some filePath) then
    modify (set_activeFilePath None) ;;;
    nextFile <- gets (fun w => JsMap.first_key (openFiles w)) ;;
    if JsString.truthy nextFile then
      not_awaited (switchTab (JsString.show nextFile) true)
    else
      clearEditor ;;; renderTabs
  else
    renderTabs.

Definition openFile (fileHandle : Handle) (filePath : string)
    (focusEditor : bool) : M unit :=
  isOpen <- gets (fun w => JsMap.has filePath (openFiles w)) ;;
  if isOpen then switchTab filePath focusEditor
  else
    try_catch
      (file <- handle_getFile fileHandle ;;
       m <- createModel (snd file) ;;
       modify (fun w =>
         set_openFiles
           (JsMap.set filePath
              (mkFileData fileHandle (fst file) m None) (openFiles w)) w) ;;;
       switchTab filePath focusEditor)
      (fun e => console_error ("Failed to open file " ++ filePath ++ ":" ++ e)).

Definition saveFile (fd : FileData) : M unit :=
  content <- model_getValue (model fd) ;;
  handle_write (handle fd) content.

Definition saveActiveFile : M unit :=
  active <- gets activeFilePath ;;
  if JsString.truthy active then
    try_catch
      (fileData <- gets (fun w => JsMap.get (JsString.show active) (openFiles w)) ;;
       match fileData with
       | Some fd => saveFile fd
       | None => throw "Cannot read properties of undefined (reading 'handle')"
       end)
      (fun e => console_error ("Failed to save file:" ++ e))
  else ret tt.

Definition saveAllOpenFiles : M unit :=
  files <- gets openFiles ;;
  for_each files (fun kv =>
    try_catch (saveFile (snd kv))
      (fun e => console_error
                  ("Failed to save file '" ++ name (snd kv) ++ "':" ++ e))).

Definition getActiveFile : M (option FileData) :=
  gets (fun w =>
    if JsString.truthy (activeFilePath w)
    then JsMap.get (JsString.show (activeFilePath w)) (openFiles w)
    else None).

Definition getOpenFiles : M (JsMap.t FileData) := gets openFiles.

Definition getActiveFilePath : M (option string) := gets activeFilePath.

Definition getPrettierParser (filename : string) : string :=
  let extension := JsString.pop (JsString.split "." filename) in
  if String.eqb extension "js" || String.eqb extension "ts"
     || String.eqb extension "jsx" || String.eqb extension "tsx" then "babel"
  else if String.eqb extension "html" then "html"
  else if String.eqb extension "css" || String.eqb extension "scss"
          || String.eqb extension "less" then "css"
  else if String.eqb extension "json" then "json"
  else if String.eqb extension "md" then "markdown"
  else "babel".

Definition getEditorState : M EditorState :=
  captureActiveViewState ;;;
  w <- gets id ;;
  ret (mkEditorState
         (Some (map (fun kv =>
                  mkSavedFile (fst kv) (modelText (model (snd kv)) w)
                              (viewState (snd kv)))
                (openFiles w)))
         (activeFilePath w)).

Section WithEnv.
Context (env : Env).

(** One iteration of the loop of [restoreEditorState]. *)
Definition restoreFile (rootHandle : option Root) (fileData : SavedFile) : M unit :=
  try_catch
    (fileHandle <- on_fs (getFileHandleFromPath env rootHandle (sf_path fileData) true) ;;
     m <- createModel (sf_content fileData) ;;
     modify (fun w =>
       set_openFiles
         (JsMap.set (sf_path fileData)
            (mkFileData fileHandle (h_name fileHandle) m (sf_viewState fileData))
            (openFiles w)) w))
    (fun e => console_error
                ("Could not restore file " ++ sf_path fileData ++ ":" ++ e)).

Definition restoreEditorState (state : option EditorState)
    (rootHandle : option Root) : M unit :=
  match state with
  | None => ret tt
  | Some st =>
      match es_openFiles st with
      | None => ret tt
      | Some files =>
          for_each files (restoreFile rootHandle) ;;;
          isOpen <- gets (fun w =>
            JsString.truthy (es_activeFile st)
            && JsMap.has (JsString.show (es_activeFile st)) (openFiles w)) ;;
          if isOpen then switchTab (JsString.show (es_activeFile st)) true
          else
            files' <- gets openFiles ;;
            match JsMap.first_key files' with
            | Some firstFile => switchTab firstFile true
            | None => renderTabs
            end
      end
  end.

(** One iteration of the loop of [restoreCheckpointState]. *)
Definition discardFile (filePath : string) : M unit :=
  fileData <- gets (fun w => JsMap.get filePath (openFiles w)) ;;
  match fileData with
  | Some fd => model_dispose (model fd)
  | None => ret tt
  end ;;;
  modify (fun w => set_openFiles (JsMap.delete filePath (openFiles w)) w).

Definition restoreCheckpointState (state : option EditorState)
    (rootHandle : option Root) : M unit :=
  currentFiles <- gets (fun w => JsMap.keys (openFiles w)) ;;
  for_each currentFiles discardFile ;;;
  modify (set_activeFilePath None) ;;;
  restoreEditorState state rootHandle.

Definition getModelMarkers (filePath : string) : M (list Marker) :=
  gets (fun w =>
    match JsMap.get filePath (openFiles w) with
    | None => []
    | Some fd => modelMarkers env (modelText (model fd) w)
    end).

End WithEnv.

(** The module state once [initializeEditor] has run: the widget shows
    its start-up text (model 0) read-only, no file is open. *)
Definition startText : string :=
  "<!-- Click " ++ String (ascii_of_nat 34) "Open Project Folder"
  ++ String (ascii_of_nat 34) " to start -->".

Definition initial (files : FS) : World :=
  mkWorld (mkWidget (Some 0) 0 true (0, 0)) [] None
          [mkModel startText false] [] FocusNowhere files (mkDb [] None) [].

End EditorJs.

(* ================================================================== *)
(** ** tool_executor.js *)
(* ================================================================== *)

Module ToolExecutor.

Local Open Scope string_scope.

(** [toolCall.args]: the parameters the tool declarations know, each
    possibly missing ([undefined]). Text parameters are strings and
    [line_number] is an integer. *)
Record Args : Type := mkArgs {
  filename : option string;
  content : option string;
  line_number : option Z;
  url : option string;
  query : option string;
  search_term : option string;
  folder_path : option string;
  old_folder_path : option string;
  new_folder_path : option string;
  old_path : option string;
  new_path : option string;
  new_text : option string;
  command : option string
}.

Record ToolCall : Type := mkToolCall {
  call_name : string;
  call_args : Args
}.

Definition noArgs : Args :=
  mkArgs None None None None None None None None None None None None None.

(** [list.includes(x)]. *)
Definition includes (l : list string) (x : string) : bool :=
  existsb (String.eqb x) l.

Definition rootRequiredTools : list string :=
  [ "create_file"; "read_file"; "search_code"; "get_project_structure";
    "delete_file"; "build_or_update_codebase_index"; "query_codebase";
    "create_folder"; "delete_folder"; "rename_folder"; "rewrite_file";
    "format_code"; "analyze_code"; "rename_file"; "insert_content" ].

Definition checkpointTools : list string :=
  [ "create_file"; "delete_file"; "rewrite_file"; "rename_file";
    "create_folder"; "delete_folder"; "rename_folder"; "insert_content" ].

Definition errorCheckedTools : list string :=
  [ "rewrite_file"; "insert_content"; "replace_selected_text" ].

(** [!rootDirectoryHandle]. *)
Definition absent (rootDirectoryHandle : option Root) : bool :=
  match rootDirectoryHandle with Some _ => false | None => true end.

Definition noProjectMessage : string :=
  "No project folder is open. Please ask the user to open a folder before using this tool.".

Definition MAX_LENGTH : nat := Z.to_nat 30000.

Definition truncationNotice : string :=
  JsString.LF ++ JsString.LF
  ++ "... (file content truncated because it was too long)".

(** The cap of [read_file]. *)
Definition truncateContent (content : string) : string :=
  if (MAX_LENGTH <? String.length content)%nat
  then String.substring 0 MAX_LENGTH content ++ truncationNotice
  else content.

(** [Math.max(0, line_number - 1)] as an array index; a missing
    [line_number] gives [NaN], which [splice] reads as 0. *)
Definition insertionPoint (line_number : option Z) : nat :=
  match line_number with
  | Some n => Z.to_nat (Z.max 0 (n - 1))
  | None => 0
  end.

(** The text computed by [insert_content]: split, splice, join. A
    missing [content] is joined as the empty string. *)
Definition insertedContent (originalContent : string)
    (line_number : option Z) (content : option string) : string :=
  let lines := JsString.split "\n" originalContent in
  let lines' := JsString.splice_insert (insertionPoint line_number)
                  (default EmptyString content) lines in
  JsString.join "\n" lines'.

Definition showNumber (n : option Z) : string :=
  match n with Some z => pretty z | None => "undefined" end.

(** A field that is left out of an object when its value is
    [undefined]. *)
Definition field (k : string) (v : option string) : Obj :=
  match v with Some s => [(k, s)] | None => [] end.

(** [document.getElementById('chat-input').focus()]. *)
Definition chatInput_focus : M unit := modify (set_focus FocusChatInput).

(** Modelled from the spec: what the functions of file_system.js, which
    is not among the sources, do with a missing ([undefined]) path. The
    spec has missing parameters surface as errors thrown by the
    file-system collaborator. *)
Definition required (v : option string) : M string :=
  match v with
  | Some s => ret s
  | None => throw "Cannot read properties of undefined (reading 'split')"
  end.

(** A call to a file-system function with a path argument. The call is
    recorded; a missing path makes the collaborator throw. *)
Definition path_arg (fn : string) (path : option string) : M string :=
  log FileSystem fn (field "path" path) ;;;
  required path.

(** The arguments of [FileSystem.renameEntry(root, oldPath, newPath)]. *)
Definition rename_args (oldPath newPath : option string) : M (string * string) :=
  log FileSystem "renameEntry" (field "old" oldPath ++ field "new" newPath)%list ;;;
  old <- required oldPath ;;
  new <- required newPath ;;
  ret (old, new).

(** [createWritable()], [write(data)], [close()] with the data argument
    of a tool call; the browser refuses [undefined] data. *)
Definition write_arg (h : Handle) (data : option string) : M unit :=
  log FileSystem "write" (field "path" (Some (h_path h))) ;;;
  match data with
  | Some text => EditorJs.handle_write h text
  | None => throw "Failed to execute 'write' on 'FileSystemWritableFileStream'"
  end.

Definition getFile (h : Handle) : M (string * string) :=
  log FileSystem "getFile" (field "path" (Some (h_path h))) ;;;
  EditorJs.handle_getFile h.

(** Calls into editor.js, recorded in the trace. *)
Definition Editor_openFile (h : Handle) (filePath : string) (focusEditor : bool) : M unit :=
  log Editor "openFile" [("filePath", filePath)] ;;;
  EditorJs.openFile h filePath focusEditor.

Definition Editor_closeTab (filePath : string) : M unit :=
  log Editor "closeTab" [("filePath", filePath)] ;;;
  EditorJs.closeTab filePath.

Definition Editor_getOpenFiles : M (JsMap.t FileData) :=
  log Editor "getOpenFiles" [] ;;; EditorJs.getOpenFiles.

(** [editor.getSelection()]: [null] when the widget has no model. *)
Definition editor_getSelection : M (option (nat * nat)) :=
  log Editor "getEditorInstance" [] ;;;
  gets (fun w =>
    match w_model (editor w) with
    | Some _ => Some (w_selection (editor w))
    | None => None
    end).

(** [selection.isEmpty()]. *)
Definition selection_isEmpty (sel : nat * nat) : bool :=
  (fst sel =? snd sel)%nat.

(** [editor.getModel().getValueInRange(selection)]. *)
Definition getValueInRange (sel : nat * nat) : M string :=
  gets (fun w =>
    match w_model (editor w) with
    | Some id => String.substring (fst sel) (snd sel - fst sel)
                   (EditorJs.modelText id w)
    | None => EmptyString
    end).

(** [editor.executeEdits('ai-agent', [{ range, text }])]: a read-only
    widget refuses the edit; otherwise the range is replaced and the
    caret is left after the new text. *)
Definition executeEdits (sel : nat * nat) (text : string) : M unit :=
  log Editor "executeEdits" [("source", "ai-agent"); ("text", text)] ;;;
  w <- gets id ;;
  match w_model (editor w) with
  | Some id =>
      if w_readOnly (editor w) then ret tt
      else
        let old := EditorJs.modelText id w in
        let new : string :=
          (String.substring 0 (fst sel) old ++ text
           ++ String.substring (snd sel) (String.length old - snd sel) old)%string in
        let caret := (fst sel + String.length text)%nat in
        EditorJs.model_setValue id new ;;;
        modify (fun w' =>
          let e := editor w' in
          set_editor (mkWidget (w_model e) (w_view e) (w_readOnly e) (caret, caret)) w')
  | None => ret tt
  end.

Section WithEnv.
Context (env : Env).

Definition on_db (f : Db -> Exc Db) : M unit :=
  fun w =>
    match f (db w) with
    | Ok d => (Ok tt, set_db d w)
    | Throw e => (Throw e, w)
    end.

Definition UI_refreshFileTree (root : option Root) : M unit :=
  log UI "refreshFileTree" [] ;;;
  on_fs (refreshFileTree env root).

Definition do_fetch (endpoint : string) (body : Obj) : M Response :=
  log Network endpoint body ;;;
  on_fs (fetch env endpoint body).

(** The automatic checkpoint taken before a mutating tool runs. *)
Definition checkpointInterception (toolName : string) : M unit :=
  when (includes checkpointTools toolName)
    (try_catch
       (log Editor "getEditorState" [] ;;;
        editorState <- EditorJs.getEditorState ;;
        match es_openFiles editorState with
        | Some (_ :: _) =>
            let checkpointData :=
              mkCheckpoint ("Auto-Checkpoint @ " ++ dateLocaleString env)
                           editorState (dateNow env) in
            log DbManager "saveCheckpoint" [("name", cp_name checkpointData)] ;;;
            on_db (saveCheckpoint env checkpointData)
        | _ => ret tt
        end)
       (fun e => EditorJs.console_error
                   ("Failed to create automatic checkpoint:" ++ e))).

(** The [switch (toolName)] of [executeTool]. *)
Definition dispatch (toolName : string) (parameters : Args)
    (root : option Root) : M Obj :=
  if String.eqb toolName "get_project_structure" then
    log FileSystem "buildStructureTree" [] ;;;
    tree <- on_fs (buildStructureTree env root) ;;
    ret [("structure", formatTreeToString env tree)]
  else if String.eqb toolName "read_file" then
    p <- path_arg "getFileHandleFromPath" (filename parameters) ;;
    fileHandle <- on_fs (getFileHandleFromPath env root p false) ;;
    file <- getFile fileHandle ;;
    let content := truncateContent (snd file) in
    Editor_openFile fileHandle p false ;;;
    chatInput_focus ;;;
    ret [("content", content)]
  else if String.eqb toolName "read_url" then
    response <- do_fetch "/api/read-url" (field "url" (url parameters)) ;;
    if ok response then ret (json response)
    else throw (JsString.or_else (JsMap.get "message" (json response))
                                 "Failed to read URL")
  else if String.eqb toolName "create_file" then
    p <- path_arg "getFileHandleFromPath" (filename parameters) ;;
    fileHandle <- on_fs (getFileHandleFromPath env root p true) ;;
    write_arg fileHandle (content parameters) ;;;
    UI_refreshFileTree root ;;;
    Editor_openFile fileHandle p false ;;;
    chatInput_focus ;;;
    ret [("message", "File '" ++ p ++ "' created successfully.")]
  else if String.eqb toolName "delete_file" then
    p <- path_arg "getParentDirectoryHandle" (filename parameters) ;;
    parent <- on_fs (fun files =>
                match getParentDirectoryHandle env root p files with
                | Ok (d, n, files') => Ok ((d, n), files')
                | Throw e => Throw e
                end) ;;
    log FileSystem "removeEntry" [("name", snd parent)] ;;;
    on_fs (removeEntry env (fst parent) (snd parent) false) ;;;
    files <- Editor_getOpenFiles ;;
    when (JsMap.has p files) (Editor_closeTab p) ;;;
    UI_refreshFileTree root ;;;
    ret [("message", "File '" ++ p ++ "' deleted successfully.")]
  else if String.eqb toolName "delete_folder" then
    p <- path_arg "getParentDirectoryHandle" (folder_path parameters) ;;
    parent <- on_fs (fun files =>
                match getParentDirectoryHandle env root p files with
                | Ok (d, n, files') => Ok ((d, n), files')
                | Throw e => Throw e
                end) ;;
    log FileSystem "removeEntry" [("name", snd parent); ("recursive", "true")] ;;;
    on_fs (removeEntry env (fst parent) (snd parent) true) ;;;
    UI_refreshFileTree root ;;;
    ret [("message", "Folder '" ++ p ++ "' deleted successfully.")]
  else if String.eqb toolName "rename_folder" then
    paths <- rename_args (old_folder_path parameters) (new_folder_path parameters) ;;
    on_fs (renameEntry env root (fst paths) (snd paths)) ;;;
    UI_refreshFileTree root ;;;
    ret [("message", "Folder '" ++ fst paths ++ "' renamed to '" ++ snd paths
                      ++ "' successfully.")]
  else if String.eqb toolName "rename_file" then
    paths <- rename_args (old_path parameters) (new_path parameters) ;;
    on_fs (renameEntry env root (fst paths) (snd paths)) ;;;
    UI_refreshFileTree root ;;;
    files <- Editor_getOpenFiles ;;
    when (JsMap.has (fst paths) files)
      (Editor_closeTab (fst paths) ;;;
       log FileSystem "getFileHandleFromPath" [("path", snd paths)] ;;;
       newFileHandle <- on_fs (getFileHandleFromPath env root (snd paths) false) ;;
       Editor_openFile newFileHandle (snd paths) false ;;;
       chatInput_focus) ;;;
    ret [("message", "File '" ++ fst paths ++ "' renamed to '" ++ snd paths
                      ++ "' successfully.")]
  else if String.eqb toolName "create_folder" then
    p <- path_arg "createDirectoryFromPath" (folder_path parameters) ;;
    on_fs (createDirectoryFromPath env root p) ;;;
    UI_refreshFileTree root ;;;
    ret [("message", "Folder '" ++ p ++ "' created successfully.")]
  else if String.eqb toolName "duckduckgo_search" then
    response <- do_fetch "/api/duckduckgo-search" (field "query" (query parameters)) ;;
    if ok response then ret (json response)
    else throw (JsString.or_else (JsMap.get "message" (json response))
                                 "Failed to perform search")
  else if String.eqb toolName "search_code" then
    log FileSystem "searchInDirectory" (field "search_term" (search_term parameters)) ;;;
    searchResults <- on_fs (searchInDirectory env root (search_term parameters)) ;;
    ret [("results", searchResults)]
  else if String.eqb toolName "get_open_file_content" then
    log Editor "getActiveFile" [] ;;;
    activeFile <- EditorJs.getActiveFile ;;
    match activeFile with
    | None => throw "No file is currently open in the editor."
    | Some fd =>
        text <- EditorJs.model_getValue (model fd) ;;
        ret [("filename", name fd); ("content", text)]
    end
  else if String.eqb toolName "get_selected_text" then
    selection <- editor_getSelection ;;
    match selection with
    | Some sel =>
        if selection_isEmpty sel then throw "No text is currently selected."
        else
          text <- getValueInRange sel ;;
          ret [("selected_text", text)]
    | None => throw "No text is currently selected."
    end
  else if String.eqb toolName "replace_selected_text" then
    selection <- editor_getSelection ;;
    match selection with
    | Some sel =>
        if selection_isEmpty sel then throw "No text is selected to replace."
        else
          executeEdits sel (default EmptyString (new_text parameters)) ;;;
          ret [("message", "Replaced the selected text.")]
    | None => throw "No text is selected to replace."
    end
  else if String.eqb toolName "run_terminal_command" then
    response <- do_fetch "/api/execute-tool"
                  (("toolName", "run_terminal_command")
                     :: field "command" (command parameters)) ;;
    if bool_decide (JsMap.get "status" (json response) = Some "Success") then
      UI_refreshFileTree root ;;;
      ret (field "output" (JsMap.get "output" (json response)))
    else throw (default EmptyString (JsMap.get "message" (json response)))
  else if String.eqb toolName "build_or_update_codebase_index" then
    log UI "appendMessage" [("text", "Building codebase index...")] ;;;
    log CodebaseIndexer "buildIndex" [] ;;;
    index <- on_fs (buildIndex env root) ;;
    log DbManager "saveCodeIndex" [] ;;;
    on_db (saveCodeIndex env index) ;;;
    ret [("message", "Codebase index built successfully.")]
  else if String.eqb toolName "query_codebase" then
    log DbManager "getCodeIndex" [] ;;;
    index <- (fun w => (getCodeIndex env (db w), w)) ;;
    match index with
    | None => throw "No codebase index. Please run 'build_or_update_codebase_index'."
    | Some idx =>
        log CodebaseIndexer "queryIndex" (field "query" (query parameters)) ;;;
        queryResults <- (fun w => (queryIndex env idx (query parameters), w)) ;;
        ret [("results", queryResults)]
    end
  else if String.eqb toolName "get_file_history" then
    let command : string :=
      ("git log --pretty=format:" ++ String (ascii_of_nat 34) "%h - %an, %ar : %s"
       ++ String (ascii_of_nat 34) " -- " ++ JsString.show (filename parameters))%string in
    response <- do_fetch "/api/execute-tool"
                  [("toolName", "run_terminal_command"); ("command", command)] ;;
    if bool_decide (JsMap.get "status" (json response) = Some "Success") then
      ret (field "history" (JsMap.get "output" (json response)))
    else throw (default EmptyString (JsMap.get "message" (json response)))
  else if String.eqb toolName "rewrite_file" then
    p <- path_arg "getFileHandleFromPath" (filename parameters) ;;
    fileHandle <- on_fs (getFileHandleFromPath env root p false) ;;
    write_arg fileHandle (content parameters) ;;;
    files <- Editor_getOpenFiles ;;
    match JsMap.get p files with
    | Some fileData =>
        EditorJs.model_setValue (model fileData)
          (default EmptyString (content parameters))
    | None => ret tt
    end ;;;
    Editor_openFile fileHandle p false ;;;
    chatInput_focus ;;;
    ret [("message", "File '" ++ p ++ "' rewritten successfully.")]
  else if String.eqb toolName "format_code" then
    p <- path_arg "getFileHandleFromPath" (filename parameters) ;;
    fileHandle <- on_fs (getFileHandleFromPath env root p false) ;;
    file <- getFile fileHandle ;;
    let parser := EditorJs.getPrettierParser p in
    log PrettierWorker "postMessage" [("code", snd file); ("parser", parser)] ;;;
    ret [("message", "Formatting request for '" ++ p ++ "' sent.")]
  else if String.eqb toolName "analyze_code" then
    match filename parameters with
    | None => throw "Cannot read properties of undefined (reading 'endsWith')"
    | Some f =>
        if negb (JsString.endsWith ".js" f) then
          throw "This tool can only analyze .js files. Use read_file for others."
        else
          p <- path_arg "getFileHandleFromPath" (filename parameters) ;;
          fileHandle <- on_fs (getFileHandleFromPath env root p false) ;;
          file <- getFile fileHandle ;;
          log Acorn "parse" [] ;;;
          analysis <- (fun w => (acornAnalyze env (snd file), w)) ;;
          ret [("analysis", analysis)]
    end
  else if String.eqb toolName "insert_content" then
    p <- path_arg "getFileHandleFromPath" (filename parameters) ;;
    fileHandle <- on_fs (getFileHandleFromPath env root p false) ;;
    file <- getFile fileHandle ;;
    let newContent :=
      insertedContent (snd file) (line_number parameters) (content parameters) in
    write_arg fileHandle (Some newContent) ;;;
    files <- Editor_getOpenFiles ;;
    match JsMap.get p files with
    | Some fileData => EditorJs.model_setValue (model fileData) newContent
    | None => ret tt
    end ;;;
    Editor_openFile fileHandle p false ;;;
    chatInput_focus ;;;
    ret [("message", "Content inserted into '" ++ p ++ "' at line "
                      ++ showNumber (line_number parameters) ++ ".")]
  else
    throw ("Unknown tool '" ++ toolName ++ "'.").

Definition executeTool (toolCall : ToolCall) (rootDirectoryHandle : option Root)
    : M Obj :=
  let toolName := call_name toolCall in
  let parameters := call_args toolCall in
  if absent rootDirectoryHandle && includes rootRequiredTools toolName
  then ret [("error", noProjectMessage)]
  else
    checkpointInterception toolName ;;;
    dispatch toolName parameters rootDirectoryHandle.

(** One line of the warning of the automatic error check. *)
Definition errorLine (e : Marker) : string :=
  "L" ++ pretty (startLineNumber e) ++ ": " ++ message e.

(** The automatic error check of [execute], entered when the call
    counts as a success and the tool is one of [errorCheckedTools]. *)
Definition automaticErrorCheck (parameters : Args) (resultForModel : Obj)
    : M Obj :=
  active <- (if JsString.truthy (filename parameters) then ret None
             else log Editor "getActiveFilePath" [] ;;; EditorJs.getActiveFilePath) ;;
  let filePath := if JsString.truthy (filename parameters)
                  then filename parameters else active in
  if JsString.truthy filePath then
    log Timer "setTimeout" [("ms", "200")] ;;;
    log Editor "getModelMarkers" [("filePath", JsString.show filePath)] ;;;
    markers <- EditorJs.getModelMarkers env (JsString.show filePath) ;;
    let errors := filter (fun m => severity m = MarkerSeverity_Error) markers in
    match errors with
    | [] => ret resultForModel
    | _ :: _ =>
        let errorMessages : string := JsString.join "\n" (map errorLine errors) in
        ret (JsMap.set "message"
               (JsString.or_else (JsMap.get "message" resultForModel) EmptyString
                ++ "\n\n**Warning**: The file was modified, but syntax errors were detected:\n"
                ++ errorMessages)
               resultForModel)
    end
  else ret resultForModel.

(** [{ status: 'Success', ...resultForModel }]. *)
Definition successLog (resultForModel : Obj) : Obj :=
  fold_left (fun o kv => JsMap.set (fst kv) (snd kv) o) resultForModel
            [("status", "Success")].

(** [{ status: 'Error', message: resultForModel.error }]. *)
Definition errorLog (resultForModel : Obj) : Obj :=
  ("status", "Error") :: field "message" (JsMap.get "error" resultForModel).

(** The value [execute] returns: [{ toolResponse: { name, response } }]. *)
Record ToolResponse : Type := mkToolResponse {
  tr_name : string;
  tr_response : Obj
}.

(** [console.group] and [console.groupEnd] are not recorded. *)
Definition execute (toolCall : ToolCall) (rootDirectoryHandle : option Root)
    : M ToolResponse :=
  let toolName := call_name toolCall in
  let parameters := call_args toolCall in
  log UI "appendToolLog" [("toolName", toolName)] ;;;
  outcome <- try_catch
               (r <- executeTool toolCall rootDirectoryHandle ;; ret (true, r))
               (fun e =>
                  let errorMessage : string :=
                    ("Error executing tool '" ++ toolName ++ "': " ++ e)%string in
                  EditorJs.console_error errorMessage ;;;
                  ret (false, [("error", errorMessage)])) ;;
  let isSuccess := fst outcome in
  resultForModel <-
    (if isSuccess && includes errorCheckedTools toolName
     then automaticErrorCheck parameters (snd outcome)
     else ret (snd outcome)) ;;
  let resultForLog :=
    if isSuccess then successLog resultForModel else errorLog resultForModel in
  log Console "log" resultForLog ;;;
  log UI "updateToolLog" [("isSuccess", if isSuccess then "true" else "false")] ;;;
  ret (mkToolResponse toolName resultForModel).

End WithEnv.

End ToolExecutor.

(* ================================================================== *)
(** ** A reference environment *)
(* ================================================================== *)

Module SimpleEnv.

Local Open Scope string_scope.

Definition notFound : string :=
  "A requested file or directory could not be found.".

Definition noRoot : string :=
  "Cannot read properties of null (reading 'getDirectoryHandle')".

(** Modelled from the spec: [FileSystem.getFileHandleFromPath] of
    file_system.js, which is not among the sources (resolve path to
    handle, optionally creating the file). The project is a flat set of
    files; nothing can be resolved against an absent root. *)
Definition getFileHandleFromPath (root : option Root) (path : string)
    (create : bool) (files : FS) : Exc (Handle * FS) :=
  match root with
  | None => Throw noRoot
  | Some _ =>
      match files !! path with
      | Some _ => Ok (mkHandle path path, files)
      | None =>
          if create then Ok (mkHandle path path, <[path := EmptyString]> files)
          else Throw notFound
      end
  end.

(** Modelled from the spec: [FileSystem.getParentDirectoryHandle]
    (resolve parent and entry name for delete and rename). *)
Definition getParentDirectoryHandle (root : option Root) (path : string)
    (files : FS) : Exc (DirHandle * string * FS) :=
  match root with
  | None => Throw noRoot
  | Some r => Ok (r, path, files)
  end.

(** [directoryHandle.removeEntry(name, { recursive })]. *)
Definition removeEntry (dir : DirHandle) (entry : string) (recursive : bool)
    (files : FS) : Exc (unit * FS) :=
  match files !! entry with
  | Some _ => Ok (tt, delete entry files)
  | None => Throw notFound
  end.

(** Modelled from the spec: [FileSystem.renameEntry]. *)
Definition renameEntry (root : option Root) (old new : string) (files : FS)
    : Exc (unit * FS) :=
  match root, files !! old with
  | Some _, Some text => Ok (tt, <[new := text]> (delete old files))
  | Some _, None => Throw notFound
  | None, _ => Throw noRoot
  end.

(** Modelled from the spec: the remaining collaborators. Directories
    are not represented, searching and indexing return fixed texts, the
    network is unreachable, the store accepts every record and monaco
    reports no marker. *)
Definition env : Env :=
  mkEnv getFileHandleFromPath getParentDirectoryHandle removeEntry renameEntry
    (fun root _ files =>
       match root with Some _ => Ok (tt, files) | None => Throw noRoot end)
    (fun _ _ files => Ok ("[]", files))
    (fun root files =>
       match root with Some _ => Ok ("tree", files) | None => Throw noRoot end)
    (fun tree => tree)
    (fun _ files => Ok (tt, files))
    (fun cp d => Ok (mkDb (checkpoints d ++ [cp]) (codeIndex d)))
    (fun idx d => Ok (mkDb (checkpoints d) (Some idx)))
    (fun d => Ok (codeIndex d))
    (fun _ files => Ok ("index", files))
    (fun _ _ => Ok "[]")
    (fun _ _ _ => Throw "Failed to fetch")
    (fun _ => Ok "{}")
    (fun _ => [])
    0
    "1/1/1970, 12:00:00 AM".


End SimpleEnv.

(* ================================================================== *)
(** * Vocabulary of the properties *)
(* ================================================================== *)

Section Vocabulary.

Import EditorJs ToolExecutor.

(** ** Worlds the editor functions leave behind *)

(** The world after the view-state capture at the head of [switchTab] and
    [getEditorState]. *)
Definition captured (w : World) : World := world_of (captureActiveViewState w).

(** The tab strip drawn by [renderTabs]. *)
Definition tabsOf (w : World) : list (string * bool) :=
  map (fun kv => (name (snd kv), bool_decide (Some (fst kv) = activeFilePath w)))
      (openFiles w).

(** The world [switchTab] leaves behind when the path is open with the
    entry [fd], started after the capture. *)
Definition switched (filePath : string) (focusEditor : bool) (fd : FileData)
    (w : World) : World :=
  let w1 := set_activeFilePath (Some filePath) w in
  mkWorld (mkWidget (Some (model fd)) (default 0 (viewState fd)) false (0, 0))
          (openFiles w) (Some filePath) (models w) (tabsOf w1)
          (if focusEditor then FocusEditor else focus w) (fs w) (db w) (trace w).

(** The world in which [openFile] has created a document for [p] from the
    text [text], before it is activated. *)
Definition opened (h : Handle) (p text : string) (w : World) : World :=
  set_openFiles
    (JsMap.set p (mkFileData h (h_name h) (length (models w)) None) (openFiles w))
    (set_models (models w ++ [mkModel text false]) w).

(** A sequence of [openFile] calls, each run to completion. *)
Definition openAll (calls : list (Handle * string * bool)) (w : World) : World :=
  fold_left (fun w' c => world_of (openFile (fst (fst c)) (snd (fst c)) (snd c) w'))
            calls w.

(** The world after [model.dispose()]. *)
Definition disposed (id : nat) (w : World) : World := world_of (model_dispose id w).

(** The world [closeTab] works on once the entry is gone and, the closed
    tab having been the active one, [activeFilePath] is reset. *)
Definition removed (filePath : string) (fd : FileData) (w : World) : World :=
  let w1 := disposed (model fd) w in
  set_activeFilePath None
    (set_openFiles (JsMap.delete filePath (openFiles w)) w1).

(** The world [clearEditor] leaves behind. *)
Definition cleared (w : World) : World :=
  mkWorld (mkWidget (Some (length (models w))) 0 true (0, 0)) [] None
          (models w ++ [mkModel placeholder false]) (tabBar w) (focus w)
          (fs w) (db w) (trace w).

(** The world after one iteration of the discard loop of
    [restoreCheckpointState], and after the whole loop. *)
Definition discarded (filePath : string) (w : World) : World :=
  world_of (discardFile filePath w).

Definition discardedAll (l : list string) (w : World) : World :=
  fold_left (fun w' p => discarded p w') l w.


(** ** The session as a state machine *)

Inductive Op : Type :=
| OpOpen (fileHandle : Handle) (filePath : string) (focusEditor : bool)
| OpSwitch (filePath : string) (focusEditor : bool)
| OpClose (filePath : string)
| OpClear
| OpCapture
| OpRestore (state : option EditorState) (rootHandle : option Root)
| OpRestoreCheckpoint (state : option EditorState) (rootHandle : option Root).

Definition run_op (env : Env) (op : Op) : M unit :=
  match op with
  | OpOpen h p f => openFile h p f
  | OpSwitch p f => switchTab p f
  | OpClose p => closeTab p
  | OpClear => clearEditor
  | OpCapture => _ <- getEditorState ;; ret tt
  | OpRestore st root => restoreEditorState env st root
  | OpRestoreCheckpoint st root => restoreCheckpointState env st root
  end.

(** A sequence of operations, each run to completion whether it returns
    or throws. *)
Definition run_ops (env : Env) (ops : list Op) (w : World) : World :=
  fold_left (fun w' op => world_of (run_op env op w')) ops w.

(** [activeFilePath] is [null] or a key of [openFiles]. *)
Definition activeIsOpen (w : World) : Prop :=
  match activeFilePath w with
  | None => True
  | Some p => JsMap.has p (openFiles w) = true
  end.

(** [switchTab] is asked for a path that is open. *)
Definition targetIsOpen (op : Op) (w : World) : Prop :=
  match op with
  | OpSwitch p _ => JsMap.has p (openFiles w) = true
  | _ => True
  end.

(** The worlds reached from the start by operations among which
    [switchTab] is only asked for open paths. *)
Inductive reachable (env : Env) : World -> Prop :=
| reachable_initial (files : FS) : reachable env (initial files)
| reachable_step (w : World) (op : Op) :
    reachable env w -> targetIsOpen op w ->
    reachable env (world_of (run_op env op w)).

(** A property of the world kept by a computation, whether it returns or
    throws. *)
Definition preserves {A} (P : World -> Prop) (m : M A) : Prop :=
  forall w, P w -> P (world_of (m w)).

(** ** The model heap *)

(** Every model of the first heap is still in the second, and a disposed
    one is still disposed. *)
Definition heap_le (w w' : World) : Prop :=
  forall id m, models w !! id = Some m ->
    exists m', models w' !! id = Some m' /\ (m_disposed m = true -> m_disposed m' = true).

(** The open documents all come from the snapshot entries [files]: saved
    view state, and a live buffer holding the saved content. *)
Definition fromSnapshot (files : list SavedFile) (w : World) : Prop :=
  forall p fd, JsMap.get p (openFiles w) = Some fd ->
    exists sf, sf ∈ files /\ sf_path sf = p
               /\ viewState fd = sf_viewState sf
               /\ models w !! model fd = Some (mkModel (sf_content sf) false).

(** ** Checkpoints and the trace *)

Definition isCheckpointAttempt (e : Event) : bool :=
  match e with
  | Call DbManager fn _ => String.eqb fn "saveCheckpoint"
  | Call _ _ _ => false
  end.

(** How many times [DbManager.saveCheckpoint] was called. *)
Definition attempts (t : list Event) : nat :=
  length (List.filter isCheckpointAttempt t).

(** A computation that only adds to the trace, and never a checkpoint
    attempt. *)
Definition quiet {A} (m : M A) : Prop :=
  forall w, exists t', trace (world_of (m w)) = trace w ++ t' /\ attempts t' = 0.

(** Everything in the world but the persistence store and the trace. *)
Definition core (w : World) :=
  (editor w, openFiles w, activeFilePath w, models w, tabBar w, focus w, fs w).


(** Only the trace differs. *)
Definition untouched (w w' : World) : Prop := core w' = core w /\ db w' = db w.

(** The value [getEditorState] returns in a world. *)
Definition snapshotOf (w : World) : EditorState :=
  mkEditorState
    (Some (map (fun kv => mkSavedFile (fst kv) (modelText (model (snd kv)) w)
                            (viewState (snd kv)))
               (openFiles w)))
    (activeFilePath w).

(** The record handed to [DbManager.saveCheckpoint]. *)
Definition checkpointOf (env : Env) (w : World) : Checkpoint :=
  mkCheckpoint ("Auto-Checkpoint @ " +:+ dateLocaleString env)
               (snapshotOf (captured w)) (dateNow env).


(** The collaborator calls of the checkpoint interception. *)
Definition interceptionEvents (env : Env) (toolName : string) (w : World) : list Event :=
  if includes checkpointTools toolName then
    Call Editor "getEditorState" []
    :: match openFiles w with
       | [] => []
       | _ :: _ =>
           Call DbManager "saveCheckpoint" [("name", cp_name (checkpointOf env w))]
           :: match saveCheckpoint env (checkpointOf env w) (db w) with
              | Ok _ => []
              | Throw e =>
                  [Call Console "error"
                     [("message", "Failed to create automatic checkpoint:" +:+ e)]]
              end
       end
  else [].

(** ** The execution boundary *)







(** ** Example worlds *)

(** A file with the two lines [a] and [b]. *)
Definition twoLines : string := "a" +:+ JsString.LF +:+ "b".

Definition fileArgs (f : string) : Args :=
  mkArgs (Some f) None None None None None None None None None None None None.

Definition insertCall (n : Z) : ToolCall :=
  mkToolCall "insert_content"
    (mkArgs (Some "f.txt") (Some "X") (Some n)
            None None None None None None None None None None).

Definition twoLinesWorld : World := initial (<["f.txt" := twoLines]> ∅).




(** Two files, opened one after the other without focus; the first is
    made active again and the input focus is in the chat box. *)
Definition twoFiles : FS := <["a.js" := "let a;"]> (<["b.js" := "let b;"]> ∅).

Definition twoTabs : World :=
  set_focus FocusChatInput
    (run_ops SimpleEnv.env
       [OpOpen (mkHandle "a.js" "a.js") "a.js" false;
        OpOpen (mkHandle "b.js" "b.js") "b.js" false;
        OpSwitch "a.js" false]
       (initial twoFiles)).




Definition tabA : FileData := mkFileData (mkHandle "a.js" "a.js") "a.js" 1 (Some 0).
Definition tabB : FileData := mkFileData (mkHandle "b.js" "b.js") "b.js" 2 (Some 0).

Definition rewriteA : ToolCall :=
  mkToolCall "rewrite_file"
    (mkArgs (Some "a.js") (Some "let a = 2;") None
            None None None None None None None None None None).


(** ** The session and the tool executor together *)

(** The value of [editor.saveViewState()] in a world. *)
Definition savedView (w : World) : option ViewState :=
  match w_model (editor w) with
  | Some _ => Some (w_view (editor w))
  | None => None
  end.

(** The models of the open documents, in tab order. *)
Definition docModels (m : JsMap.t FileData) : list nat :=
  map (fun kv => model (snd kv)) m.

(** A model that is in the heap and has not been disposed. *)
Definition liveModel (w : World) (id : nat) : Prop :=
  exists m, models w !! id = Some m /\ m_disposed m = false.

(** No path is open twice, no two documents share a model, and every
    document's model is live. *)
Definition docsOk (w : World) : Prop :=
  NoDup (JsMap.keys (openFiles w))
  /\ NoDup (docModels (openFiles w))
  /\ Forall (liveModel w) (docModels (openFiles w)).

(** When the active path is open, the widget shows its model. *)
Definition showsActive (w : World) : Prop :=
  forall p fd, activeFilePath w = Some p -> JsMap.get p (openFiles w) = Some fd ->
               w_model (editor w) = Some (model fd).

Definition sessionOk (w : World) : Prop := docsOk w /\ showsActive w.

(** What the exported functions of the two files can be asked to do. *)
Inductive Action : Type :=
| ActOp (op : Op)
| ActSaveActive
| ActSaveAll
| ActTool (toolCall : ToolCall) (root : option Root).

Definition run_action (env : Env) (a : Action) : M unit :=
  match a with
  | ActOp op => run_op env op
  | ActSaveActive => saveActiveFile
  | ActSaveAll => saveAllOpenFiles
  | ActTool toolCall root => _ <- execute env toolCall root ;; ret tt
  end.

(** The worlds reached from the start by actions that are allowed where
    they are taken, each run to completion whether it returns or throws. *)
Inductive reachableBy (env : Env) (allowed : Action -> World -> Prop) : World -> Prop :=
| reachableBy_initial (files : FS) : reachableBy env allowed (initial files)
| reachableBy_step (w : World) (a : Action) :
    reachableBy env allowed w -> allowed a w ->
    reachableBy env allowed (world_of (run_action env a w)).

Definition anyAction (a : Action) (w : World) : Prop := True.

(** [switchTab] itself is only asked for open paths; everything else is
    free. *)
Definition switchesToOpen (a : Action) (w : World) : Prop :=
  match a with
  | ActOp op => targetIsOpen op w
  | _ => True
  end.

(** The tools that only look: they are not in the checkpoint list and
    their [case] calls nothing that opens, closes or edits a document. *)
Definition inspectionTools : list string :=
  [ "get_project_structure"; "read_url"; "duckduckgo_search"; "search_code";
    "get_open_file_content"; "get_selected_text"; "run_terminal_command";
    "build_or_update_codebase_index"; "query_codebase"; "get_file_history";
    "format_code"; "analyze_code" ].

(** The tools that work on folders. *)
Definition folderTools : list string :=
  [ "create_folder"; "delete_folder"; "rename_folder" ].

(** The module state of editor.js and the model heap. *)
Definition sess (w : World) :=
  (editor w, openFiles w, activeFilePath w, models w).




(** [s.includes(sep)]: the separator occurs somewhere in the text. *)
Fixpoint occurs (sep s : string) : bool :=
  String.prefix sep s
  || match s with
     | EmptyString => false
     | String _ rest => occurs sep rest
     end.

(** ** More example worlds *)

(** The two tabs of [twoTabs] with the view of [a.js] scrolled. *)
Definition scrolledTabs : World :=
  set_editor (mkWidget (Some 1) 42 false (0, 0)) twoTabs.

(** The two tabs of [twoTabs] with an unsaved edit in [a.js]. *)
Definition editedTabs : World :=
  world_of (model_setValue 1 "let a = 2;" twoTabs).

(** A session: open [a.js], rewrite it through the tool executor, save
    everything. *)
Definition sessionStart : World :=
  world_of (run_action SimpleEnv.env
              (ActOp (OpOpen (mkHandle "a.js" "a.js") "a.js" false))
              (initial twoFiles)).

Definition sessionRewritten : World :=
  world_of (run_action SimpleEnv.env (ActTool rewriteA (Some "root")) sessionStart).

Definition sessionSaved : World :=
  world_of (run_action SimpleEnv.env ActSaveAll sessionRewritten).






End Vocabulary.

(* ================================================================== *)
(** * Properties *)
(* ================================================================== *)

(** Decide the tests of a [switch] on a tool name that is known. *)
Ltac decide_tests :=
  repeat match goal with
         | |- context [String.eqb ?a ?b] =>
             let v := eval vm_compute in (String.eqb a b) in
             change (String.eqb a b) with v; cbv iota
         end.

(** Split a goal into all its conjuncts, leaving implications alone. *)
Ltac conjuncts := repeat match goal with |- _ /\ _ => split end.


(** ** Strings and arrays *)

Section StringFacts.

Lemma length_append (a b : string) :
  String.length (a +:+ b) = String.length a + String.length b.
Proof. induction a as [|c a IH]; simpl; [reflexivity | now rewrite IH]. Qed.


(** Inserting at an index beyond the end appends. *)
Lemma splice_insert_beyond {A} (start : nat) (item : A) (l : list A) :
  length l <= start -> JsString.splice_insert start item l = l ++ [item].
Proof.
  intros H. unfold JsString.splice_insert.
  now rewrite take_ge, drop_ge by lia.
Qed.

Lemma splice_insert_length {A} (start : nat) (item : A) (l : list A) :
  length (JsString.splice_insert start item l) = S (length l).
Proof.
  unfold JsString.splice_insert.
  rewrite length_app. simpl. rewrite length_take, length_drop. lia.
Qed.

Lemma splice_insert_lookup {A} (start : nat) (item : A) (l : list A) :
  start <= length l ->
  JsString.splice_insert start item l !! start = Some item.
Proof.
  intros H. unfold JsString.splice_insert.
  rewrite lookup_app_r; rewrite length_take; [| lia].
  replace (start - start `min` length l) with 0 by lia. reflexivity.
Qed.

(** Line numbers 0 and 1 (and every negative one) insert at the top. *)
Lemma insertionPoint_clamped (n : Z) :
  (n <= 1)%Z -> ToolExecutor.insertionPoint (Some n) = 0.
Proof. intros H. unfold ToolExecutor.insertionPoint. lia. Qed.

Lemma insertedContent_clamped (original : string) (content : option string) :
  ToolExecutor.insertedContent original (Some 0%Z) content
  = ToolExecutor.insertedContent original (Some 1%Z) content.
Proof. reflexivity. Qed.

(** On a text without the two-character sequence backslash-n, whatever
    its line feeds, the split yields the text as its only piece. *)
Lemma split_single_piece :
  JsString.split "\n" twoLines = [twoLines].
Proof. reflexivity. Qed.

End StringFacts.

(** ** C1: insert_content *)

Section InsertContent.

Import ToolExecutor.

(** C1, evaluated on the claim's own example. [insert_content(f, 1, "X")]
    on the file whose lines are [a] and [b] does not yield the lines
    [X], [a], [b]: the file text is split and joined on the
    two-character sequence backslash-n, not on the line feed, so the
    whole file is one piece and the file written back is [X\na] followed
    by a line feed and [b], whose lines are [X\na] and [b]. *)
Theorem insert_content_on_two_lines :
  JsString.split JsString.LF twoLines = ["a"; "b"]
  /\ insertedContent twoLines (Some 1%Z) (Some "X")
     = "X\na" +:+ JsString.LF +:+ "b"
  /\ fs (world_of (executeTool SimpleEnv.env (insertCall 1) (Some "root")
                     twoLinesWorld)) !! "f.txt"
     = Some ("X\na" +:+ JsString.LF +:+ "b")
  /\ JsString.split JsString.LF (insertedContent twoLines (Some 1%Z) (Some "X"))
     = ["X\na"; "b"]
  /\ JsString.split JsString.LF (insertedContent twoLines (Some 1%Z) (Some "X"))
     <> ["X"; "a"; "b"].
Proof. repeat split; try (vm_compute; reflexivity). vm_compute. discriminate. Qed.

(** The clamping half of the claim holds on the file as well: line 0
    and line 1 write the same text. *)
Lemma insert_content_line_0_like_line_1 :
  fs (world_of (executeTool SimpleEnv.env (insertCall 0) (Some "root") twoLinesWorld))
  = fs (world_of (executeTool SimpleEnv.env (insertCall 1) (Some "root") twoLinesWorld)).
Proof. vm_compute. reflexivity. Qed.

End InsertContent.

(** ** C4: the project-root guard *)

Section RootGuard.

Import ToolExecutor.

(** C4. A tool of the root-required list called without a project root
    returns the fixed error result at once: the world is left exactly as
    it was (nothing is added to the trace of collaborator calls, so no
    file-system, editor, persistence or network call and no checkpoint
    attempt took place). The message starts with
    [No project folder is open]. *)
Theorem root_guard_short_circuits (env : Env) (toolCall : ToolCall) (w : World) :
  includes rootRequiredTools (call_name toolCall) = true ->
  executeTool env toolCall None w = (Ok [("error", noProjectMessage)], w)
  /\ String.prefix "No project folder is open" noProjectMessage = true.
Proof.
  intros H. split; [| reflexivity].
  unfold executeTool. rewrite H. reflexivity.
Qed.

Lemma root_guard_short_circuits_witness :
  includes rootRequiredTools "insert_content" = true
  /\ executeTool SimpleEnv.env (insertCall 1) None twoLinesWorld
     = (Ok [("error", noProjectMessage)], twoLinesWorld)
  /\ String.prefix "No project folder is open" noProjectMessage = true.
Proof.
  split; [reflexivity |].
  apply (root_guard_short_circuits SimpleEnv.env (insertCall 1) twoLinesWorld).
  reflexivity.
Defined.

End RootGuard.

Section JsMapFacts.
Context {V : Type}.
Implicit Types (m : JsMap.t V) (k : string) (v : V).

Lemma get_set_eq k v m : JsMap.get k (JsMap.set k v m) = Some v.
Proof.
  induction m as [|[k' v'] m IH]; simpl.
  - now rewrite String.eqb_refl.
  - destruct (String.eqb k k') eqn:E; simpl; rewrite ?String.eqb_refl, ?E; auto.
Qed.

Lemma get_set_ne k k' v m : k <> k' -> JsMap.get k' (JsMap.set k v m) = JsMap.get k' m.
Proof.
  intros Hne. induction m as [|[k0 v0] m IH]; simpl.
  - destruct (String.eqb_spec k' k); congruence.
  - destruct (String.eqb_spec k k0); simpl.
    + subst k0. destruct (String.eqb_spec k' k); congruence.
    + destruct (String.eqb_spec k' k0); congruence.
Qed.

Lemma has_true_get k m : JsMap.has k m = true <-> exists v, JsMap.get k m = Some v.
Proof.
  unfold JsMap.has. destruct (JsMap.get k m); split; eauto; try discriminate.
  intros [? ?]; discriminate.
Qed.

Lemma has_false_get k m : JsMap.has k m = false <-> JsMap.get k m = None.
Proof. unfold JsMap.has. destruct (JsMap.get k m); split; congruence. Qed.

Lemma has_elem_of_keys k m : JsMap.has k m = true <-> k ∈ JsMap.keys m.
Proof.
  unfold JsMap.has. induction m as [|[k' v'] m IH]; simpl.
  - split; [discriminate | intros H; inversion H].
  - rewrite elem_of_cons. destruct (String.eqb_spec k k').
    + subst. tauto.
    + rewrite IH. split; [tauto | intros [?|?]; congruence].
Qed.

Lemma keys_set_present k v m : JsMap.has k m = true -> JsMap.keys (JsMap.set k v m) = JsMap.keys m.
Proof.
  unfold JsMap.has. induction m as [|[k' v'] m IH]; simpl; [discriminate |].
  destruct (String.eqb_spec k k'); simpl; intros H.
  - now subst.
  - now rewrite IH.
Qed.

Lemma keys_set_absent k v m : JsMap.has k m = false -> JsMap.keys (JsMap.set k v m) = JsMap.keys m ++ [k].
Proof.
  unfold JsMap.has. induction m as [|[k' v'] m IH]; simpl; [reflexivity |].
  destruct (String.eqb_spec k k'); simpl; intros H; [discriminate |].
  now rewrite IH.
Qed.

Lemma has_set k k' v m : JsMap.has k' (JsMap.set k v m) = String.eqb k' k || JsMap.has k' m.
Proof.
  unfold JsMap.has. destruct (String.eqb_spec k' k).
  - subst. now rewrite get_set_eq.
  - rewrite get_set_ne by congruence. reflexivity.
Qed.

Lemma NoDup_keys_set k v m : NoDup (JsMap.keys m) -> NoDup (JsMap.keys (JsMap.set k v m)).
Proof.
  intros H. destruct (JsMap.has k m) eqn:E.
  - now rewrite keys_set_present.
  - rewrite keys_set_absent by assumption.
    apply NoDup_app. repeat split; auto.
    + intros x Hx Hin. apply list_elem_of_singleton in Hin. subst x.
      apply has_elem_of_keys in Hx. congruence.
    + apply NoDup_singleton.
Qed.

Lemma get_delete_eq k m : JsMap.get k (JsMap.delete k m) = None.
Proof.
  induction m as [|[k' v'] m IH]; simpl; [reflexivity |].
  destruct (String.eqb k k') eqn:E; simpl; rewrite ?E; auto.
Qed.

Lemma get_delete_ne k k' m : k <> k' -> JsMap.get k' (JsMap.delete k m) = JsMap.get k' m.
Proof.
  intros Hne. induction m as [|[k0 v0] m IH]; simpl; [reflexivity |].
  destruct (String.eqb_spec k k0); simpl.
  - subst k0. destruct (String.eqb_spec k' k); congruence.
  - destruct (String.eqb_spec k' k0); congruence.
Qed.

Lemma keys_delete k m :
  JsMap.keys (JsMap.delete k m) = filter (fun x => x <> k) (JsMap.keys m).
Proof.
  induction m as [|[k0 v0] m IH]; simpl; [reflexivity |].
  destruct (String.eqb_spec k k0).
  - subst. rewrite IH. rewrite filter_cons_False; [reflexivity | tauto].
  - simpl. rewrite IH. rewrite filter_cons_True; [reflexivity | congruence].
Qed.

Lemma NoDup_keys_delete k m : NoDup (JsMap.keys m) -> NoDup (JsMap.keys (JsMap.delete k m)).
Proof. intros H. rewrite keys_delete. now apply NoDup_filter. Qed.

Lemma first_key_has k m : JsMap.first_key m = Some k -> JsMap.has k m = true.
Proof.
  destruct m as [|[k' v'] m]; simpl; [discriminate |].
  intros [= ->]. unfold JsMap.has. simpl. now rewrite String.eqb_refl.
Qed.

Lemma first_key_None m : JsMap.first_key m = None -> m = [].
Proof. destruct m as [|[? ?] ?]; simpl; [reflexivity | discriminate]. Qed.

End JsMapFacts.

Section EditorFacts.
Import EditorJs.

Lemma captureActiveViewState_ok w : captureActiveViewState w = (Ok tt, captured w).
Proof.
  unfold captured, captureActiveViewState, bind, gets, modify, ret, world_of. simpl.
  destruct (activeFilePath w) as [p|]; simpl; [| reflexivity].
  destruct (negb (p =? "")%string); [| reflexivity].
  destruct (JsMap.get p (openFiles w)); reflexivity.
Qed.

Lemma captured_inactive w : activeFilePath w = None -> captured w = w.
Proof.
  intros H. unfold captured, captureActiveViewState, bind, gets, world_of. simpl.
  now rewrite H.
Qed.

Lemma captured_frame w :
  editor (captured w) = editor w /\ activeFilePath (captured w) = activeFilePath w
  /\ models (captured w) = models w /\ tabBar (captured w) = tabBar w
  /\ focus (captured w) = focus w /\ fs (captured w) = fs w
  /\ db (captured w) = db w /\ trace (captured w) = trace w.
Proof.
  unfold captured, captureActiveViewState, bind, gets, modify, ret, world_of. simpl.
  destruct (activeFilePath w) as [p|] eqn:E; simpl; [| now rewrite E].
  destruct (negb (p =? "")%string); simpl; [| now rewrite E].
  destruct (JsMap.get p (openFiles w)); simpl; now rewrite E.
Qed.

Lemma captured_keys w : JsMap.keys (openFiles (captured w)) = JsMap.keys (openFiles w).
Proof.
  unfold captured, captureActiveViewState, bind, gets, modify, ret, world_of. simpl.
  destruct (activeFilePath w) as [p|]; simpl; [| reflexivity].
  destruct (negb (p =? "")%string); simpl; [| reflexivity].
  destruct (JsMap.get p (openFiles w)) eqn:E; simpl; [| reflexivity].
  apply keys_set_present. apply has_true_get. eauto.
Qed.

Lemma captured_has p w : JsMap.has p (openFiles (captured w)) = JsMap.has p (openFiles w).
Proof.
  destruct (JsMap.has p (openFiles w)) eqn:E.
  - apply has_elem_of_keys. rewrite captured_keys. now apply has_elem_of_keys.
  - destruct (JsMap.has p (openFiles (captured w))) eqn:E'; [| reflexivity].
    apply has_elem_of_keys in E'. rewrite captured_keys in E'.
    apply has_elem_of_keys in E'. congruence.
Qed.

(** The capture touches nothing but the view state of a document. *)
Lemma captured_get p w :
  JsMap.get p (openFiles (captured w))
  = match JsMap.get p (openFiles w) with
    | Some fd =>
        Some (mkFileData (handle fd) (name fd) (model fd)
                (viewState (default fd (JsMap.get p (openFiles (captured w))))))
    | None => None
    end.
Proof.
  unfold captured, captureActiveViewState, bind, gets, modify, ret, world_of. simpl.
  destruct (activeFilePath w) as [q|]; simpl.
  2:{ destruct (JsMap.get p (openFiles w)) as [[]|]; reflexivity. }
  destruct (negb (q =? "")%string); simpl.
  2:{ destruct (JsMap.get p (openFiles w)) as [[]|]; reflexivity. }
  destruct (JsMap.get q (openFiles w)) as [fq|] eqn:E; simpl.
  2:{ destruct (JsMap.get p (openFiles w)) as [[]|]; reflexivity. }
  destruct (String.eqb_spec q p).
  - subst q. rewrite get_set_eq, E. reflexivity.
  - rewrite get_set_ne by assumption.
    destruct (JsMap.get p (openFiles w)) as [[]|]; reflexivity.
Qed.

Lemma captured_get_model p w fd :
  JsMap.get p (openFiles (captured w)) = Some fd ->
  exists fd0, JsMap.get p (openFiles w) = Some fd0 /\ model fd = model fd0
              /\ handle fd = handle fd0 /\ name fd = name fd0.
Proof.
  rewrite captured_get. destruct (JsMap.get p (openFiles w)) as [fd0|]; [| discriminate].
  intros [= <-]. exists fd0. simpl. tauto.
Qed.

Lemma switchTab_present filePath focusEditor w fd :
  JsMap.get filePath (openFiles (captured w)) = Some fd ->
  switchTab filePath focusEditor w
  = (Ok tt, switched filePath focusEditor fd (captured w)).
Proof.
  intros H. unfold switchTab, bind. rewrite captureActiveViewState_ok.
  unfold modify, gets. simpl. rewrite H.
  destruct fd as [h n m [vs|]], focusEditor; reflexivity.
Qed.

Lemma switchTab_absent filePath focusEditor w :
  JsMap.has filePath (openFiles w) = false ->
  switchTab filePath focusEditor w
  = (Throw "Cannot read properties of undefined (reading 'model')",
     set_activeFilePath (Some filePath) (captured w)).
Proof.
  intros H. rewrite <- (captured_has filePath w) in H. apply has_false_get in H.
  unfold switchTab, bind. rewrite captureActiveViewState_ok.
  unfold modify, gets. simpl. rewrite H. reflexivity.
Qed.

End EditorFacts.

Section OpenFacts.
Import EditorJs.

Lemma openFile_open h p f w :
  JsMap.has p (openFiles w) = true -> openFile h p f w = switchTab p f w.
Proof. intros H. unfold openFile, bind, gets. simpl. now rewrite H. Qed.

Lemma openFile_new h p f w text :
  JsMap.has p (openFiles w) = false ->
  fs w !! h_path h = Some text ->
  exists fd,
    JsMap.get p (openFiles (captured (opened h p text w))) = Some fd
    /\ model fd = length (models w)
    /\ openFile h p f w = (Ok tt, switched p f fd (captured (opened h p text w))).
Proof.
  intros Hhas Hfs.
  assert (Hget : exists fd, JsMap.get p (openFiles (captured (opened h p text w))) = Some fd
                             /\ model fd = length (models w)).
  { rewrite captured_get. unfold opened. simpl. rewrite get_set_eq. eauto. }
  destruct Hget as (fd & Hget & Hm). exists fd. split; [assumption | split; [assumption |]].
  unfold openFile, bind, gets. simpl. rewrite Hhas.
  unfold try_catch, bind, handle_getFile. rewrite Hfs.
  unfold createModel, modify. simpl.
  change (set_openFiles _ _) with (opened h p text w).
  now rewrite (switchTab_present _ _ _ _ Hget).
Qed.

Lemma openFile_unreadable h p f w :
  JsMap.has p (openFiles w) = false ->
  fs w !! h_path h = None ->
  openFile h p f w
  = (Ok tt,
     set_trace (trace w ++ [Call Console "error"
        [("message", "Failed to open file " +:+ p +:+ ":"
                      +:+ "A requested file or directory could not be found.")]]) w).
Proof.
  intros Hhas Hfs. unfold openFile, bind, gets. simpl. rewrite Hhas.
  unfold try_catch, bind, handle_getFile. rewrite Hfs. reflexivity.
Qed.

Lemma openFile_ok h p f w : result (openFile h p f w) = Ok tt \/ JsMap.has p (openFiles w) = true.
Proof.
  destruct (JsMap.has p (openFiles w)) eqn:Hhas; [now right | left].
  destruct (fs w !! h_path h) as [text|] eqn:Hfs.
  - destruct (openFile_new h p f w text Hhas Hfs) as (fd & _ & _ & ->). reflexivity.
  - now rewrite openFile_unreadable.
Qed.

Lemma openFile_keys h p f w :
  JsMap.keys (openFiles (world_of (openFile h p f w)))
  = if JsMap.has p (openFiles w) then JsMap.keys (openFiles w)
    else match fs w !! h_path h with
         | Some _ => JsMap.keys (openFiles w) ++ [p]
         | None => JsMap.keys (openFiles w)
         end.
Proof.
  destruct (JsMap.has p (openFiles w)) eqn:Hhas.
  - rewrite openFile_open by assumption.
    assert (H := Hhas). rewrite <- (captured_has p w) in H.
    apply has_true_get in H. destruct H as [fd Hfd].
    rewrite (switchTab_present _ _ _ _ Hfd). simpl. apply captured_keys.
  - destruct (fs w !! h_path h) as [text|] eqn:Hfs.
    + destruct (openFile_new h p f w text Hhas Hfs) as (fd & _ & _ & ->).
      simpl. rewrite captured_keys. unfold opened. simpl.
      now apply keys_set_absent.
    + now rewrite openFile_unreadable.
Qed.

Lemma openFile_NoDup h p f w :
  NoDup (JsMap.keys (openFiles w)) ->
  NoDup (JsMap.keys (openFiles (world_of (openFile h p f w)))).
Proof.
  intros H. rewrite openFile_keys.
  destruct (JsMap.has p (openFiles w)) eqn:Hhas; [assumption |].
  destruct (fs w !! h_path h); [| assumption].
  rewrite <- (keys_set_absent p (mkFileData h "" 0 None)) by assumption.
  now apply NoDup_keys_set.
Qed.

Lemma openAll_NoDup calls w :
  NoDup (JsMap.keys (openFiles w)) ->
  NoDup (JsMap.keys (openFiles (openAll calls w))).
Proof.
  revert w. induction calls as [|c calls IH]; intros w H; simpl; [assumption |].
  apply IH. now apply openFile_NoDup.
Qed.

(** C9. After any sequence of [openFile] calls from the start,
    [openFiles] has no two entries for one path; and opening a path that
    is already open is the very computation [switchTab] with the same
    focus flag: it creates no model and leaves the open paths as they
    are. *)
Theorem open_is_idempotent (files : FS) (calls : list (Handle * string * bool))
    (h : Handle) (p : string) (f : bool) :
  let w := openAll calls (initial files) in
  NoDup (JsMap.keys (openFiles w))
  /\ (JsMap.has p (openFiles w) = true ->
      openFile h p f w = switchTab p f w
      /\ models (world_of (openFile h p f w)) = models w
      /\ JsMap.keys (openFiles (world_of (openFile h p f w))) = JsMap.keys (openFiles w)).
Proof.
  intros w. split.
  - apply openAll_NoDup. simpl. constructor.
  - intros Hhas. split; [now apply openFile_open |]. split.
    + rewrite openFile_open by assumption.
      assert (H := Hhas). rewrite <- (captured_has p w) in H.
      apply has_true_get in H. destruct H as [fd Hfd].
      rewrite (switchTab_present _ _ _ _ Hfd). simpl. apply captured_frame.
    + rewrite openFile_keys. now rewrite Hhas.
Qed.

End OpenFacts.

Section CloseFacts.
Import EditorJs.

Lemma model_dispose_ok id w : model_dispose id w = (Ok tt, disposed id w).
Proof. reflexivity. Qed.

Lemma disposed_frame id w :
  openFiles (disposed id w) = openFiles w
  /\ activeFilePath (disposed id w) = activeFilePath w
  /\ tabBar (disposed id w) = tabBar w /\ focus (disposed id w) = focus w
  /\ fs (disposed id w) = fs w /\ db (disposed id w) = db w
  /\ trace (disposed id w) = trace w.
Proof.
  unfold disposed, model_dispose, modify, world_of. simpl.
  destruct (decide _); simpl; tauto.
Qed.

Lemma disposed_models id w :
  models (disposed id w) = alter (fun m => mkModel (m_text m) true) id (models w).
Proof.
  unfold disposed, model_dispose, modify, world_of. simpl.
  destruct (decide _); reflexivity.
Qed.

Lemma disposed_is_disposed id w m :
  models w !! id = Some m ->
  models (disposed id w) !! id = Some (mkModel (m_text m) true).
Proof.
  intros H. rewrite disposed_models, list_lookup_alter_eq, H. reflexivity.
Qed.

Lemma closeTab_active_next filePath fd w q fdq rest :
  activeFilePath w = Some filePath ->
  JsMap.get filePath (openFiles w) = Some fd ->
  JsMap.delete filePath (openFiles w) = (q, fdq) :: rest ->
  q <> "" ->
  closeTab filePath w = (Ok tt, switched q true fdq (removed filePath fd w)).
Proof.
  intros Hact Hget Hdel Hq.
  unfold closeTab, bind, gets. simpl. rewrite Hget, model_dispose_ok.
  unfold modify. simpl.
  destruct (disposed_frame (model fd) w) as (Hof & Haf & _).
  rewrite Hof, Haf, Hact, bool_decide_eq_true_2 by reflexivity.
  simpl. rewrite Hdel. simpl.
  destruct (String.eqb_spec q ""); [contradiction |]. simpl.
  unfold not_awaited, try_catch.
  assert (Hcap : captured (removed filePath fd w) = removed filePath fd w)
    by (apply captured_inactive; reflexivity).
  assert (Hq' : JsMap.get q (openFiles (captured (removed filePath fd w))) = Some fdq).
  { rewrite Hcap. unfold removed. simpl. rewrite Hdel. simpl.
    now rewrite String.eqb_refl. }
  rewrite <- Hdel.
  change (set_activeFilePath None _) with (removed filePath fd w).
  rewrite (switchTab_present _ _ _ _ Hq'), Hcap. reflexivity.
Qed.

Lemma clearEditor_ok w : clearEditor w = (Ok tt, cleared w).
Proof. reflexivity. Qed.

Lemma closeTab_active_last filePath fd w :
  activeFilePath w = Some filePath ->
  JsMap.get filePath (openFiles w) = Some fd ->
  JsMap.delete filePath (openFiles w) = [] ->
  closeTab filePath w
  = (Ok tt, set_tabBar [] (cleared (removed filePath fd w))).
Proof.
  intros Hact Hget Hdel.
  unfold closeTab, bind, gets. simpl. rewrite Hget, model_dispose_ok.
  unfold modify. simpl.
  destruct (disposed_frame (model fd) w) as (Hof & Haf & _).
  rewrite Hof, Haf, Hact, bool_decide_eq_true_2 by reflexivity.
  simpl. rewrite Hdel. simpl. reflexivity.
Qed.

Lemma switchTab_frame p f w :
  let w' := world_of (switchTab p f w) in
  models w' = models w /\ fs w' = fs w /\ db w' = db w /\ trace w' = trace w
  /\ JsMap.keys (openFiles w') = JsMap.keys (openFiles w)
  /\ activeFilePath w' = Some p.
Proof.
  destruct (captured_frame w) as (_ & _ & Hm & _ & _ & Hfs & Hdb & Htr).
  destruct (JsMap.has p (openFiles w)) eqn:Hhas.
  - assert (H := Hhas). rewrite <- (captured_has p w) in H.
    apply has_true_get in H. destruct H as [fd Hfd].
    rewrite (switchTab_present _ _ _ _ Hfd). simpl.
    rewrite captured_keys. tauto.
  - rewrite switchTab_absent by assumption. simpl.
    rewrite captured_keys. tauto.
Qed.

(** Whatever branch [closeTab] takes, the entry is gone and the buffer of
    the closed document stays disposed. *)
Lemma closeTab_removes filePath w :
  JsMap.has filePath (openFiles (world_of (closeTab filePath w))) = false.
Proof.
  unfold closeTab, bind, gets, modify. simpl.
  set (w1 := (match JsMap.get filePath (openFiles w) with
              | Some fd => model_dispose (model fd)
              | None => ret tt
              end w)).
  assert (H1 : exists w1', w1 = (Ok tt, w1') /\ openFiles w1' = openFiles w).
  { subst w1. destruct (JsMap.get filePath (openFiles w)) as [fd|].
    - exists (disposed (model fd) w). split; [reflexivity | apply disposed_frame].
    - exists w. split; reflexivity. }
  destruct H1 as (w1' & -> & Hof). simpl. rewrite Hof.
  assert (Hgone : JsMap.has filePath (JsMap.delete filePath (openFiles w)) = false)
    by (apply has_false_get, get_delete_eq).
  destruct (bool_decide _); simpl; [| assumption].
  destruct (JsMap.first_key _) as [q|]; simpl; [| reflexivity].
  destruct (negb (q =? "")); simpl; [| reflexivity].
  unfold not_awaited, try_catch.
  match goal with |- context [switchTab q true ?w0] =>
    pose proof (switchTab_frame q true w0) as (_ & _ & _ & _ & Hk & _);
    destruct (switchTab q true w0) as [[[]|e] w3] eqn:Esw end; simpl in *.
  - destruct (JsMap.has filePath (openFiles w3)) eqn:E; [| reflexivity].
    apply has_elem_of_keys in E. rewrite Hk in E. apply has_elem_of_keys in E.
    congruence.
  - destruct (JsMap.has filePath (openFiles w3)) eqn:E; [| reflexivity].
    apply has_elem_of_keys in E. rewrite Hk in E. apply has_elem_of_keys in E.
    congruence.
Qed.

Lemma closeTab_disposes filePath w fd m :
  JsMap.get filePath (openFiles w) = Some fd ->
  models w !! model fd = Some m ->
  models (world_of (closeTab filePath w)) !! model fd = Some (mkModel (m_text m) true).
Proof.
  intros Hget Hm.
  pose proof (disposed_is_disposed _ _ _ Hm) as Hd.
  unfold closeTab, bind, gets, modify. simpl. rewrite Hget, model_dispose_ok. simpl.
  destruct (bool_decide _); simpl; [| assumption].
  destruct (JsMap.first_key _) as [q|]; simpl.
  2:{ rewrite lookup_app_l; [assumption | apply lookup_lt_is_Some; eauto]. }
  destruct (negb (q =? "")); simpl.
  2:{ rewrite lookup_app_l; [assumption | apply lookup_lt_is_Some; eauto]. }
  unfold not_awaited, try_catch.
  match goal with |- context [switchTab q true ?w0] =>
    pose proof (switchTab_frame q true w0) as (Hmo & _);
    destruct (switchTab q true w0) as [[[]|e] w3] eqn:Esw end; simpl in *;
  rewrite Hmo; assumption.
Qed.

(** C3, amended. Closing the active document disposes its buffer and
    removes its entry. When another document remains and the first
    remaining path (in insertion order) is not the empty string, that
    document is activated by [switchTab] with its default
    [focusEditor = true]: the widget shows its model and is writable, and
    the input focus is moved to the editor. When no document remains the
    editor is cleared: no open file, no active path, an empty tab strip and
    a read-only widget showing the placeholder text. *)
Theorem close_active_tab (w : World) (filePath : string) (fd : FileData) (m : Model) :
  activeFilePath w = Some filePath ->
  JsMap.get filePath (openFiles w) = Some fd ->
  models w !! model fd = Some m ->
  let w' := world_of (closeTab filePath w) in
  (exists m', models w' !! model fd = Some m' /\ m_disposed m' = true)
  /\ JsMap.has filePath (openFiles w') = false
  /\ (forall q fdq rest,
        JsMap.delete filePath (openFiles w) = (q, fdq) :: rest ->
        q <> "" ->
        result (closeTab filePath w) = Ok tt
        /\ openFiles w' = (q, fdq) :: rest
        /\ activeFilePath w' = Some q
        /\ w_model (editor w') = Some (model fdq)
        /\ w_readOnly (editor w') = false
        /\ focus w' = FocusEditor)
  /\ (JsMap.delete filePath (openFiles w) = [] ->
        result (closeTab filePath w) = Ok tt
        /\ openFiles w' = []
        /\ activeFilePath w' = None
        /\ tabBar w' = []
        /\ w_readOnly (editor w') = true
        /\ exists id, w_model (editor w') = Some id /\ modelText id w' = placeholder).
Proof.
  intros Hact Hget Hm w'. split; [| split; [| split]].
  - exists (mkModel (m_text m) true). split; [| reflexivity].
    now apply closeTab_disposes.
  - apply closeTab_removes.
  - intros q fdq rest Hdel Hq. subst w'.
    rewrite (closeTab_active_next _ _ _ _ _ _ Hact Hget Hdel Hq). simpl.
    rewrite Hdel. repeat split.
  - intros Hdel. subst w'.
    rewrite (closeTab_active_last _ _ _ Hact Hget Hdel). simpl.
    repeat split.
    exists (length (models (disposed (model fd) w))). split; [reflexivity |].
    unfold modelText. simpl. rewrite list_lookup_middle; reflexivity.
Qed.

End CloseFacts.

Section Invariant.
Import EditorJs.
Context (env : Env).

Lemma preserves_bind {A B} P (m : M A) (k : A -> M B) :
  preserves P m -> (forall a, preserves P (k a)) -> preserves P (bind m k).
Proof.
  intros Hm Hk w Hw. unfold bind, world_of. specialize (Hm w Hw).
  unfold world_of in Hm. destruct (m w) as [[a|e] w1]; simpl in *; [| assumption].
  apply Hk. assumption.
Qed.

Lemma preserves_try_catch {A} P (m : M A) (h : string -> M A) :
  preserves P m -> (forall e, preserves P (h e)) -> preserves P (try_catch m h).
Proof.
  intros Hm Hh w Hw. unfold try_catch, world_of. specialize (Hm w Hw).
  unfold world_of in Hm. destruct (m w) as [[a|e] w1]; simpl in *; [assumption |].
  apply Hh. assumption.
Qed.

Lemma preserves_ret {A} P (a : A) : preserves P (ret a).
Proof. intros w Hw. exact Hw. Qed.

Lemma preserves_for_each {A} P (l : list A) (body : A -> M unit) :
  (forall x, preserves P (body x)) -> preserves P (for_each l body).
Proof.
  intros Hb. induction l as [|x l IH]; simpl.
  - apply preserves_ret.
  - apply preserves_bind; [apply Hb | intros _; exact IH].
Qed.

Lemma switchTab_activeIsOpen p f w :
  JsMap.has p (openFiles w) = true -> activeIsOpen (world_of (switchTab p f w)).
Proof.
  intros H. destruct (switchTab_frame p f w) as (_ & _ & _ & _ & Hk & Ha).
  unfold activeIsOpen. rewrite Ha. apply has_elem_of_keys. rewrite Hk.
  now apply has_elem_of_keys.
Qed.

Lemma openFile_activeIsOpen h p f : preserves activeIsOpen (openFile h p f).
Proof.
  intros w Hw. destruct (JsMap.has p (openFiles w)) eqn:Hhas.
  - rewrite openFile_open by assumption. now apply switchTab_activeIsOpen.
  - destruct (fs w !! h_path h) as [text|] eqn:Hfs.
    + destruct (openFile_new h p f w text Hhas Hfs) as (fd & Hget & _ & ->).
      unfold activeIsOpen. simpl. apply has_true_get. eauto.
    + rewrite openFile_unreadable by assumption. exact Hw.
Qed.

Lemma clearEditor_activeIsOpen w : activeIsOpen (world_of (clearEditor w)).
Proof. exact I. Qed.

Lemma closeTab_activeIsOpen p : preserves activeIsOpen (closeTab p).
Proof.
  intros w Hw. unfold closeTab, bind, gets, modify. simpl.
  set (w1 := (match JsMap.get p (openFiles w) with
              | Some fd => model_dispose (model fd)
              | None => ret tt
              end w)).
  assert (H1 : exists w1', w1 = (Ok tt, w1') /\ openFiles w1' = openFiles w
                           /\ activeFilePath w1' = activeFilePath w).
  { subst w1. destruct (JsMap.get p (openFiles w)) as [fd|].
    - exists (disposed (model fd) w). split; [reflexivity |].
      split; apply disposed_frame.
    - exists w. repeat split. }
  destruct H1 as (w1' & -> & Hof & Haf). simpl. rewrite Hof, Haf.
  destruct (bool_decide_reflect (activeFilePath w = Some p)) as [Ha|Ha]; simpl.
  - destruct (JsMap.first_key _) as [q|] eqn:Hq; simpl; [| exact I].
    destruct (negb (q =? "")); simpl; [| exact I].
    unfold not_awaited, try_catch.
    match goal with |- context [switchTab q true ?w0] =>
      pose proof (switchTab_activeIsOpen q true w0) as Hs;
      destruct (switchTab q true w0) as [[[]|e] w3] eqn:Esw end; simpl in *;
    apply Hs; now apply first_key_has.
  - unfold activeIsOpen in *. simpl. rewrite Haf.
    destruct (activeFilePath w) as [a|]; [| exact I].
    unfold JsMap.has in *. rewrite get_delete_ne; [assumption | congruence].
Qed.

Lemma getEditorState_activeIsOpen w :
  activeIsOpen w -> activeIsOpen (world_of (getEditorState w)).
Proof.
  intros Hw. unfold getEditorState, bind. rewrite captureActiveViewState_ok. simpl.
  unfold activeIsOpen in *. destruct (captured_frame w) as (_ & -> & _).
  destruct (activeFilePath w); [| exact I]. now rewrite captured_has.
Qed.

(** Restoring one file leaves the active path alone and closes nothing. *)
Lemma restoreFile_grows root sf w :
  let w' := world_of (restoreFile env root sf w) in
  activeFilePath w' = activeFilePath w
  /\ forall p, JsMap.has p (openFiles w) = true -> JsMap.has p (openFiles w') = true.
Proof.
  unfold restoreFile, try_catch, bind, on_fs, createModel, modify. simpl.
  destruct (getFileHandleFromPath env root (sf_path sf) true (fs w)) as [[h fs']|e];
    simpl; split; auto.
  intros p Hp. rewrite has_set, Hp. apply orb_true_r.
Qed.

Lemma restoreFile_activeIsOpen root sf : preserves activeIsOpen (restoreFile env root sf).
Proof.
  intros w Hw. destruct (restoreFile_grows root sf w) as (Ha & Hg).
  unfold activeIsOpen in *. rewrite Ha. destruct (activeFilePath w); auto.
Qed.

Lemma renderTabs_activeIsOpen : preserves activeIsOpen renderTabs.
Proof. intros w Hw. exact Hw. Qed.

Lemma restoreEditorState_activeIsOpen st root :
  preserves activeIsOpen (restoreEditorState env st root).
Proof.
  unfold restoreEditorState. destruct st as [st|]; [| apply preserves_ret].
  destruct (es_openFiles st) as [files|]; [| apply preserves_ret].
  apply preserves_bind.
  { apply preserves_for_each. intros sf. apply restoreFile_activeIsOpen. }
  intros _ w Hw. unfold bind, gets. simpl.
  destruct (JsString.truthy (es_activeFile st)
            && JsMap.has (JsString.show (es_activeFile st)) (openFiles w)) eqn:E.
  - apply andb_true_iff in E as [_ E]. now apply switchTab_activeIsOpen.
  - destruct (JsMap.first_key (openFiles w)) as [q|] eqn:Hq.
    + apply switchTab_activeIsOpen. now apply first_key_has.
    + exact Hw.
Qed.

Lemma discardFile_ok p w : discardFile p w = (Ok tt, discarded p w).
Proof.
  unfold discarded, discardFile, bind, gets, modify, world_of. simpl.
  destruct (JsMap.get p (openFiles w)); reflexivity.
Qed.

Lemma discard_loop_ok l w : for_each l discardFile w = (Ok tt, discardedAll l w).
Proof.
  revert w. induction l as [|p l IH]; intros w; simpl; [reflexivity |].
  unfold bind. rewrite discardFile_ok. apply IH.
Qed.

Lemma restoreCheckpointState_unfold st root w :
  restoreCheckpointState env st root w
  = restoreEditorState env st root
      (set_activeFilePath None (discardedAll (JsMap.keys (openFiles w)) w)).
Proof.
  unfold restoreCheckpointState, bind, gets, modify. simpl.
  now rewrite discard_loop_ok.
Qed.

Lemma restoreCheckpointState_activeIsOpen st root w :
  activeIsOpen (world_of (restoreCheckpointState env st root w)).
Proof.
  rewrite restoreCheckpointState_unfold.
  apply restoreEditorState_activeIsOpen. exact I.
Qed.

Lemma run_op_activeIsOpen op w :
  targetIsOpen op w -> activeIsOpen w -> activeIsOpen (world_of (run_op env op w)).
Proof.
  intros Ht Hw. destruct op as [h p f|p f|p| | |st root|st root]; simpl in *.
  - now apply openFile_activeIsOpen.
  - now apply switchTab_activeIsOpen.
  - now apply closeTab_activeIsOpen.
  - exact I.
  - unfold bind. pose proof (getEditorState_activeIsOpen w Hw) as H.
    unfold world_of in *. destruct (getEditorState w) as [[a|e] w1]; exact H.
  - now apply restoreEditorState_activeIsOpen.
  - apply restoreCheckpointState_activeIsOpen.
Qed.

(** C8, amended. In every world reached from the start by [openFile],
    [switchTab], [closeTab], [clearEditor], [getEditorState],
    [restoreEditorState] and [restoreCheckpointState], with [switchTab]
    only asked for paths that are open, [activeFilePath] is [null] or a
    key of [openFiles]. *)
Theorem active_path_is_open (w : World) : reachable env w -> activeIsOpen w.
Proof.
  induction 1 as [files|w op Hr IH Ht].
  - exact I.
  - now apply run_op_activeIsOpen.
Qed.

End Invariant.

Section RestoreFacts.
Import EditorJs.
Context (env : Env).

Lemma heap_le_refl w : heap_le w w.
Proof. intros id m H. eauto. Qed.

Lemma heap_le_trans w1 w2 w3 : heap_le w1 w2 -> heap_le w2 w3 -> heap_le w1 w3.
Proof.
  intros H12 H23 id m H. destruct (H12 id m H) as (m2 & H2 & Hd2).
  destruct (H23 id m2 H2) as (m3 & H3 & Hd3). eauto.
Qed.

Lemma heap_le_same w w' : models w' = models w -> heap_le w w'.
Proof. intros E id m H. rewrite E. eauto. Qed.

Lemma heap_le_app w w' extra : models w' = models w ++ extra -> heap_le w w'.
Proof.
  intros E id m H. rewrite E. exists m. split; [| auto].
  rewrite lookup_app_l; [assumption | apply lookup_lt_is_Some; eauto].
Qed.


Lemma discarded_eq p w :
  discarded p w
  = match JsMap.get p (openFiles w) with
    | Some fd => set_openFiles (JsMap.delete p (openFiles w)) (disposed (model fd) w)
    | None => set_openFiles (JsMap.delete p (openFiles w)) w
    end.
Proof.
  unfold discarded, discardFile, bind, gets, modify, world_of.
  cbn -[model_dispose].
  destruct (JsMap.get p (openFiles w)) as [fd|]; [| reflexivity].
  rewrite model_dispose_ok. cbn -[disposed].
  now destruct (disposed_frame (model fd) w) as (-> & _).
Qed.

Lemma discarded_openFiles p w :
  openFiles (discarded p w) = JsMap.delete p (openFiles w).
Proof.
  rewrite discarded_eq. destruct (JsMap.get p (openFiles w)); reflexivity.
Qed.


Lemma discarded_frame p w :
  fs (discarded p w) = fs w /\ db (discarded p w) = db w
  /\ trace (discarded p w) = trace w /\ focus (discarded p w) = focus w
  /\ tabBar (discarded p w) = tabBar w.
Proof.
  rewrite discarded_eq.
  destruct (JsMap.get p (openFiles w)) as [fd|]; simpl; [| tauto].
  destruct (disposed_frame (model fd) w) as (_ & _ & ? & ? & ? & ? & ?). tauto.
Qed.



Lemma discardedAll_openFiles l w :
  openFiles (discardedAll l w)
  = fold_left (fun m p => JsMap.delete p m) l (openFiles w).
Proof.
  revert w. induction l as [|p l IH]; intros w; simpl; [reflexivity |].
  now rewrite IH, discarded_openFiles.
Qed.

Lemma delete_all_keys (l : list string) (m : JsMap.t FileData) :
  (forall k, k ∈ JsMap.keys m -> k ∈ l) ->
  fold_left (fun m' p => JsMap.delete p m') l m = [].
Proof.
  revert m. induction l as [|p l IH]; intros m H; simpl.
  - destruct m as [|[k v] m]; [reflexivity |].
    specialize (H k). simpl in H. rewrite elem_of_cons in H.
    exfalso. eapply not_elem_of_nil. apply H. now left.
  - apply IH. intros k Hk. rewrite keys_delete in Hk.
    apply list_elem_of_filter in Hk as [Hne Hk].
    specialize (H k Hk). apply elem_of_cons in H as [->|H]; [contradiction | assumption].
Qed.


Lemma restoreFile_fromSnapshot files root sf :
  sf ∈ files -> preserves (fromSnapshot files) (restoreFile env root sf).
Proof.
  intros Hin w Hw.
  unfold restoreFile, try_catch, bind, on_fs, createModel, modify, world_of. simpl.
  destruct (getFileHandleFromPath env root (sf_path sf) true (fs w)) as [[h fs']|e];
    simpl; [| exact Hw].
  intros p fd. simpl. destruct (String.eqb_spec (sf_path sf) p) as [<-|Hne].
  - rewrite get_set_eq. intros [= <-]. exists sf. simpl.
    repeat split; try assumption. apply list_lookup_middle. reflexivity.
  - rewrite get_set_ne by assumption. intros Hget.
    destruct (Hw p fd Hget) as (sf0 & ? & ? & ? & Hm). exists sf0.
    repeat split; try assumption.
    rewrite lookup_app_l; [assumption | apply lookup_lt_is_Some; eauto].
Qed.

Lemma restore_loop_fromSnapshot files root l :
  (forall sf, sf ∈ l -> sf ∈ files) ->
  preserves (fromSnapshot files) (for_each l (restoreFile env root)).
Proof.
  induction l as [|sf l IH]; intros Hsub; simpl.
  - apply preserves_ret.
  - apply preserves_bind.
    + apply restoreFile_fromSnapshot. apply Hsub. now left.
    + intros _. apply IH. intros x Hx. apply Hsub. now right.
Qed.

(** What one iteration of the restore loop leaves unchanged. *)
Lemma restoreFile_frame root sf w :
  let w' := world_of (restoreFile env root sf w) in
  result (restoreFile env root sf w) = Ok tt
  /\ activeFilePath w' = activeFilePath w
  /\ heap_le w w'
  /\ (forall p, p ∈ JsMap.keys (openFiles w') ->
                p ∈ JsMap.keys (openFiles w) \/ p = sf_path sf)
  /\ (forall p, p ∈ JsMap.keys (openFiles w) -> p ∈ JsMap.keys (openFiles w'))
  /\ (NoDup (JsMap.keys (openFiles w)) -> NoDup (JsMap.keys (openFiles w')))
  /\ ((exists h fs', getFileHandleFromPath env root (sf_path sf) true (fs w) = Ok (h, fs'))
      -> sf_path sf ∈ JsMap.keys (openFiles w')).
Proof.
  unfold restoreFile, try_catch, bind, on_fs, createModel, modify, world_of, result.
  simpl.
  destruct (getFileHandleFromPath env root (sf_path sf) true (fs w)) as [[h fs']|e];
    simpl.
  - repeat split; auto.
    + eapply heap_le_app. reflexivity.
    + intros p Hp. apply has_elem_of_keys in Hp. rewrite has_set in Hp.
      apply orb_true_iff in Hp as [Hp|Hp].
      * right. now apply String.eqb_eq.
      * left. now apply has_elem_of_keys.
    + intros p Hp. apply has_elem_of_keys. rewrite has_set.
      apply has_elem_of_keys in Hp. rewrite Hp. apply orb_true_r.
    + apply NoDup_keys_set.
    + intros _. apply has_elem_of_keys. rewrite has_set, String.eqb_refl. reflexivity.
  - repeat split; auto.
    + apply heap_le_same. reflexivity.
    + intros (h & fs' & [=]).
Qed.

Lemma restore_loop_frame root l w :
  let w' := world_of (for_each l (restoreFile env root) w) in
  result (for_each l (restoreFile env root) w) = Ok tt
  /\ activeFilePath w' = activeFilePath w
  /\ heap_le w w'
  /\ (forall p, p ∈ JsMap.keys (openFiles w') ->
                p ∈ JsMap.keys (openFiles w) \/ p ∈ map sf_path l)
  /\ (forall p, p ∈ JsMap.keys (openFiles w) -> p ∈ JsMap.keys (openFiles w'))
  /\ (NoDup (JsMap.keys (openFiles w)) -> NoDup (JsMap.keys (openFiles w')))
  /\ ((forall sf fs0, sf ∈ l ->
         exists h fs', getFileHandleFromPath env root (sf_path sf) true fs0 = Ok (h, fs'))
      -> forall p, p ∈ map sf_path l -> p ∈ JsMap.keys (openFiles w')).
Proof.
  revert w. induction l as [|sf l IH]; intros w; simpl.
  - repeat split; auto using heap_le_refl.
    intros _ p Hp. inversion Hp.
  - destruct (restoreFile_frame root sf w) as (Hok & Ha & Hh & Hk1 & Hk2 & Hnd & Hin).
    unfold bind, result, world_of in *.
    destruct (restoreFile env root sf w) as [[[]|e] w1]; simpl in *; [| discriminate].
    destruct (IH w1) as (Hok' & Ha' & Hh' & Hk1' & Hk2' & Hnd' & Hin').
    unfold result, world_of in *.
    destruct (for_each l (restoreFile env root) w1) as [r w2]; simpl in *.
    repeat split; auto.
    + congruence.
    + eapply heap_le_trans; eassumption.
    + intros p Hp. destruct (Hk1' p Hp) as [Hp'|Hp'].
      * destruct (Hk1 p Hp') as [? | ->]; [now left | right; now left].
      * right. now right.
    + intros Hall p Hp. apply elem_of_cons in Hp as [->|Hp].
      * apply Hk2'. apply Hin. apply (Hall sf (fs w)). now left.
      * apply Hin'; [| assumption]. intros sf0 fs0 H0. apply Hall. now right.
Qed.

End RestoreFacts.

Section RestoreCheckpoint.
Import EditorJs.
Context (env : Env).

(** The last step of [restoreEditorState], run in a world without an
    active path. *)
Lemma restoreEditorState_final st files root w0 :
  es_openFiles st = Some files ->
  activeFilePath w0 = None ->
  let w2 := world_of (for_each files (restoreFile env root) w0) in
  let w' := world_of (restoreEditorState env (Some st) root w0) in
  result (restoreEditorState env (Some st) root w0) = Ok tt
  /\ openFiles w' = openFiles w2
  /\ models w' = models w2
  /\ activeFilePath w'
     = (if JsString.truthy (es_activeFile st)
           && JsMap.has (JsString.show (es_activeFile st)) (openFiles w2)
        then Some (JsString.show (es_activeFile st))
        else JsMap.first_key (openFiles w2))
  /\ (openFiles w2 = [] -> tabBar w' = []).
Proof.
  intros Hfiles Hact w2 w'. subst w2 w'.
  destruct (restore_loop_frame env root files w0) as (Hok & Ha & _).
  unfold restoreEditorState. rewrite Hfiles.
  unfold bind, gets, result, world_of in *.
  destruct (for_each files (restoreFile env root) w0) as [[[]|e] w2];
    simpl in *; [| discriminate].
  rewrite Hact in Ha.
  assert (Hcap : captured w2 = w2) by now apply captured_inactive.
  destruct (JsString.truthy (es_activeFile st)
            && JsMap.has (JsString.show (es_activeFile st)) (openFiles w2)) eqn:E.
  - apply andb_true_iff in E as [_ E]. apply has_true_get in E as [fd Hfd].
    assert (Hfd' := Hfd). rewrite <- Hcap in Hfd'.
    rewrite (switchTab_present _ _ _ _ Hfd'), Hcap. simpl.
    repeat split. intros H0. rewrite H0 in Hfd. discriminate.
  - destruct (openFiles w2) as [|[q fdq] rest] eqn:Hof; simpl.
    + repeat split; auto. unfold tabsOf. now rewrite Hof.
    + assert (Hq : JsMap.get q (openFiles (captured w2)) = Some fdq).
      { rewrite Hcap, Hof. simpl. now rewrite String.eqb_refl. }
      rewrite (switchTab_present _ _ _ _ Hq), Hcap. simpl.
      repeat split; auto. discriminate.
Qed.


End RestoreCheckpoint.

Section ReadFile.
Import EditorJs ToolExecutor.
Context (env : Env).









End ReadFile.

Section Quiet.
Import EditorJs ToolExecutor.

Lemma attempts_app t1 t2 : attempts (t1 ++ t2) = attempts t1 + attempts t2.
Proof. unfold attempts. now rewrite List.filter_app, length_app. Qed.

Lemma quiet_same {A} (m : M A) :
  (forall w, trace (world_of (m w)) = trace w) -> quiet m.
Proof. intros H w. exists []. rewrite app_nil_r. auto. Qed.

Lemma quiet_ret {A} (a : A) : quiet (ret a).
Proof. now apply quiet_same. Qed.

Lemma quiet_throw {A} e : quiet (@throw A e).
Proof. now apply quiet_same. Qed.

Lemma quiet_gets {A} (f : World -> A) : quiet (gets f).
Proof. now apply quiet_same. Qed.

Lemma quiet_modify f : (forall w, trace (f w) = trace w) -> quiet (modify f).
Proof. intros H. apply quiet_same. exact H. Qed.

Lemma quiet_log c fn info :
  isCheckpointAttempt (Call c fn info) = false -> quiet (log c fn info).
Proof.
  intros H w. exists [Call c fn info]. split; [reflexivity |].
  unfold attempts. cbn -[isCheckpointAttempt]. now rewrite H.
Qed.

Lemma quiet_bind {A B} (m : M A) (k : A -> M B) :
  quiet m -> (forall a, quiet (k a)) -> quiet (bind m k).
Proof.
  intros Hm Hk w. destruct (Hm w) as (t1 & E1 & A1).
  unfold bind, world_of in *. destruct (m w) as [[a|e] w1]; simpl in *.
  - destruct (Hk a w1) as (t2 & E2 & A2). unfold world_of in E2.
    exists (t1 ++ t2). rewrite E2, E1, attempts_app, A1, A2, app_assoc. auto.
  - eauto.
Qed.

Lemma quiet_try_catch {A} (m : M A) (h : string -> M A) :
  quiet m -> (forall e, quiet (h e)) -> quiet (try_catch m h).
Proof.
  intros Hm Hh w. destruct (Hm w) as (t1 & E1 & A1).
  unfold try_catch, world_of in *. destruct (m w) as [[a|e] w1]; simpl in *.
  - eauto.
  - destruct (Hh e w1) as (t2 & E2 & A2). unfold world_of in E2.
    exists (t1 ++ t2). rewrite E2, E1, attempts_app, A1, A2, app_assoc. auto.
Qed.

Lemma quiet_when b m : quiet m -> quiet (when b m).
Proof. destruct b; [auto | intros _; apply quiet_ret]. Qed.

Lemma quiet_for_each {A} (l : list A) (body : A -> M unit) :
  (forall x, quiet (body x)) -> quiet (for_each l body).
Proof.
  intros H. induction l as [|x l IH]; simpl; [apply quiet_ret |].
  apply quiet_bind; [apply H | intros _; exact IH].
Qed.

Lemma quiet_on_fs {A} (f : FS -> Exc (A * FS)) : quiet (on_fs f).
Proof.
  apply quiet_same. intros w. unfold on_fs, world_of.
  destruct (f (fs w)) as [[a fs']|e]; reflexivity.
Qed.

Lemma quiet_on_db f : quiet (on_db f).
Proof.
  apply quiet_same. intros w. unfold on_db, world_of.
  destruct (f (db w)) as [d|e]; reflexivity.
Qed.

(** A step that reads the world and leaves it as it is. *)
Lemma quiet_pure {A} (f : World -> Exc A) : quiet (fun w => (f w, w)).
Proof. now apply quiet_same. Qed.

Lemma quiet_createModel text : quiet (createModel text).
Proof. now apply quiet_same. Qed.

Lemma quiet_handle_getFile h : quiet (handle_getFile h).
Proof.
  apply quiet_same. intros w. unfold handle_getFile, world_of.
  destruct (fs w !! h_path h); reflexivity.
Qed.

Lemma quiet_model_dispose id : quiet (model_dispose id).
Proof.
  apply quiet_modify. intros w. simpl. destruct (decide _); reflexivity.
Qed.

Ltac quiet_step :=
  first
    [ apply quiet_ret | apply quiet_throw | apply quiet_gets
    | apply quiet_log; reflexivity
    | apply quiet_on_fs | apply quiet_on_db | apply quiet_pure
    | apply quiet_createModel | apply quiet_handle_getFile
    | apply quiet_model_dispose
    | apply quiet_modify; intros ?; reflexivity
    | apply quiet_when
    | apply quiet_for_each; intros ?
    | apply quiet_bind; [| intros ?]
    | apply quiet_try_catch; [| intros ?]
    | match goal with
      | |- quiet (match ?x with _ => _ end) => destruct x
      | |- quiet (if ?b then _ else _) => destruct b
      end ].

Ltac quiet_auto := repeat quiet_step.







Lemma quiet_getModelMarkers env p : quiet (getModelMarkers env p).
Proof. unfold getModelMarkers. quiet_auto. Qed.

Section WithEnv.
Context (env : Env).


End WithEnv.
End Quiet.

Section Blind.
Import EditorJs ToolExecutor.






















Lemma includes_cases (l : list string) (x : string) :
  includes l x = true -> x ∈ l.
Proof.
  unfold includes. intros H. apply existsb_exists in H as (y & Hy & E).
  apply String.eqb_eq in E. subst. now apply list_elem_of_In.
Qed.

Section WithEnv.
Context (env : Env).


End WithEnv.
End Blind.

Section Interception.
Import EditorJs ToolExecutor.
Context (env : Env).

Lemma getEditorState_eq w :
  getEditorState w = (Ok (snapshotOf (captured w)), captured w).
Proof.
  unfold getEditorState, bind. rewrite captureActiveViewState_ok. reflexivity.
Qed.

Lemma captured_set_trace t w : captured (set_trace t w) = set_trace t (captured w).
Proof.
  unfold captured, captureActiveViewState, bind, gets, modify, ret, world_of. simpl.
  destruct (activeFilePath w) as [p|]; simpl; [| reflexivity].
  destruct (negb (p =? "")%string); simpl; [| reflexivity].
  destruct (JsMap.get p (openFiles w)); reflexivity.
Qed.

Lemma captured_nil w : openFiles (captured w) = [] <-> openFiles w = [].
Proof.
  pose proof (captured_keys w) as H. unfold JsMap.keys in H.
  destruct (openFiles w), (openFiles (captured w)); simpl in *;
    split; intros; congruence.
Qed.

Lemma checkpointInterception_spec name w :
  exists wI,
    checkpointInterception env name w = (Ok tt, wI)
    /\ core wI = core (if includes checkpointTools name then captured w else w)
    /\ trace wI = trace w ++ interceptionEvents env name w.
Proof.
  unfold checkpointInterception, interceptionEvents, when.
  destruct (includes checkpointTools name).
  2:{ exists w. rewrite app_nil_r. repeat split. }
  unfold try_catch, bind, log, modify. simpl.
  rewrite getEditorState_eq, captured_set_trace. simpl.
  destruct (captured_frame w) as (_ & _ & _ & _ & _ & _ & Hdb & Htr).
  destruct (openFiles (captured w)) as [|kv rest] eqn:Hof.
  - pose proof (proj1 (captured_nil w) Hof) as Hof'. rewrite Hof'. simpl.
    eexists. split; [reflexivity |]. split.
    + unfold core. simpl. now rewrite Hof.
    + reflexivity.
  - destruct (openFiles w) as [|kv0 rest0] eqn:Hof0.
    { apply (proj2 (captured_nil w)) in Hof0. congruence. }
    simpl. unfold on_db. simpl. rewrite Hdb.
    change (snapshotOf (set_trace _ (captured w))) with (snapshotOf (captured w)).
    change (mkCheckpoint _ (snapshotOf (captured w)) _) with (checkpointOf env w).
    destruct (saveCheckpoint env (checkpointOf env w) (db w)) as [d|e]; simpl.
    + eexists. split; [reflexivity |]. split.
      * unfold core. simpl. now rewrite Hof.
      * simpl. rewrite <- app_assoc. reflexivity.
    + eexists. split; [reflexivity |]. split.
      * unfold core. simpl. now rewrite Hof.
      * simpl. rewrite <- !app_assoc. reflexivity.
Qed.




End Interception.

Section Checkpoint.
Import EditorJs ToolExecutor.
Context (env : Env).


End Checkpoint.

Section Boundary.
Import EditorJs ToolExecutor.
Context (env : Env).




Lemma untouched_set_trace t w : untouched w (set_trace t w).
Proof. split; reflexivity. Qed.





End Boundary.

Section Preconditions.
Import EditorJs ToolExecutor.
Context (env : Env).





End Preconditions.

(* ================================================================== *)
(** * Further properties of the two files *)
(* ================================================================== *)

(** ** Splitting and joining *)

Section SplitJoin.

Lemma append_cons (c : ascii) (a b : string) : String c a +:+ b = String c (a +:+ b).
Proof. reflexivity. Qed.

Lemma append_assoc' (a b c : string) : (a +:+ b) +:+ c = a +:+ (b +:+ c).
Proof. induction a as [|x a IH]; [reflexivity |]. rewrite !append_cons. now rewrite IH. Qed.

Lemma append_nil_r' (a : string) : a +:+ "" = a.
Proof. induction a as [|x a IH]; [reflexivity |]. rewrite append_cons. now rewrite IH. Qed.

(** The characters of a matched separator that remain to be skipped are
    dropped whatever they are. *)
Lemma split_from_skip (sep a b : string) :
  JsString.split_from sep (String.length a) (a +:+ b) = JsString.split_from sep 0 b.
Proof.
  induction a as [|c a IH]; [destruct b; reflexivity |].
  rewrite append_cons. simpl. exact IH.
Qed.

Lemma prefix_append (p s : string) :
  String.prefix p s = true -> exists r, s = p +:+ r.
Proof.
  revert s. induction p as [|c p IH]; intros s H.
  - exists s. reflexivity.
  - destruct s as [|d s]; simpl in H; [discriminate |].
    destruct (Ascii.ascii_dec c d) as [Heq | Hne]; [subst d | discriminate].
    destruct (IH s H) as [r ->]. exists r. reflexivity.
Qed.

Lemma split_from_cons (sep : string) (c : ascii) (s : string) :
  JsString.split_from sep 0 (String c s)
  = if String.prefix sep (String c s)
    then "" :: JsString.split_from sep (String.length sep - 1) s
    else match JsString.split_from sep 0 s with
         | h :: t => String c h :: t
         | [] => [String c ""]
         end.
Proof. reflexivity. Qed.

Lemma split_from_nonempty (sep : string) (k : nat) (s : string) :
  JsString.split_from sep k s <> [].
Proof.
  revert k. induction s as [|c s IH]; intros k; [destruct k; discriminate |].
  destruct k as [|k]; [| apply IH].
  rewrite split_from_cons.
  destruct (String.prefix sep (String c s)); [discriminate |].
  destruct (JsString.split_from sep 0 s); discriminate.
Qed.

Lemma join_cons (sep x : string) (l : list string) :
  l <> [] -> JsString.join sep (x :: l) = x +:+ sep +:+ JsString.join sep l.
Proof. destruct l; [congruence | reflexivity]. Qed.

Lemma join_snoc (sep x : string) (l : list string) :
  l <> [] -> JsString.join sep (l ++ [x]) = JsString.join sep l +:+ sep +:+ x.
Proof.
  induction l as [|y l IH]; [congruence |]. intros _.
  destruct l as [|z l].
  - reflexivity.
  - change ((y :: z :: l) ++ [x]) with (y :: ((z :: l) ++ [x])).
    rewrite join_cons by (destruct l; discriminate).
    rewrite IH by discriminate.
    rewrite (join_cons sep y (z :: l)) by discriminate.
    now rewrite !append_assoc'.
Qed.

Lemma join_cons_char (sep : string) (c : ascii) (h : string) (t : list string) :
  JsString.join sep (String c h :: t) = String c (JsString.join sep (h :: t)).
Proof. destruct t; reflexivity. Qed.

(** Joining the pieces of a split with the same separator gives the text
    back. *)
Lemma join_split_from (sep : string) (n : nat) (s : string) :
  sep <> "" -> String.length s <= n ->
  JsString.join sep (JsString.split_from sep 0 s) = s.
Proof.
  intros Hsep. revert s. induction n as [|n IH]; intros s Hn.
  - destruct s; [reflexivity | simpl in Hn; lia].
  - destruct s as [|c s]; [reflexivity |].
    rewrite split_from_cons.
    destruct (String.prefix sep (String c s)) eqn:Hp.
    + destruct (prefix_append _ _ Hp) as [r Hr].
      destruct sep as [|c0 sep']; [congruence |].
      rewrite append_cons in Hr. injection Hr as <- ->.
      replace (String.length (String c sep') - 1) with (String.length sep')
        by (simpl; lia).
      rewrite split_from_skip.
      rewrite join_cons by apply split_from_nonempty.
      rewrite IH.
      * reflexivity.
      * simpl in Hn. rewrite length_append in Hn. lia.
    + destruct (JsString.split_from sep 0 s) as [|h t] eqn:Hs.
      { exfalso. eapply split_from_nonempty. exact Hs. }
      rewrite join_cons_char. f_equal. rewrite <- Hs. apply IH.
      simpl in Hn. lia.
Qed.

Lemma join_split (sep s : string) :
  sep <> "" -> JsString.join sep (JsString.split sep s) = s.
Proof. intros H. now apply (join_split_from sep (String.length s)). Qed.

End SplitJoin.

(** ** insert_content on any file *)

Section InsertedContent.
Import ToolExecutor.

Lemma splice_insert_top {A} (item : A) (l : list A) :
  JsString.splice_insert 0 item l = item :: l.
Proof. reflexivity. Qed.

(** X1. [insert_content] with a line number of 1 or less (0, negative)
    puts the content in front of the whole file text, followed by the
    separator the code joins with (the two characters backslash-n). *)
Theorem insert_at_top_prepends (original : string) (n : Z) (content : option string) :
  (n <= 1)%Z ->
  insertedContent original (Some n) content
  = default "" content +:+ "\n" +:+ original.
Proof.
  intros Hn. unfold insertedContent. rewrite insertionPoint_clamped by exact Hn.
  rewrite splice_insert_top.
  rewrite join_cons by apply split_from_nonempty.
  now rewrite join_split.
Qed.

(** X2. [insert_content] with a line number beyond the number of pieces
    the file text splits into puts the content after the whole text,
    preceded by the separator: [splice] clamps the index. *)
Theorem insert_past_end_appends (original : string) (n : Z) (content : option string) :
  (Z.of_nat (length (JsString.split "\n" original)) < n)%Z ->
  insertedContent original (Some n) content
  = original +:+ "\n" +:+ default "" content.
Proof.
  intros Hn. unfold insertedContent.
  rewrite splice_insert_beyond by (unfold insertionPoint; lia).
  rewrite join_snoc by apply split_from_nonempty.
  now rewrite join_split.
Qed.

End InsertedContent.

Section InsertedMore.
Import ToolExecutor.

Lemma join_app (sep : string) (l1 l2 : list string) :
  l1 <> [] -> l2 <> [] ->
  JsString.join sep (l1 ++ l2)
  = JsString.join sep l1 +:+ sep +:+ JsString.join sep l2.
Proof.
  intros H1 H2. induction l1 as [|x l1 IH]; [congruence |].
  destruct l1 as [|y l1].
  - simpl app. now rewrite join_cons.
  - change ((x :: y :: l1) ++ l2) with (x :: ((y :: l1) ++ l2)).
    rewrite join_cons by discriminate. rewrite IH by discriminate.
    rewrite (join_cons sep x (y :: l1)) by discriminate.
    now rewrite !append_assoc'.
Qed.

Lemma split_no_occurrence (sep s : string) :
  occurs sep s = false -> JsString.split sep s = [s].
Proof.
  unfold JsString.split. induction s as [|c s IH]; intros H.
  - reflexivity.
  - simpl occurs in H. apply orb_false_iff in H as [Hp Hrest].
    rewrite split_from_cons.
    change (String.prefix sep (String c s)) with
      (match sep with
       | EmptyString => true
       | String a s1' => if Ascii.ascii_dec a c then String.prefix s1' s else false
       end) in *.
    rewrite Hp. now rewrite IH.
Qed.

(** X3. Whatever the line number and the content, [insert_content]
    loses nothing of the file: the new text is the content before the
    original, or the content after it, or the original cut in two at one
    of its separators with the content and one more separator in
    between. *)
Theorem insert_keeps_original (original : string) (n : option Z)
    (content : option string) :
  let c := default "" content in
  let new := insertedContent original n content in
  new = c +:+ "\n" +:+ original
  \/ new = original +:+ "\n" +:+ c
  \/ exists a b, original = a +:+ "\n" +:+ b
                 /\ new = a +:+ "\n" +:+ c +:+ "\n" +:+ b.
Proof.
  intros c new. subst new. unfold insertedContent. fold c.
  set (l := JsString.split "\n" original).
  set (k := insertionPoint n).
  assert (Hl : l <> []) by apply split_from_nonempty.
  assert (Ho : original = JsString.join "\n" l).
  { symmetry. now apply join_split. }
  unfold JsString.splice_insert.
  destruct (take k l) as [|x1 t1] eqn:Ht; [| destruct (drop k l) as [|x2 t2] eqn:Hd].
  - left. pose proof (take_drop k l) as E. rewrite Ht in E. simpl in E.
    rewrite E. simpl app. rewrite join_cons by exact Hl. now rewrite Ho.
  - right. left. pose proof (take_drop k l) as E. rewrite Ht, Hd, app_nil_r in E.
    rewrite join_snoc by discriminate. now rewrite Ho, <- E.
  - right. right. exists (JsString.join "\n" (x1 :: t1)), (JsString.join "\n" (x2 :: t2)).
    split.
    + rewrite Ho, <- (take_drop k l), Ht, Hd. now apply join_app.
    + rewrite join_app by discriminate.
      now rewrite (join_cons "\n" c (x2 :: t2)) by discriminate.
Qed.

(** X4. On a file text that does not contain the two-character sequence
    backslash-n, however many line feeds it has, [insert_content] never
    inserts between two lines: for a line number of 1 or less the content
    is put in front of the text, for every other line number after it. *)
Theorem insert_never_between_lines (original : string) (n : Z)
    (content : option string) :
  occurs "\n" original = false ->
  insertedContent original (Some n) content
  = if (n <=? 1)%Z then default "" content +:+ "\n" +:+ original
    else original +:+ "\n" +:+ default "" content.
Proof.
  intros H. unfold insertedContent. rewrite (split_no_occurrence _ _ H).
  destruct (n <=? 1)%Z eqn:Hn.
  - apply Z.leb_le in Hn. rewrite insertionPoint_clamped by exact Hn. reflexivity.
  - apply Z.leb_gt in Hn. rewrite splice_insert_beyond by (unfold insertionPoint; simpl; lia).
    reflexivity.
Qed.

End InsertedMore.

(** ** Tabs *)

Section TabFacts.
Import EditorJs.

Lemma captured_get_active p fd w :
  activeFilePath w = Some p -> p <> "" ->
  JsMap.get p (openFiles w) = Some fd ->
  JsMap.get p (openFiles (captured w))
  = Some (mkFileData (handle fd) (name fd) (model fd) (savedView w)).
Proof.
  intros Ha Hp Hget.
  unfold captured, captureActiveViewState, bind, gets, modify, ret, world_of. simpl.
  rewrite Ha. simpl. destruct (String.eqb_spec p ""); [contradiction |]. simpl.
  rewrite Hget. simpl. apply get_set_eq.
Qed.

Lemma captured_get_other q w :
  activeFilePath w <> Some q ->
  JsMap.get q (openFiles (captured w)) = JsMap.get q (openFiles w).
Proof.
  intros Ha.
  unfold captured, captureActiveViewState, bind, gets, modify, ret, world_of. simpl.
  destruct (activeFilePath w) as [p|]; simpl; [| reflexivity].
  destruct (negb (p =? "")%string); simpl; [| reflexivity].
  destruct (JsMap.get p (openFiles w)) eqn:E; simpl; [| reflexivity].
  apply get_set_ne. congruence.
Qed.

(** X5. The view state of a document survives a switch to another tab
    and back: with [p] active and shown, [switchTab q] then [switchTab p]
    both return, [p] is active again, the widget shows its model and the
    view is the one the widget had before the first switch. *)
Theorem view_state_round_trip (w : World) (p q : string) (fdp fdq : FileData)
    (f1 f2 : bool) :
  activeFilePath w = Some p -> p <> "" -> p <> q ->
  JsMap.get p (openFiles w) = Some fdp ->
  JsMap.get q (openFiles w) = Some fdq ->
  w_model (editor w) <> None ->
  let w1 := world_of (switchTab q f1 w) in
  let w2 := world_of (switchTab p f2 w1) in
  result (switchTab q f1 w) = Ok tt
  /\ result (switchTab p f2 w1) = Ok tt
  /\ activeFilePath w2 = Some p
  /\ w_model (editor w2) = Some (model fdp)
  /\ w_view (editor w2) = w_view (editor w).
Proof.
  intros Ha Hp Hpq Hgp Hgq Hm w1 w2. subst w2 w1.
  assert (Hq1 : JsMap.get q (openFiles (captured w)) = Some fdq).
  { rewrite captured_get_other; [exact Hgq | congruence]. }
  rewrite (switchTab_present _ _ _ _ Hq1).
  set (w1 := switched q f1 fdq (captured w)).
  assert (Hp1 : JsMap.get p (openFiles w1)
                = Some (mkFileData (handle fdp) (name fdp) (model fdp) (savedView w))).
  { subst w1. simpl. now apply captured_get_active. }
  assert (Hp2 : JsMap.get p (openFiles (captured w1))
                = Some (mkFileData (handle fdp) (name fdp) (model fdp) (savedView w))).
  { rewrite captured_get_other; [exact Hp1 |]. subst w1. simpl. congruence. }
  rewrite (switchTab_present _ _ _ _ Hp2). simpl.
  repeat split. unfold savedView.
  destruct (w_model (editor w)); [reflexivity | contradiction].
Qed.

(** X6. [openFile] never throws. Afterwards the path is open and
    active; or it was not open and the file could not be read, and then
    nothing but the console record of the error has changed. *)
Theorem openFile_never_throws (h : Handle) (p : string) (f : bool) (w : World) :
  let w' := world_of (openFile h p f w) in
  result (openFile h p f w) = Ok tt
  /\ ((activeFilePath w' = Some p /\ JsMap.has p (openFiles w') = true)
      \/ (JsMap.has p (openFiles w) = false /\ fs w !! h_path h = None
          /\ core w' = core w /\ db w' = db w)).
Proof.
  intros w'. subst w'.
  destruct (JsMap.has p (openFiles w)) eqn:Hhas.
  - rewrite openFile_open by exact Hhas.
    assert (H : JsMap.has p (openFiles (captured w)) = true) by now rewrite captured_has.
    apply has_true_get in H as [fd Hfd].
    rewrite (switchTab_present _ _ _ _ Hfd). simpl.
    split; [reflexivity |]. left. split; [reflexivity |].
    apply has_true_get. eauto.
  - destruct (fs w !! h_path h) as [text|] eqn:Hfs.
    + destruct (openFile_new h p f w text Hhas Hfs) as (fd & Hget & _ & ->).
      simpl. split; [reflexivity |]. left. split; [reflexivity |].
      apply has_true_get. eauto.
    + rewrite openFile_unreadable by assumption. simpl.
      split; [reflexivity |]. right. repeat split.
Qed.

Lemma delete_absent {V} (k : string) (m : JsMap.t V) :
  JsMap.get k m = None -> JsMap.delete k m = m.
Proof.
  induction m as [|[k' v] m IH]; simpl; [reflexivity |].
  destruct (String.eqb k k'); [discriminate |].
  intros H. now rewrite IH.
Qed.

(** X7. Closing a tab that is not the active one returns and removes
    that entry only: the other entries, their order, the active path, the
    input focus, the files and the store are as before, the tab strip is
    redrawn from the remaining entries, and when the path was not open at
    all the model heap and the widget are untouched. *)
Theorem close_inactive_tab (w : World) (p : string) :
  activeFilePath w <> Some p ->
  let w' := world_of (closeTab p w) in
  result (closeTab p w) = Ok tt
  /\ openFiles w' = JsMap.delete p (openFiles w)
  /\ JsMap.keys (openFiles w') = filter (fun k => k <> p) (JsMap.keys (openFiles w))
  /\ activeFilePath w' = activeFilePath w
  /\ focus w' = focus w /\ fs w' = fs w /\ db w' = db w /\ trace w' = trace w
  /\ tabBar w' = tabsOf w'
  /\ (forall q, q <> p -> JsMap.get q (openFiles w') = JsMap.get q (openFiles w))
  /\ (JsMap.get p (openFiles w) = None -> models w' = models w /\ editor w' = editor w).
Proof.
  intros Ha w'. subst w'.
  unfold closeTab, bind, gets, modify. cbn -[model_dispose].
  destruct (JsMap.get p (openFiles w)) as [fd|] eqn:Hget.
  - rewrite model_dispose_ok. cbn -[disposed].
    destruct (disposed_frame (model fd) w) as (Hof & Haf & Htb & Hfo & Hfs & Hdb & Htr).
    rewrite Hof, Haf.
    rewrite bool_decide_eq_false_2 by exact Ha.
    unfold renderTabs, modify. simpl.
    rewrite Haf, Hfo, Hfs, Hdb, Htr.
    conjuncts; try reflexivity.
    + apply keys_delete.
    + unfold tabsOf. simpl. now rewrite Haf.
    + intros q Hq. apply get_delete_ne. congruence.
    + discriminate.
  - cbn. rewrite bool_decide_eq_false_2 by exact Ha. simpl.
    conjuncts; try reflexivity.
    + apply keys_delete.
    + intros q Hq. apply get_delete_ne. congruence.
    + intros _. split; reflexivity.
Qed.

End TabFacts.

(** ** Open documents and their models *)

Section DocModels.

Implicit Types (m : JsMap.t FileData) (fd : FileData).

Lemma get_elem_of p fd m : JsMap.get p m = Some fd -> model fd ∈ docModels m.
Proof.
  induction m as [|[k v] m IH]; simpl; [discriminate |].
  destruct (String.eqb p k).
  - intros [= <-]. left.
  - intros H. right. now apply IH.
Qed.

Lemma docModels_set_same p fd fd0 m :
  JsMap.get p m = Some fd0 -> model fd = model fd0 ->
  docModels (JsMap.set p fd m) = docModels m.
Proof.
  induction m as [|[k v] m IH]; simpl; [discriminate |].
  destruct (String.eqb p k); simpl.
  - intros [= <-] ->. reflexivity.
  - intros H1 H2. now rewrite IH.
Qed.

Lemma docModels_set_elem p fd m x :
  x ∈ docModels (JsMap.set p fd m) -> x = model fd \/ x ∈ docModels m.
Proof.
  induction m as [|[k v] m IH]; simpl.
  - intros H. apply list_elem_of_singleton in H. now left.
  - destruct (String.eqb p k); simpl; rewrite !elem_of_cons.
    + intros [->|H]; [now left | right; now right].
    + intros [->|H]; [right; now left |].
      destruct (IH H) as [->|H']; [now left | right; now right].
Qed.

Lemma NoDup_docModels_set p fd m :
  NoDup (docModels m) -> model fd ∉ docModels m ->
  NoDup (docModels (JsMap.set p fd m)).
Proof.
  induction m as [|[k v] m IH]; simpl; intros Hnd Hfresh.
  - apply NoDup_singleton.
  - apply NoDup_cons in Hnd as [Hv Hnd].
    apply not_elem_of_cons in Hfresh as [Hne Hfresh].
    destruct (String.eqb p k); simpl.
    + apply NoDup_cons. split; assumption.
    + apply NoDup_cons. split; [| now apply IH].
      intros Hin. destruct (docModels_set_elem _ _ _ _ Hin) as [E|Hin']; auto.
Qed.

Lemma docModels_delete_elem p m x :
  x ∈ docModels (JsMap.delete p m) -> x ∈ docModels m.
Proof.
  induction m as [|[k v] m IH]; simpl; [auto |].
  destruct (String.eqb p k); simpl; rewrite !elem_of_cons.
  - intros H. right. now apply IH.
  - intros [->|H]; [now left | right; now apply IH].
Qed.

Lemma NoDup_docModels_delete p m :
  NoDup (docModels m) -> NoDup (docModels (JsMap.delete p m)).
Proof.
  induction m as [|[k v] m IH]; simpl; [auto |]. intros Hnd.
  apply NoDup_cons in Hnd as [Hv Hnd].
  destruct (String.eqb p k); simpl; [now apply IH |].
  apply NoDup_cons. split; [| now apply IH].
  intros Hin. apply Hv. eapply docModels_delete_elem. exact Hin.
Qed.

(** The model of a closed document belongs to no document that stays. *)
Lemma closed_model_not_kept p fd m :
  NoDup (docModels m) -> JsMap.get p m = Some fd ->
  model fd ∉ docModels (JsMap.delete p m).
Proof.
  induction m as [|[k v] m IH]; simpl; [discriminate |]. intros Hnd.
  apply NoDup_cons in Hnd as [Hv Hnd].
  destruct (String.eqb p k) eqn:E; simpl.
  - intros [= <-] Hin. apply Hv. eapply docModels_delete_elem. exact Hin.
  - intros Hget. apply not_elem_of_cons. split; [| now apply IH].
    intros Heq. apply Hv. simpl. rewrite <- Heq. eapply get_elem_of. exact Hget.
Qed.

Lemma distinct_models a p fa fp m :
  NoDup (docModels m) -> a <> p ->
  JsMap.get a m = Some fa -> JsMap.get p m = Some fp -> model fa <> model fp.
Proof.
  intros Hnd Hne Ha Hp Heq.
  apply (closed_model_not_kept p fp m Hnd Hp).
  rewrite <- Heq. apply (get_elem_of a). rewrite get_delete_ne by congruence. exact Ha.
Qed.

Lemma set_absent {V} (p : string) (v : V) (m : JsMap.t V) :
  JsMap.has p m = false -> JsMap.set p v m = m ++ [(p, v)].
Proof.
  unfold JsMap.has. induction m as [|[k v'] m IH]; simpl; [reflexivity |].
  destruct (String.eqb p k); [discriminate |]. intros H. now rewrite IH.
Qed.

End DocModels.

Section LiveModels.
Import EditorJs.

Lemma liveModel_lt w id : liveModel w id -> id < length (models w).
Proof. intros (m & H & _). apply lookup_lt_is_Some. eauto. Qed.

Lemma liveModel_app (w w' : World) extra id :
  models w' = models w ++ extra -> liveModel w id -> liveModel w' id.
Proof.
  intros E (m & H & Hd). exists m. split; [| exact Hd].
  rewrite E. rewrite lookup_app_l; [exact H | apply lookup_lt_is_Some; eauto].
Qed.

Lemma liveModel_same (w w' : World) id :
  models w' = models w -> liveModel w id -> liveModel w' id.
Proof. intros E (m & H & Hd). exists m. rewrite E. auto. Qed.

Lemma liveModel_disposed_other w id x :
  x <> id -> liveModel w x -> liveModel (disposed id w) x.
Proof.
  intros Hne (m & H & Hd). exists m. split; [| exact Hd].
  rewrite disposed_models, list_lookup_alter_ne by congruence. exact H.
Qed.

Lemma liveModel_setValue w id text x :
  liveModel w x -> liveModel (world_of (model_setValue id text w)) x.
Proof.
  intros (m & H & Hd).
  assert (E : models (world_of (model_setValue id text w))
              = alter (fun m0 => mkModel text (m_disposed m0)) id (models w))
    by reflexivity.
  unfold liveModel. rewrite E.
  destruct (decide (x = id)) as [->|Hne].
  - exists (mkModel text (m_disposed m)). rewrite list_lookup_alter_eq, H. auto.
  - exists m. rewrite list_lookup_alter_ne by congruence. auto.
Qed.

(** [docsOk] and [showsActive] only look at the session. *)
Lemma docsOk_ext w w' :
  openFiles w' = openFiles w -> models w' = models w -> docsOk w -> docsOk w'.
Proof.
  intros Ho Hm (H1 & H2 & H3). unfold docsOk. rewrite Ho.
  split; [exact H1 |]. split; [exact H2 |].
  eapply Forall_impl; [exact H3 |]. intros x. now apply liveModel_same.
Qed.

Lemma showsActive_ext w w' :
  openFiles w' = openFiles w -> activeFilePath w' = activeFilePath w ->
  w_model (editor w') = w_model (editor w) -> showsActive w -> showsActive w'.
Proof.
  intros Ho Ha He H p fd. rewrite Ho, Ha, He. apply H.
Qed.

Lemma sessionOk_ext w w' :
  openFiles w' = openFiles w -> activeFilePath w' = activeFilePath w ->
  models w' = models w -> w_model (editor w') = w_model (editor w) ->
  sessionOk w -> sessionOk w'.
Proof.
  intros Ho Ha Hm He [Hd Hs]. split;
    [now apply (docsOk_ext w) | now apply (showsActive_ext w)].
Qed.

Lemma docsOk_empty w : openFiles w = [] -> docsOk w.
Proof.
  intros E. unfold docsOk. rewrite E. simpl.
  split; [constructor |]. split; [constructor | constructor].
Qed.

Lemma showsActive_inactive w : activeFilePath w = None -> showsActive w.
Proof. intros E p fd. rewrite E. discriminate. Qed.

Lemma showsActive_empty w : openFiles w = [] -> showsActive w.
Proof. intros E p fd _. rewrite E. discriminate. Qed.

Lemma captured_docModels w : docModels (openFiles (captured w)) = docModels (openFiles w).
Proof.
  unfold captured, captureActiveViewState, bind, gets, modify, ret, world_of. simpl.
  destruct (activeFilePath w) as [p|]; simpl; [| reflexivity].
  destruct (negb (p =? "")%string); simpl; [| reflexivity].
  destruct (JsMap.get p (openFiles w)) as [fd|] eqn:E; simpl; [| reflexivity].
  now apply (docModels_set_same p _ fd).
Qed.

Lemma docsOk_captured w : docsOk w -> docsOk (captured w).
Proof.
  intros (H1 & H2 & H3). unfold docsOk.
  rewrite captured_keys, captured_docModels.
  split; [exact H1 |]. split; [exact H2 |].
  eapply Forall_impl; [exact H3 |]. intros x. apply liveModel_same.
  apply captured_frame.
Qed.

Lemma showsActive_captured w : showsActive w -> showsActive (captured w).
Proof.
  intros H p fd Ha Hget.
  destruct (captured_frame w) as (He & Haf & _). rewrite He. rewrite Haf in Ha.
  destruct (captured_get_model p w fd Hget) as (fd0 & H0 & -> & _).
  now apply (H p).
Qed.

(** [switchTab] leaves a good session behind, asked for an open path or
    not. *)
Lemma switchTab_sessionOk p f w : docsOk w -> sessionOk (world_of (switchTab p f w)).
Proof.
  intros Hd. apply docsOk_captured in Hd.
  destruct (JsMap.has p (openFiles w)) eqn:Hhas.
  - assert (H : JsMap.has p (openFiles (captured w)) = true) by now rewrite captured_has.
    apply has_true_get in H as [fd Hfd].
    rewrite (switchTab_present _ _ _ _ Hfd). split.
    + now apply (docsOk_ext (captured w)).
    + intros q fd' Ha Hget. simpl in *. injection Ha as <-.
      rewrite Hfd in Hget. injection Hget as <-. reflexivity.
  - rewrite switchTab_absent by exact Hhas. split.
    + now apply (docsOk_ext (captured w)).
    + intros q fd' Ha Hget. simpl in *. injection Ha as <-.
      assert (H : JsMap.has p (openFiles (captured w)) = false) by now rewrite captured_has.
      apply has_false_get in H. congruence.
Qed.

Lemma clearEditor_sessionOk w : sessionOk (world_of (clearEditor w)).
Proof.
  rewrite clearEditor_ok. split;
    [now apply docsOk_empty | now apply showsActive_inactive].
Qed.

Lemma docsOk_opened h p text w :
  JsMap.has p (openFiles w) = false -> docsOk w -> docsOk (opened h p text w).
Proof.
  intros Hhas (H1 & H2 & H3). unfold docsOk, opened. simpl.
  split; [now apply NoDup_keys_set |].
  assert (Hfresh : length (models w) ∉ docModels (openFiles w)).
  { intros Hin. rewrite Forall_forall in H3. apply H3, liveModel_lt in Hin. lia. }
  split; [now apply NoDup_docModels_set |].
  rewrite Forall_forall. intros x Hx.
  apply docModels_set_elem in Hx as [->|Hx]; simpl.
  - exists (mkModel text false). split; [| reflexivity].
    simpl. apply list_lookup_middle. reflexivity.
  - rewrite Forall_forall in H3. eapply liveModel_app; [reflexivity |]. now apply H3.
Qed.

Lemma openFile_sessionOk h p f : preserves sessionOk (openFile h p f).
Proof.
  intros w [Hd Hs]. destruct (JsMap.has p (openFiles w)) eqn:Hhas.
  - rewrite openFile_open by exact Hhas. now apply switchTab_sessionOk.
  - destruct (fs w !! h_path h) as [text|] eqn:Hfs.
    + pose proof (docsOk_opened h p text w Hhas Hd) as Hd'.
      pose proof (switchTab_sessionOk p f _ Hd') as Hsw.
      destruct (openFile_new h p f w text Hhas Hfs) as (fd & Hget & _ & Heq).
      rewrite Heq. rewrite (switchTab_present _ _ _ _ Hget) in Hsw. exact Hsw.
    + rewrite openFile_unreadable by assumption.
      now apply (sessionOk_ext w).
Qed.

Lemma closeTab_sessionOk p : preserves sessionOk (closeTab p).
Proof.
  intros w [(H1 & H2 & H3) Hs].
  unfold closeTab, bind, gets, modify. cbn -[model_dispose].
  set (w1 := match JsMap.get p (openFiles w) with
             | Some fd => disposed (model fd) w
             | None => w
             end).
  assert (E1 : (match JsMap.get p (openFiles w) with
                | Some fd => model_dispose (model fd)
                | None => ret tt
                end w) = (Ok tt, w1)).
  { subst w1. destruct (JsMap.get p (openFiles w)); reflexivity. }
  rewrite E1. cbn -[disposed].
  assert (Hof : openFiles w1 = openFiles w /\ activeFilePath w1 = activeFilePath w).
  { subst w1. destruct (JsMap.get p (openFiles w)) as [fd|]; [| auto].
    split; apply disposed_frame. }
  destruct Hof as (Hof & Haf). rewrite Hof, Haf.
  set (w2 := set_openFiles (JsMap.delete p (openFiles w)) w1).
  assert (Hd2 : docsOk w2).
  { unfold docsOk. subst w2. simpl.
    split; [now apply NoDup_keys_delete |].
    split; [now apply NoDup_docModels_delete |].
    rewrite Forall_forall. intros x Hx.
    assert (Hlive : liveModel w x).
    { rewrite Forall_forall in H3. apply H3. eapply docModels_delete_elem. exact Hx. }
    subst w1. destruct (JsMap.get p (openFiles w)) as [fd|] eqn:Hget.
    - destruct Hlive as (m & Hm & Hdm). exists m. split; [| exact Hdm].
      simpl. rewrite disposed_models, list_lookup_alter_ne; [exact Hm |].
      intros Heq. subst x. now apply (closed_model_not_kept p fd (openFiles w)).
    - exact Hlive. }
  destruct (bool_decide_reflect (activeFilePath w = Some p)) as [Ha|Ha].
  - cbn -[disposed].
    destruct (JsMap.first_key (JsMap.delete p (openFiles w))) as [q|]; cbn -[disposed].
    + destruct (negb (q =? "")); cbn -[disposed].
      * unfold not_awaited, try_catch.
        pose proof (switchTab_sessionOk q true (set_activeFilePath None w2)) as Hsw.
        unfold world_of in Hsw.
        destruct (switchTab q true (set_activeFilePath None w2)) as [[[]|e] w3];
          simpl in *; apply Hsw; now apply (docsOk_ext w2).
      * split; [now apply docsOk_empty | now apply showsActive_inactive].
    + split; [now apply docsOk_empty | now apply showsActive_inactive].
  - cbn -[disposed]. split; [now apply (docsOk_ext w2) |].
    intros a fa Hact Hget. simpl in *. rewrite Haf in Hact.
    assert (Hap : a <> p) by congruence.
    rewrite get_delete_ne in Hget by congruence.
    pose proof (Hs a fa Hact Hget) as Hshow.
    subst w1. destruct (JsMap.get p (openFiles w)) as [fd|] eqn:Hgp; [| exact Hshow].
    unfold disposed, model_dispose, modify, world_of. simpl.
    destruct (decide (w_model (editor w) = Some (model fd))) as [Heq|Hneq]; [| exact Hshow].
    exfalso. rewrite Hshow in Heq. injection Heq as Heq.
    now apply (distinct_models a p fa fd (openFiles w)).
Qed.

Lemma getEditorState_sessionOk : preserves sessionOk getEditorState.
Proof.
  intros w [Hd Hs]. rewrite getEditorState_eq. simpl.
  split; [now apply docsOk_captured | now apply showsActive_captured].
Qed.

End LiveModels.

Section RestoreOk.
Import EditorJs.
Context (env : Env).

Lemma restoreFile_docsOk root sf : preserves docsOk (restoreFile env root sf).
Proof.
  intros w (H1 & H2 & H3).
  unfold restoreFile, try_catch, bind, on_fs, createModel, modify, world_of. simpl.
  destruct (getFileHandleFromPath env root (sf_path sf) true (fs w)) as [[h fs']|e];
    simpl.
  - unfold docsOk. simpl.
    split; [now apply NoDup_keys_set |].
    assert (Hfresh : length (models w) ∉ docModels (openFiles w)).
    { intros Hin. rewrite Forall_forall in H3. apply H3, liveModel_lt in Hin. lia. }
    split; [now apply NoDup_docModels_set |].
    rewrite Forall_forall. intros x Hx.
    apply docModels_set_elem in Hx as [->|Hx]; simpl.
    + exists (mkModel (sf_content sf) false). split; [| reflexivity].
      simpl. apply list_lookup_middle. reflexivity.
    + rewrite Forall_forall in H3. eapply liveModel_app; [reflexivity |]. now apply H3.
  - now apply (docsOk_ext w).
Qed.

Lemma restoreEditorState_sessionOk st root :
  preserves sessionOk (restoreEditorState env st root).
Proof.
  intros w [Hd Hs]. unfold restoreEditorState.
  destruct st as [st|]; [| split; assumption].
  destruct (es_openFiles st) as [files|]; [| split; assumption].
  pose proof (preserves_for_each docsOk files (restoreFile env root)
                (restoreFile_docsOk root) w Hd) as Hloop.
  destruct (restore_loop_frame env root files w) as (Hok & _).
  unfold bind, world_of, result in *.
  destruct (for_each files (restoreFile env root) w) as [[[]|e] w1]; simpl in *;
    [| discriminate].
  unfold gets. simpl.
  destruct (JsString.truthy (es_activeFile st)
            && JsMap.has (JsString.show (es_activeFile st)) (openFiles w1)).
  - now apply switchTab_sessionOk.
  - destruct (JsMap.first_key (openFiles w1)) as [q|] eqn:Hq.
    + now apply switchTab_sessionOk.
    + apply first_key_None in Hq. split.
      * now apply (docsOk_ext w1).
      * now apply showsActive_empty.
Qed.

Lemma restoreCheckpointState_sessionOk st root w :
  sessionOk (world_of (restoreCheckpointState env st root w)).
Proof.
  rewrite restoreCheckpointState_unfold.
  apply restoreEditorState_sessionOk.
  assert (Hof : openFiles (set_activeFilePath None
                             (discardedAll (JsMap.keys (openFiles w)) w)) = []).
  { simpl. rewrite discardedAll_openFiles. now apply delete_all_keys. }
  split; [now apply docsOk_empty | now apply showsActive_empty].
Qed.

Lemma run_op_sessionOk op : preserves sessionOk (run_op env op).
Proof.
  intros w Hw. destruct op as [h p f|p f|p| | |st root|st root]; simpl.
  - now apply openFile_sessionOk.
  - apply switchTab_sessionOk. apply Hw.
  - now apply closeTab_sessionOk.
  - apply clearEditor_sessionOk.
  - unfold bind. pose proof (getEditorState_sessionOk w Hw) as H.
    unfold world_of in *. destruct (getEditorState w) as [[a|e] w1]; exact H.
  - now apply restoreEditorState_sessionOk.
  - apply restoreCheckpointState_sessionOk.
Qed.

End RestoreOk.

(** A property of the session kept by every step of the tool executor. *)
Section ToolsKeep.
Import EditorJs ToolExecutor.
Context (P : World -> Prop).
Hypothesis P_sess : forall w w', sess w' = sess w -> P w -> P w'.
Hypothesis P_openFile : forall h p f, preserves P (openFile h p f).
Hypothesis P_closeTab : forall p, preserves P (closeTab p).
Hypothesis P_setValue : forall id text, preserves P (model_setValue id text).
Hypothesis P_select : forall sel w,
  P w ->
  P (set_editor (mkWidget (w_model (editor w)) (w_view (editor w))
                          (w_readOnly (editor w)) sel) w).
Hypothesis P_capture : forall w, P w -> P (captured w).

Lemma keeps_neutral f : (forall w, sess (f w) = sess w) -> preserves P (modify f).
Proof. intros H w Hw. apply (P_sess w); [apply H | exact Hw]. Qed.

Lemma keeps_same {A} (m : M A) :
  (forall w, sess (world_of (m w)) = sess w) -> preserves P m.
Proof. intros H w Hw. apply (P_sess w); [apply H | exact Hw]. Qed.

Lemma keeps_throw {A} e : preserves P (@throw A e).
Proof. intros w Hw. exact Hw. Qed.

Lemma keeps_gets {A} (f : World -> A) : preserves P (gets f).
Proof. intros w Hw. exact Hw. Qed.

Lemma keeps_pure {A} (f : World -> Exc A) : preserves P (fun w => (f w, w)).
Proof. intros w Hw. exact Hw. Qed.

Lemma keeps_log c fn info : preserves P (log c fn info).
Proof. apply keeps_neutral. reflexivity. Qed.

Lemma keeps_on_fs {A} (f : FS -> Exc (A * FS)) : preserves P (on_fs f).
Proof.
  apply keeps_same. intros w. unfold on_fs, world_of.
  destruct (f (fs w)) as [[a fs']|e]; reflexivity.
Qed.

Lemma keeps_on_db f : preserves P (on_db f).
Proof.
  apply keeps_same. intros w. unfold on_db, world_of.
  destruct (f (db w)) as [d|e]; reflexivity.
Qed.

Lemma keeps_handle_getFile h : preserves P (handle_getFile h).
Proof.
  apply keeps_same. intros w. unfold handle_getFile, world_of.
  destruct (fs w !! h_path h); reflexivity.
Qed.

Lemma keeps_when b m : preserves P m -> preserves P (when b m).
Proof. destruct b; [auto | intros _ w Hw; exact Hw]. Qed.

Lemma keeps_getEditorState : preserves P getEditorState.
Proof. intros w Hw. rewrite getEditorState_eq. now apply P_capture. Qed.

Ltac keeps_step :=
  first
    [ apply preserves_ret | apply keeps_throw | apply keeps_gets
    | apply keeps_log | apply keeps_on_fs | apply keeps_on_db | apply keeps_pure
    | apply keeps_handle_getFile
    | apply P_openFile | apply P_closeTab | apply P_setValue
    | apply keeps_getEditorState
    | apply keeps_neutral; intros ?; reflexivity
    | apply keeps_when
    | apply preserves_for_each; intros ?
    | apply preserves_bind; [| intros ?]
    | apply preserves_try_catch; [| intros ?]
    | match goal with
      | |- preserves _ (match ?x with _ => _ end) => destruct x
      | |- preserves _ (if ?b then _ else _) => destruct b
      end ].

Ltac keeps_auto := repeat keeps_step.

Lemma keeps_executeEdits sel text : preserves P (executeEdits sel text).
Proof.
  unfold executeEdits. keeps_auto.
  intros w Hw. now apply P_select.
Qed.

Section WithEnv.
Context (env : Env).

Lemma keeps_dispatch name params root : preserves P (dispatch env name params root).
Proof.
  unfold dispatch, path_arg, rename_args, required, write_arg, getFile,
    Editor_openFile, Editor_closeTab, Editor_getOpenFiles, editor_getSelection,
    getValueInRange, UI_refreshFileTree, do_fetch, chatInput_focus,
    getActiveFile, getOpenFiles, model_getValue, handle_write.
  repeat first [apply keeps_executeEdits | keeps_step].
Qed.

Lemma keeps_checkpointInterception name : preserves P (checkpointInterception env name).
Proof. unfold checkpointInterception, console_error. keeps_auto. Qed.

Lemma keeps_automaticErrorCheck params r : preserves P (automaticErrorCheck env params r).
Proof.
  unfold automaticErrorCheck, getModelMarkers, getActiveFilePath. keeps_auto.
Qed.

Lemma keeps_executeTool toolCall root : preserves P (executeTool env toolCall root).
Proof.
  unfold executeTool.
  destruct (absent root && includes rootRequiredTools (call_name toolCall)).
  - apply preserves_ret.
  - apply preserves_bind; [apply keeps_checkpointInterception | intros _].
    apply keeps_dispatch.
Qed.

Lemma keeps_execute toolCall root : preserves P (execute env toolCall root).
Proof.
  unfold execute, console_error.
  apply preserves_bind; [apply keeps_log | intros _].
  apply preserves_bind.
  { apply preserves_try_catch.
    - apply preserves_bind; [apply keeps_executeTool | intros ?; apply preserves_ret].
    - intros e. keeps_auto. }
  intros outcome.
  apply preserves_bind.
  { destruct (fst outcome && includes errorCheckedTools (call_name toolCall));
      [apply keeps_automaticErrorCheck | apply preserves_ret]. }
  intros res. keeps_auto.
Qed.

Lemma keeps_inspection name params root :
  includes inspectionTools name = true ->
  preserves P (execute env (mkToolCall name params) root).
Proof.
  intros H. apply includes_cases in H. unfold inspectionTools in H.
  repeat (apply elem_of_cons in H as [->|H]); [.. | inversion H];
  (unfold execute, executeTool, checkpointInterception, console_error;
   cbn [call_name call_args];
   cbv [includes existsb rootRequiredTools checkpointTools errorCheckedTools];
   decide_tests; cbn [orb andb];
   unfold when, dispatch; decide_tests;
   unfold path_arg, required, getFile, editor_getSelection, getValueInRange,
     UI_refreshFileTree, do_fetch, getActiveFile, model_getValue,
     automaticErrorCheck, getModelMarkers, getActiveFilePath;
   keeps_auto).
Qed.

Lemma keeps_folder_tools name params root :
  includes folderTools name = true ->
  preserves P (execute env (mkToolCall name params) root).
Proof.
  intros H. apply includes_cases in H. unfold folderTools in H.
  repeat (apply elem_of_cons in H as [->|H]); [.. | inversion H];
  (unfold execute, executeTool, checkpointInterception, console_error;
   cbn [call_name call_args];
   cbv [includes existsb rootRequiredTools checkpointTools errorCheckedTools];
   decide_tests; cbn [orb andb];
   unfold when, dispatch; decide_tests;
   unfold path_arg, rename_args, required, UI_refreshFileTree;
   repeat first [apply keeps_automaticErrorCheck | keeps_step]).
Qed.

Lemma keeps_saveActiveFile : preserves P saveActiveFile.
Proof.
  unfold saveActiveFile, saveFile, console_error, model_getValue, handle_write.
  keeps_auto.
Qed.

Lemma keeps_saveAllOpenFiles : preserves P saveAllOpenFiles.
Proof.
  unfold saveAllOpenFiles, saveFile, console_error, model_getValue, handle_write.
  keeps_auto.
Qed.

End WithEnv.
End ToolsKeep.

(** ** Invariants of the session under tool calls *)

Section SessionInvariants.
Import EditorJs ToolExecutor.
Context (env : Env).

Lemma sessionOk_sess w w' : sess w' = sess w -> sessionOk w -> sessionOk w'.
Proof.
  unfold sess. intros [= He Ho Ha Hm]. apply sessionOk_ext; auto. now rewrite He.
Qed.

Lemma model_setValue_sessionOk id text : preserves sessionOk (model_setValue id text).
Proof.
  intros w [(H1 & H2 & H3) Hs]. split.
  - split; [exact H1 |]. split; [exact H2 |].
    eapply Forall_impl; [exact H3 |]. intros x. apply liveModel_setValue.
  - exact Hs.
Qed.

Lemma select_sessionOk sel w :
  sessionOk w ->
  sessionOk (set_editor (mkWidget (w_model (editor w)) (w_view (editor w))
                                  (w_readOnly (editor w)) sel) w).
Proof. apply sessionOk_ext; reflexivity. Qed.

Lemma captured_sessionOk w : sessionOk w -> sessionOk (captured w).
Proof.
  intros [Hd Hs]. split; [now apply docsOk_captured | now apply showsActive_captured].
Qed.

Lemma run_action_sessionOk a : preserves sessionOk (run_action env a).
Proof.
  destruct a as [op| | |toolCall root]; simpl.
  - apply run_op_sessionOk.
  - apply (keeps_saveActiveFile sessionOk sessionOk_sess).
  - apply (keeps_saveAllOpenFiles sessionOk sessionOk_sess).
  - apply preserves_bind; [| intros ?; apply preserves_ret].
    apply (keeps_execute sessionOk sessionOk_sess openFile_sessionOk
             closeTab_sessionOk model_setValue_sessionOk select_sessionOk
             captured_sessionOk).
Qed.

Lemma reachable_sessionOk w : reachableBy env anyAction w -> sessionOk w.
Proof.
  induction 1 as [files|w a Hr IH _].
  - split; [now apply docsOk_empty | now apply showsActive_inactive].
  - now apply run_action_sessionOk.
Qed.

(** X8. In every world reached from the start by the exported functions
    of editor.js and by tool calls through [execute], in any order and
    with any arguments, no path is open twice, no two open documents
    share a model, and the model of every open document is in the heap
    and not disposed. *)
Theorem open_documents_have_live_buffers (w : World) :
  reachableBy env anyAction w -> docsOk w.
Proof. intros H. now apply reachable_sessionOk. Qed.

(** X9. In every world reached from the start by the exported functions
    of editor.js and by tool calls through [execute], when the active
    path is open the widget shows the model of that document. *)
Theorem editor_shows_active_document (w : World) :
  reachableBy env anyAction w -> showsActive w.
Proof. intros H. now apply reachable_sessionOk. Qed.

Lemma activeIsOpen_sess w w' : sess w' = sess w -> activeIsOpen w -> activeIsOpen w'.
Proof.
  unfold sess, activeIsOpen. intros [= He Ho Ha Hm]. now rewrite Ho, Ha.
Qed.

Lemma captured_activeIsOpen w : activeIsOpen w -> activeIsOpen (captured w).
Proof.
  intros Hw. unfold activeIsOpen in *. destruct (captured_frame w) as (_ & -> & _).
  destruct (activeFilePath w); [| exact I]. now rewrite captured_has.
Qed.

Lemma run_action_activeIsOpen a w :
  switchesToOpen a w -> activeIsOpen w -> activeIsOpen (world_of (run_action env a w)).
Proof.
  intros Ha Hw. destruct a as [op| | |toolCall root]; simpl in *.
  - now apply run_op_activeIsOpen.
  - now apply (keeps_saveActiveFile activeIsOpen activeIsOpen_sess).
  - now apply (keeps_saveAllOpenFiles activeIsOpen activeIsOpen_sess).
  - revert w Ha Hw. intros w _.
    apply preserves_bind; [| intros ?; apply preserves_ret].
    apply (keeps_execute activeIsOpen activeIsOpen_sess openFile_activeIsOpen
             closeTab_activeIsOpen).
    + intros id text w0 H0. exact H0.
    + intros sel w0 H0. exact H0.
    + apply captured_activeIsOpen.
Qed.

(** X10. The invariant that the active path is [null] or an open path
    is kept by every tool call through [execute] and by both save
    functions, besides the session operations, as long as [switchTab]
    itself is only asked for open paths. *)
Theorem tool_calls_keep_active_path_open (w : World) :
  reachableBy env switchesToOpen w -> activeIsOpen w.
Proof.
  induction 1 as [files|w a Hr IH Ha].
  - exact I.
  - now apply run_action_activeIsOpen.
Qed.

End SessionInvariants.

(** ** Snapshot and restore *)

Section RoundTrip.
Import EditorJs.
Context (env : Env).

Lemma restoreFile_acquired root sf w h fs' :
  getFileHandleFromPath env root (sf_path sf) true (fs w) = Ok (h, fs') ->
  openFiles (world_of (restoreFile env root sf w))
  = JsMap.set (sf_path sf)
      (mkFileData h (h_name h) (length (models w)) (sf_viewState sf)) (openFiles w).
Proof.
  intros H. unfold restoreFile, try_catch, bind, on_fs, createModel, modify, world_of.
  rewrite H. reflexivity.
Qed.

Lemma restore_loop_keys root l w :
  (forall sf fs0, sf ∈ l ->
     exists h fs', getFileHandleFromPath env root (sf_path sf) true fs0 = Ok (h, fs')) ->
  NoDup (map sf_path l) ->
  (forall sf, sf ∈ l -> JsMap.has (sf_path sf) (openFiles w) = false) ->
  JsMap.keys (openFiles (world_of (for_each l (restoreFile env root) w)))
  = JsMap.keys (openFiles w) ++ map sf_path l.
Proof.
  revert w. induction l as [|sf l IH]; intros w Hacq Hnd Hnew; simpl.
  - now rewrite app_nil_r.
  - destruct (restoreFile_frame env root sf w) as (Hok & _).
    destruct (Hacq sf (fs w)) as (h & fs' & Hh); [left |].
    pose proof (restoreFile_acquired root sf w h fs' Hh) as Hof.
    unfold bind, result, world_of in *.
    destruct (restoreFile env root sf w) as [[[]|e] w1]; simpl in *; [| discriminate].
    apply NoDup_cons in Hnd as [Hnotin Hnd].
    rewrite IH.
    + rewrite Hof, keys_set_absent by (apply Hnew; left).
      now rewrite <- app_assoc.
    + intros sf0 fs0 H0. apply Hacq. now right.
    + exact Hnd.
    + intros sf0 H0. rewrite Hof, has_set, (Hnew sf0) by now right.
      rewrite orb_false_r. apply String.eqb_neq. intros Heq.
      apply Hnotin. rewrite <- Heq. apply list_elem_of_fmap. now exists sf0.
Qed.

Lemma snapshot_paths w :
  map sf_path (default [] (es_openFiles (snapshotOf w))) = JsMap.keys (openFiles w).
Proof.
  unfold snapshotOf, JsMap.keys. simpl. rewrite map_map. reflexivity.
Qed.

Lemma get_of_elem {V} (k : string) (v : V) (m : JsMap.t V) :
  NoDup (JsMap.keys m) -> (k, v) ∈ m -> JsMap.get k m = Some v.
Proof.
  induction m as [|[k0 v0] m IH]; simpl; intros Hnd Hin.
  - inversion Hin.
  - apply NoDup_cons in Hnd as [Hk Hnd].
    apply elem_of_cons in Hin as [[= -> ->] | Hin].
    + now rewrite String.eqb_refl.
    + destruct (String.eqb_spec k k0) as [-> | Hne]; [| now apply IH].
      exfalso. apply Hk. apply list_elem_of_fmap. now exists (k0, v).
Qed.

Lemma snapshot_entry w sf :
  sf ∈ default [] (es_openFiles (snapshotOf w)) ->
  NoDup (JsMap.keys (openFiles w)) ->
  exists fd, JsMap.get (sf_path sf) (openFiles w) = Some fd
             /\ sf_content sf = modelText (model fd) w
             /\ sf_viewState sf = viewState fd.
Proof.
  unfold snapshotOf. simpl. intros Hin Hnd.
  apply list_elem_of_fmap in Hin as ([k fd] & -> & Hin). simpl.
  exists fd. split; [now apply get_of_elem | split; reflexivity].
Qed.

(** X11. A snapshot taken by [getEditorState] and restored later by
    [restoreCheckpointState], in whatever world, brings the session back
    when the handles can be acquired again: the same paths in the same tab
    order, each with a fresh live buffer holding the text its buffer had
    when the snapshot was taken, the same active path (shown by the
    widget), the view state of the active document as the widget had it
    and the view states of the others as they were stored. *)
Theorem checkpoint_round_trip (root : option Root) (w later : World)
    (st : EditorState) (a : string) :
  result (getEditorState w) = Ok st ->
  NoDup (JsMap.keys (openFiles w)) ->
  activeFilePath w = Some a -> a <> "" -> JsMap.has a (openFiles w) = true ->
  (forall p fs0, p ∈ JsMap.keys (openFiles w) ->
     exists h fs', getFileHandleFromPath env root p true fs0 = Ok (h, fs')) ->
  let w' := world_of (restoreCheckpointState env (Some st) root later) in
  result (restoreCheckpointState env (Some st) root later) = Ok tt
  /\ JsMap.keys (openFiles w') = JsMap.keys (openFiles w)
  /\ activeFilePath w' = Some a
  /\ (forall p fd, JsMap.get p (openFiles w) = Some fd ->
        exists fd', JsMap.get p (openFiles w') = Some fd'
                    /\ models w' !! model fd'
                       = Some (mkModel (modelText (model fd) w) false)
                    /\ viewState fd' = (if bool_decide (p = a) then savedView w
                                        else viewState fd))
  /\ (forall fd', JsMap.get a (openFiles w') = Some fd' ->
        w_model (editor w') = Some (model fd')).
Proof.
  intros Hst Hnd Ha Hne Hopen Hacq w'. subst w'.
  rewrite getEditorState_eq in Hst. injection Hst as <-.
  set (st := snapshotOf (captured w)).
  set (files := default [] (es_openFiles st)).
  assert (Hfiles : es_openFiles st = Some files) by reflexivity.
  assert (Hpaths : map sf_path files = JsMap.keys (openFiles w)).
  { subst files st. now rewrite snapshot_paths, captured_keys. }
  assert (HndC : NoDup (JsMap.keys (openFiles (captured w)))) by now rewrite captured_keys.
  pose proof (restoreCheckpointState_sessionOk env (Some st) root later) as [_ Hshow].
  rewrite restoreCheckpointState_unfold in Hshow |- *.
  set (w0 := set_activeFilePath None (discardedAll (JsMap.keys (openFiles later)) later)) in *.
  assert (Hof0 : openFiles w0 = []).
  { subst w0. simpl. rewrite discardedAll_openFiles. now apply delete_all_keys. }
  assert (Hact0 : activeFilePath w0 = None) by reflexivity.
  destruct (restoreEditorState_final env st files root w0 Hfiles Hact0)
    as (Hok & Hof & Hmo & Hact & _).
  assert (Hkeys : JsMap.keys (openFiles (world_of (for_each files (restoreFile env root) w0)))
                  = JsMap.keys (openFiles w)).
  { rewrite restore_loop_keys.
    - now rewrite Hof0, Hpaths.
    - intros sf fs0 Hsf. apply Hacq. rewrite <- Hpaths.
      apply list_elem_of_fmap. now exists sf.
    - now rewrite Hpaths.
    - intros sf _. now rewrite Hof0. }
  assert (Hfrom : fromSnapshot files (world_of (for_each files (restoreFile env root) w0))).
  { apply (restore_loop_fromSnapshot env files root files); [auto |].
    intros p0 fd0. rewrite Hof0. discriminate. }
  set (w2 := world_of (for_each files (restoreFile env root) w0)) in *.
  assert (Hactive : activeFilePath (world_of (restoreEditorState env (Some st) root w0))
                    = Some a).
  { rewrite Hact. subst st. simpl.
    destruct (captured_frame w) as (_ & -> & _). rewrite Ha. simpl.
    destruct (String.eqb_spec a ""); [contradiction |]. simpl.
    assert (Hin : JsMap.has a (openFiles w2) = true).
    { apply has_elem_of_keys. rewrite Hkeys. now apply has_elem_of_keys. }
    now rewrite Hin. }
  split; [exact Hok |]. split; [now rewrite Hof |]. split; [exact Hactive |].
  split; [| intros fd' Hfd'; now apply (Hshow a fd')].
  rewrite Hof, Hmo. intros p fd Hget.
    assert (Hin : JsMap.has p (openFiles w2) = true).
    { apply has_elem_of_keys. rewrite Hkeys. apply has_elem_of_keys, has_true_get. eauto. }
    apply has_true_get in Hin as [fd' Hfd']. exists fd'. split; [exact Hfd' |].
    destruct (Hfrom p fd' Hfd') as (sf & Hsf & Hp & Hvs & Hm).
    destruct (snapshot_entry (captured w) sf Hsf HndC) as (fdc & Hgc & Hc & Hv).
    rewrite Hp in Hgc. rewrite Hm, Hvs, Hv, Hc.
    destruct (captured_frame w) as (_ & _ & Hmods & _).
    unfold modelText. rewrite Hmods.
    case_bool_decide as Hpa.
    + rewrite Hpa in Hgc, Hget. rewrite (captured_get_active a fd w Ha Hne Hget) in Hgc.
      injection Hgc as <-. simpl. split; reflexivity.
    + rewrite captured_get_other in Hgc by congruence.
      rewrite Hget in Hgc. injection Hgc as <-. split; reflexivity.
Qed.

End RoundTrip.

(** ** Saving *)

Section Saving.
Import EditorJs.







End Saving.

(** ** Tools that write a file and show it *)

Section Sync.
Import EditorJs ToolExecutor.
Context (env : Env).



Lemma executeTool_checkpointed name args root w :
  includes checkpointTools name = true ->
  exists wI,
    executeTool env (mkToolCall name args) (Some root) w
    = dispatch env name args (Some root) wI
    /\ core wI = core (captured w).
Proof.
  intros Hc. unfold executeTool. cbn [call_name call_args absent andb].
  destruct (checkpointInterception_spec env name w) as (wI & HI & Hcore & _).
  rewrite Hc in Hcore. exists wI. split; [| exact Hcore].
  unfold bind. now rewrite HI.
Qed.





End Sync.

Section Closing.
Import EditorJs ToolExecutor.
Context (env : Env).

(** [closeTab] returns, whatever tab it is asked to close, and only the
    session changes. *)
Lemma closeTab_summary p w :
  let w' := world_of (closeTab p w) in
  result (closeTab p w) = Ok tt
  /\ fs w' = fs w /\ db w' = db w /\ trace w' = trace w
  /\ (forall q, JsMap.has q (openFiles w') = true ->
                JsMap.has q (openFiles w) = true /\ q <> p).
Proof.
  unfold closeTab, bind, gets, modify. simpl.
  set (w1 := (match JsMap.get p (openFiles w) with
              | Some fd => model_dispose (model fd)
              | None => ret tt
              end w)).
  assert (H1 : exists w1', w1 = (Ok tt, w1') /\ openFiles w1' = openFiles w
                           /\ fs w1' = fs w /\ db w1' = db w /\ trace w1' = trace w).
  { subst w1. destruct (JsMap.get p (openFiles w)) as [fd|].
    - exists (disposed (model fd) w). split; [reflexivity |].
      destruct (disposed_frame (model fd) w) as (? & ? & ? & ? & ? & ? & ?). tauto.
    - exists w. repeat split. }
  destruct H1 as (w1' & -> & Hof & Hfs & Hdb & Htr). simpl. rewrite Hof.
  assert (Hsub : forall q, JsMap.has q (JsMap.delete p (openFiles w)) = true ->
                           JsMap.has q (openFiles w) = true /\ q <> p).
  { intros q Hq. destruct (String.eqb_spec p q) as [-> | Hne].
    - apply has_true_get in Hq as [v Hv]. rewrite get_delete_eq in Hv. discriminate.
    - split; [| congruence]. apply has_true_get in Hq as [v Hv].
      rewrite get_delete_ne in Hv by assumption. apply has_true_get. eauto. }
  destruct (bool_decide _); simpl; [| tauto].
  destruct (JsMap.first_key _) as [q0|]; simpl.
  2:{ conjuncts; auto. discriminate. }
  destruct (negb (q0 =? "")); simpl.
  2:{ conjuncts; auto. discriminate. }
  unfold not_awaited, try_catch.
  match goal with |- context [switchTab q0 true ?w0] =>
    pose proof (switchTab_frame q0 true w0) as (_ & Hfs' & Hdb' & Htr' & Hk & _);
    destruct (switchTab q0 true w0) as [[[]|e] w3] eqn:Esw end; simpl in *;
  (conjuncts; [reflexivity | congruence | congruence | congruence |];
   intros q Hq; apply Hsub; apply has_elem_of_keys; apply has_elem_of_keys in Hq;
   now rewrite Hk in Hq).
Qed.

Lemma core_fs wI w : core wI = core (captured w) -> fs wI = fs w.
Proof.
  unfold core. intros [= _ _ _ _ _ _ ->].
  now destruct (captured_frame w) as (_ & _ & _ & _ & _ & -> & _).
Qed.

Lemma core_has wI w p :
  core wI = core (captured w) -> JsMap.has p (openFiles wI) = JsMap.has p (openFiles w).
Proof.
  unfold core. intros [= _ -> _ _ _ _ _]. apply captured_has.
Qed.

(** X15. When [delete_file] has removed the entry, the path has no tab,
    whether or not the refresh of the file tree then succeeds, and no tab
    has appeared; the call returns its message when the refresh succeeds
    and throws the refresh error otherwise. *)
Theorem delete_file_closes_tab (root : Root) (p : string) (args : Args) (w : World)
    (d : DirHandle) (n : string) (fs1 fs2 : FS) :
  filename args = Some p ->
  getParentDirectoryHandle env (Some root) p (fs w) = Ok (d, n, fs1) ->
  removeEntry env d n false fs1 = Ok (tt, fs2) ->
  let r := executeTool env (mkToolCall "delete_file" args) (Some root) w in
  JsMap.has p (openFiles (world_of r)) = false
  /\ (forall q, JsMap.has q (openFiles (world_of r)) = true ->
                JsMap.has q (openFiles w) = true)
  /\ match refreshFileTree env (Some root) fs2 with
     | Ok (_, fs3) =>
         result r = Ok [("message", "File '" +:+ p +:+ "' deleted successfully.")]
         /\ fs (world_of r) = fs3
     | Throw e => result r = Throw e /\ fs (world_of r) = fs2
     end.
Proof.
  intros Hp Hpar Hrem r. subst r.
  destruct (executeTool_checkpointed env "delete_file" args root w) as (wI & -> & Hcore);
    [reflexivity |].
  pose proof (core_fs wI w Hcore) as HfsI.
  pose proof (core_has wI w p Hcore) as HhasI.
  assert (Hall : forall q, JsMap.has q (openFiles wI) = JsMap.has q (openFiles w)).
  { intros q. now apply core_has. }
  clear Hcore.
  replace (dispatch env "delete_file" args (Some root)) with
    (p0 <- path_arg "getParentDirectoryHandle" (filename args) ;;
     parent <- on_fs (fun files =>
                 match getParentDirectoryHandle env (Some root) p0 files with
                 | Ok (d, n, files') => Ok ((d, n), files')
                 | Throw e => Throw e
                 end) ;;
     log FileSystem "removeEntry" [("name", snd parent)] ;;;
     on_fs (removeEntry env (fst parent) (snd parent) false) ;;;
     files <- Editor_getOpenFiles ;;
     when (JsMap.has p0 files) (Editor_closeTab p0) ;;;
     UI_refreshFileTree env (Some root) ;;;
     ret [("message", "File '" +:+ p0 +:+ "' deleted successfully.")]) by reflexivity.
  rewrite Hp.
  unfold path_arg, required, Editor_getOpenFiles, getOpenFiles, Editor_closeTab,
    UI_refreshFileTree, when.
  unfold bind, log, modify, gets, on_fs, ret. simpl. rewrite HfsI, Hpar. simpl.
  rewrite Hrem. simpl.
  destruct (JsMap.has p (openFiles wI)) eqn:Hhas; simpl.
  - match goal with |- context [closeTab p ?w2] =>
      destruct (closeTab_summary p w2) as (Hok & Hfs & _ & _ & Hsub);
      unfold result, world_of in Hok, Hfs, Hsub;
      destruct (closeTab p w2) as [[[]|e] w3] end; simpl in *; [| discriminate].
    rewrite Hfs.
    assert (Hgone : JsMap.has p (openFiles w3) = false).
    { destruct (JsMap.has p (openFiles w3)) eqn:E; [| reflexivity].
      destruct (Hsub p E) as [_ Hne]. congruence. }
    assert (Hkeep : forall q, JsMap.has q (openFiles w3) = true ->
                              JsMap.has q (openFiles w) = true).
    { intros q Hq. rewrite <- Hall. now apply Hsub. }
    destruct (refreshFileTree env (Some root) fs2) as [[[] fs3]|e]; simpl; auto.
  - rewrite Hall in Hhas.
    destruct (refreshFileTree env (Some root) fs2) as [[[] fs3]|e]; simpl;
      (conjuncts; auto; [now rewrite Hall | intros q; now rewrite Hall]).
Qed.


End Closing.

Section Creating.
Import EditorJs ToolExecutor.
Context (env : Env).



(** X18. [get_open_file_content] needs no project root and returns the
    name and the whole buffer text of the active document (the buffer, not
    the file on disk, and without the cap of [read_file]); nothing but the
    trace changes. *)
Theorem get_open_file_content_reads_buffer (root : option Root) (args : Args)
    (p : string) (fd : FileData) (w : World) :
  activeFilePath w = Some p -> p <> "" ->
  JsMap.get p (openFiles w) = Some fd ->
  executeTool env (mkToolCall "get_open_file_content" args) root w
  = (Ok [("filename", name fd); ("content", modelText (model fd) w)],
     set_trace (trace w ++ [Call Editor "getActiveFile" []]) w).
Proof.
  intros Ha Hne Hget. unfold executeTool. cbn [call_name call_args].
  replace (includes rootRequiredTools "get_open_file_content") with false by reflexivity.
  rewrite andb_false_r. unfold checkpointInterception.
  replace (includes checkpointTools "get_open_file_content") with false by reflexivity.
  replace (dispatch env "get_open_file_content" args root) with
    (log Editor "getActiveFile" [] ;;;
     activeFile <- getActiveFile ;;
     match activeFile with
     | None => throw "No file is currently open in the editor."
     | Some fd =>
         text <- model_getValue (model fd) ;;
         ret [("filename", name fd); ("content", text)]
     end) by reflexivity.
  unfold when, getActiveFile, model_getValue, bind, log, modify, gets, ret. simpl.
  rewrite Ha. simpl. destruct (String.eqb_spec p ""); [contradiction |]. simpl.
  now rewrite Hget.
Qed.

End Creating.

(** ** The execution boundary, for every call *)

Section ExecuteFacts.
Import EditorJs ToolExecutor.
Context (env : Env).




End ExecuteFacts.

Section Inspection.
Import EditorJs ToolExecutor.
Context (env : Env).

(** X21. A call through [execute] of a tool that only looks (project
    structure, searches, URL and terminal requests, index build and query,
    file history, formatting request, code analysis, reading the open file
    or the selection) leaves the widget, the open documents, the active
    path and every buffer as they were, whether it succeeds or fails. *)
Theorem inspection_tools_leave_session (name : string) (params : Args)
    (root : option Root) (w : World) :
  includes inspectionTools name = true ->
  let w' := world_of (execute env (mkToolCall name params) root w) in
  editor w' = editor w /\ openFiles w' = openFiles w
  /\ activeFilePath w' = activeFilePath w /\ models w' = models w.
Proof.
  intros H w'. subst w'.
  assert (E : sess (world_of (execute env (mkToolCall name params) root w)) = sess w).
  { apply (keeps_inspection (fun w0 => sess w0 = sess w)); [| exact H | reflexivity].
    intros w1 w2 H12 H1. now rewrite H12. }
  unfold sess in E. injection E as -> -> -> ->. repeat split.
Qed.

(** X22. [create_folder], [delete_folder] and [rename_folder], called
    through [execute], never open, close or move a tab: the open paths
    and their order, the model of each document, every buffer, the active
    path and the widget are as before, whether the call succeeds or
    fails. In particular the tabs of files inside a deleted or renamed
    folder stay open under their old paths. *)
Theorem folder_tools_keep_tabs (name : string) (params : Args)
    (root : option Root) (w : World) :
  includes folderTools name = true ->
  let w' := world_of (execute env (mkToolCall name params) root w) in
  JsMap.keys (openFiles w') = JsMap.keys (openFiles w)
  /\ docModels (openFiles w') = docModels (openFiles w)
  /\ models w' = models w
  /\ activeFilePath w' = activeFilePath w
  /\ editor w' = editor w.
Proof.
  intros H w'. subst w'.
  apply (keeps_folder_tools
           (fun w0 => JsMap.keys (openFiles w0) = JsMap.keys (openFiles w)
                      /\ docModels (openFiles w0) = docModels (openFiles w)
                      /\ models w0 = models w
                      /\ activeFilePath w0 = activeFilePath w
                      /\ editor w0 = editor w)); [| | exact H | repeat split].
  - intros w1 w2 H12 H1. unfold sess in H12. injection H12 as -> -> -> ->. exact H1.
  - intros w1 (Hk & Hd & Hm & Ha & He).
    destruct (captured_frame w1) as (-> & -> & -> & _).
    now rewrite captured_keys, captured_docModels.
Qed.

End Inspection.

(* ================================================================== *)
(** * The properties at concrete inputs *)
(* ================================================================== *)

Section Examples.

Import EditorJs ToolExecutor.

(** ** read_file *)




(** ** closeTab *)

(** C3 as stated fails: with the input focus in the chat box, closing the
    active tab [a.js] while [b.js] remains activates [b.js] and moves the
    input focus to the editor. *)
Lemma close_active_tab_takes_focus :
  openFiles twoTabs = [("a.js", tabA); ("b.js", tabB)]
  /\ activeFilePath twoTabs = Some "a.js"
  /\ focus twoTabs = FocusChatInput
  /\ activeFilePath (world_of (closeTab "a.js" twoTabs)) = Some "b.js"
  /\ focus (world_of (closeTab "a.js" twoTabs)) = FocusEditor
  /\ focus (world_of (closeTab "a.js" twoTabs)) <> focus twoTabs.
Proof. vm_compute. repeat split. discriminate. Qed.

Lemma close_active_tab_witness :
  activeFilePath twoTabs = Some "a.js"
  /\ JsMap.get "a.js" (openFiles twoTabs) = Some tabA
  /\ models twoTabs !! model tabA = Some (mkModel "let a;" false)
  /\ JsMap.delete "a.js" (openFiles twoTabs) = [("b.js", tabB)]
  /\ "b.js" <> ""
  /\ JsMap.has "a.js" (openFiles (world_of (closeTab "a.js" twoTabs))) = false
  /\ activeFilePath (world_of (closeTab "a.js" twoTabs)) = Some "b.js"
  /\ focus (world_of (closeTab "a.js" twoTabs)) = FocusEditor.
Proof.
  assert (H1 : activeFilePath twoTabs = Some "a.js") by (vm_compute; reflexivity).
  assert (H2 : JsMap.get "a.js" (openFiles twoTabs) = Some tabA)
    by (vm_compute; reflexivity).
  assert (H3 : models twoTabs !! model tabA = Some (mkModel "let a;" false))
    by (vm_compute; reflexivity).
  assert (H4 : JsMap.delete "a.js" (openFiles twoTabs) = [("b.js", tabB)])
    by (vm_compute; reflexivity).
  assert (H5 : "b.js" <> "") by discriminate.
  pose proof (close_active_tab twoTabs "a.js" tabA (mkModel "let a;" false) H1 H2 H3)
    as (_ & Hgone & Hnext & _).
  destruct (Hnext "b.js" tabB [] H4 H5) as (_ & _ & Hact & _ & _ & Hfocus).
  repeat split; assumption.
Defined.

(** ** The checkpoint interception *)



(** ** restoreCheckpointState *)



(** ** Precondition errors *)



(** ** The invariant of the session *)

(** C8 as stated fails: [switchTab] asked for a path that is not open
    sets [activeFilePath] to it before it throws. *)
Lemma switchTab_to_closed_path_breaks_invariant :
  let w := run_ops SimpleEnv.env [OpSwitch "ghost.js" true] (initial ∅) in
  activeFilePath w = Some "ghost.js"
  /\ openFiles w = []
  /\ ~ activeIsOpen w.
Proof.
  vm_compute. split; [reflexivity |]. split; [reflexivity |]. discriminate.
Qed.

Lemma active_path_is_open_witness :
  let w := world_of (run_op SimpleEnv.env
                       (OpOpen (mkHandle "a.js" "a.js") "a.js" true)
                       (initial twoFiles)) in
  reachable SimpleEnv.env w /\ activeIsOpen w /\ activeFilePath w = Some "a.js".
Proof.
  intros w.
  assert (H : reachable SimpleEnv.env w).
  { apply reachable_step; [apply reachable_initial | exact I]. }
  split; [exact H |].
  split; [exact (active_path_is_open SimpleEnv.env w H) |].
  vm_compute. reflexivity.
Defined.

(** ** openFile *)

Lemma open_is_idempotent_witness :
  let w := openAll [(mkHandle "a.js" "a.js", "a.js", false)] (initial twoFiles) in
  JsMap.has "a.js" (openFiles w) = true
  /\ NoDup (JsMap.keys (openFiles w))
  /\ openFile (mkHandle "a.js" "a.js") "a.js" true w = switchTab "a.js" true w
  /\ models (world_of (openFile (mkHandle "a.js" "a.js") "a.js" true w)) = models w.
Proof.
  intros w.
  assert (H1 : JsMap.has "a.js" (openFiles w) = true) by (vm_compute; reflexivity).
  pose proof (open_is_idempotent twoFiles [(mkHandle "a.js" "a.js", "a.js", false)]
                (mkHandle "a.js" "a.js") "a.js" true) as (Hnd & Hopen).
  destruct (Hopen H1) as (Heq & Hmodels & _).
  split; [exact H1 |]. split; [exact Hnd |]. split; [exact Heq | exact Hmodels].
Defined.

(** ** The execution boundary *)


End Examples.

(* ================================================================== *)
(** * More worked examples *)
(* ================================================================== *)

Section MoreExamples.
Import EditorJs ToolExecutor.

Lemma NoDup_pair {A} (x y : A) : x <> y -> NoDup [x; y].
Proof.
  intros H. apply NoDup_cons. split; [| apply NoDup_singleton].
  intros Hin. apply list_elem_of_singleton in Hin. contradiction.
Qed.

Lemma twoTabs_docsOk : docsOk twoTabs.
Proof.
  assert (E : openFiles twoTabs = [("a.js", tabA); ("b.js", tabB)])
    by (vm_compute; reflexivity).
  unfold docsOk. rewrite E. split; [| split].
  - apply NoDup_pair. discriminate.
  - apply NoDup_pair. discriminate.
  - repeat constructor; eexists; split; vm_compute; reflexivity.
Qed.

Lemma simple_acquires (root : Root) (p : string) (fs0 : FS) :
  exists h fs', getFileHandleFromPath SimpleEnv.env (Some root) p true fs0 = Ok (h, fs').
Proof.
  simpl. unfold SimpleEnv.getFileHandleFromPath. destruct (fs0 !! p); eauto.
Qed.

Lemma insert_at_top_prepends_witness :
  (0 <= 1)%Z
  /\ insertedContent twoLines (Some 0%Z) (Some "X") = "X" +:+ "\n" +:+ twoLines.
Proof.
  assert (H : (0 <= 1)%Z) by lia.
  split; [exact H | exact (insert_at_top_prepends twoLines 0 (Some "X") H)].
Defined.

Lemma insert_past_end_appends_witness :
  (Z.of_nat (length (JsString.split "\n" twoLines)) < 3)%Z
  /\ insertedContent twoLines (Some 3%Z) (Some "X") = twoLines +:+ "\n" +:+ "X".
Proof.
  assert (H : (Z.of_nat (length (JsString.split "\n" twoLines)) < 3)%Z)
    by (vm_compute; reflexivity).
  split; [exact H | exact (insert_past_end_appends twoLines 3 (Some "X") H)].
Defined.

Lemma insert_never_between_lines_witness :
  occurs "\n" twoLines = false
  /\ insertedContent twoLines (Some 2%Z) (Some "X") = twoLines +:+ "\n" +:+ "X".
Proof.
  assert (H : occurs "\n" twoLines = false) by (vm_compute; reflexivity).
  split; [exact H | exact (insert_never_between_lines twoLines 2 (Some "X") H)].
Defined.

Lemma view_state_round_trip_witness :
  let w1 := world_of (switchTab "b.js" true scrolledTabs) in
  let w2 := world_of (switchTab "a.js" true w1) in
  activeFilePath scrolledTabs = Some "a.js"
  /\ JsMap.get "a.js" (openFiles scrolledTabs) = Some tabA
  /\ JsMap.get "b.js" (openFiles scrolledTabs) = Some tabB
  /\ w_model (editor scrolledTabs) <> None
  /\ w_view (editor scrolledTabs) = 42
  /\ activeFilePath w2 = Some "a.js"
  /\ w_view (editor w2) = w_view (editor scrolledTabs).
Proof.
  intros w1 w2.
  assert (H1 : activeFilePath scrolledTabs = Some "a.js") by (vm_compute; reflexivity).
  assert (H2 : "a.js" <> "") by discriminate.
  assert (H3 : "a.js" <> "b.js") by discriminate.
  assert (H4 : JsMap.get "a.js" (openFiles scrolledTabs) = Some tabA)
    by (vm_compute; reflexivity).
  assert (H5 : JsMap.get "b.js" (openFiles scrolledTabs) = Some tabB)
    by (vm_compute; reflexivity).
  assert (H6 : w_model (editor scrolledTabs) <> None) by discriminate.
  pose proof (view_state_round_trip scrolledTabs "a.js" "b.js" tabA tabB true true
                H1 H2 H3 H4 H5 H6) as (_ & _ & Hact & _ & Hview).
  split; [exact H1 |]. split; [exact H4 |]. split; [exact H5 |]. split; [exact H6 |].
  split; [reflexivity |]. split; [exact Hact | exact Hview].
Defined.

Lemma close_inactive_tab_witness :
  let w' := world_of (closeTab "b.js" twoTabs) in
  activeFilePath twoTabs <> Some "b.js"
  /\ result (closeTab "b.js" twoTabs) = Ok tt
  /\ openFiles w' = JsMap.delete "b.js" (openFiles twoTabs)
  /\ activeFilePath w' = activeFilePath twoTabs
  /\ focus w' = focus twoTabs.
Proof.
  intros w'.
  assert (H : activeFilePath twoTabs <> Some "b.js") by (vm_compute; discriminate).
  pose proof (close_inactive_tab twoTabs "b.js" H) as (Hok & Hof & _ & Hact & Hfo & _).
  split; [exact H |]. split; [exact Hok |]. split; [exact Hof |].
  split; [exact Hact | exact Hfo].
Defined.

Lemma open_documents_have_live_buffers_witness :
  reachableBy SimpleEnv.env anyAction sessionSaved /\ docsOk sessionSaved.
Proof.
  assert (H : reachableBy SimpleEnv.env anyAction sessionSaved).
  { unfold sessionSaved, sessionRewritten, sessionStart.
    repeat (apply reachableBy_step; [| exact I]). apply reachableBy_initial. }
  split; [exact H | exact (open_documents_have_live_buffers SimpleEnv.env sessionSaved H)].
Defined.

Lemma editor_shows_active_document_witness :
  reachableBy SimpleEnv.env anyAction sessionSaved /\ showsActive sessionSaved.
Proof.
  assert (H : reachableBy SimpleEnv.env anyAction sessionSaved).
  { unfold sessionSaved, sessionRewritten, sessionStart.
    repeat (apply reachableBy_step; [| exact I]). apply reachableBy_initial. }
  split; [exact H | exact (editor_shows_active_document SimpleEnv.env sessionSaved H)].
Defined.

Lemma tool_calls_keep_active_path_open_witness :
  reachableBy SimpleEnv.env switchesToOpen sessionRewritten
  /\ activeIsOpen sessionRewritten.
Proof.
  assert (H : reachableBy SimpleEnv.env switchesToOpen sessionRewritten).
  { unfold sessionRewritten, sessionStart.
    apply reachableBy_step; [apply reachableBy_step; [apply reachableBy_initial |] |];
      exact I. }
  split; [exact H |
          exact (tool_calls_keep_active_path_open SimpleEnv.env sessionRewritten H)].
Defined.

Lemma checkpoint_round_trip_witness :
  let st := snapshotOf (captured twoTabs) in
  let later := world_of (closeTab "a.js" twoTabs) in
  let w' := world_of (restoreCheckpointState SimpleEnv.env (Some st) (Some "root") later) in
  result (getEditorState twoTabs) = Ok st
  /\ NoDup (JsMap.keys (openFiles twoTabs))
  /\ activeFilePath twoTabs = Some "a.js"
  /\ JsMap.has "a.js" (openFiles twoTabs) = true
  /\ JsMap.keys (openFiles later) = ["b.js"]
  /\ JsMap.keys (openFiles w') = JsMap.keys (openFiles twoTabs)
  /\ activeFilePath w' = Some "a.js".
Proof.
  intros st later w'.
  assert (H1 : result (getEditorState twoTabs) = Ok st) by (vm_compute; reflexivity).
  assert (H2 : NoDup (JsMap.keys (openFiles twoTabs))) by apply twoTabs_docsOk.
  assert (H3 : activeFilePath twoTabs = Some "a.js") by (vm_compute; reflexivity).
  assert (H4 : "a.js" <> "") by discriminate.
  assert (H5 : JsMap.has "a.js" (openFiles twoTabs) = true) by (vm_compute; reflexivity).
  assert (H6 : forall p fs0, p ∈ JsMap.keys (openFiles twoTabs) ->
             exists h fs', getFileHandleFromPath SimpleEnv.env (Some "root") p true fs0
                           = Ok (h, fs')).
  { intros p fs0 _. apply simple_acquires. }
  pose proof (checkpoint_round_trip SimpleEnv.env (Some "root") twoTabs later st "a.js"
                H1 H2 H3 H4 H5 H6) as (_ & Hkeys & Hact & _).
  split; [exact H1 |]. split; [exact H2 |]. split; [exact H3 |]. split; [exact H5 |].
  split; [vm_compute; reflexivity |]. split; [exact Hkeys | exact Hact].
Defined.




Lemma delete_file_closes_tab_witness :
  let r := executeTool SimpleEnv.env (mkToolCall "delete_file" (fileArgs "b.js"))
             (Some "root") twoTabs in
  getParentDirectoryHandle SimpleEnv.env (Some "root") "b.js" (fs twoTabs)
  = Ok ("root", "b.js", twoFiles)
  /\ removeEntry SimpleEnv.env "root" "b.js" false twoFiles
     = Ok (tt, delete "b.js" twoFiles)
  /\ JsMap.has "b.js" (openFiles twoTabs) = true
  /\ JsMap.has "b.js" (openFiles (world_of r)) = false.
Proof.
  intros r.
  assert (H1 : filename (fileArgs "b.js") = Some "b.js") by reflexivity.
  assert (H2 : getParentDirectoryHandle SimpleEnv.env (Some "root") "b.js" (fs twoTabs)
               = Ok ("root", "b.js", twoFiles)) by (vm_compute; reflexivity).
  assert (H3 : removeEntry SimpleEnv.env "root" "b.js" false twoFiles
               = Ok (tt, delete "b.js" twoFiles)) by (vm_compute; reflexivity).
  pose proof (delete_file_closes_tab SimpleEnv.env "root" "b.js" (fileArgs "b.js") twoTabs
                "root" "b.js" twoFiles (delete "b.js" twoFiles) H1 H2 H3) as (Hgone & _).
  split; [exact H2 |]. split; [exact H3 |]. split; [vm_compute; reflexivity | exact Hgone].
Defined.



Lemma get_open_file_content_reads_buffer_witness :
  activeFilePath editedTabs = Some "a.js"
  /\ JsMap.get "a.js" (openFiles editedTabs) = Some tabA
  /\ fs editedTabs !! "a.js" = Some "let a;"
  /\ result (executeTool SimpleEnv.env (mkToolCall "get_open_file_content" noArgs)
               None editedTabs)
     = Ok [("filename", "a.js"); ("content", "let a = 2;")].
Proof.
  assert (H1 : activeFilePath editedTabs = Some "a.js") by (vm_compute; reflexivity).
  assert (H2 : "a.js" <> "") by discriminate.
  assert (H3 : JsMap.get "a.js" (openFiles editedTabs) = Some tabA)
    by (vm_compute; reflexivity).
  pose proof (get_open_file_content_reads_buffer SimpleEnv.env None noArgs "a.js" tabA
                editedTabs H1 H2 H3) as H.
  split; [exact H1 |]. split; [exact H3 |]. split; [vm_compute; reflexivity |].
  rewrite H. vm_compute. reflexivity.
Defined.

Lemma inspection_tools_leave_session_witness :
  let w' := world_of (execute SimpleEnv.env (mkToolCall "search_code" noArgs)
                        (Some "root") twoTabs) in
  includes inspectionTools "search_code" = true
  /\ openFiles w' = openFiles twoTabs /\ models w' = models twoTabs.
Proof.
  intros w'.
  assert (H : includes inspectionTools "search_code" = true) by reflexivity.
  pose proof (inspection_tools_leave_session SimpleEnv.env "search_code" noArgs
                (Some "root") twoTabs H) as (_ & Hof & _ & Hmo).
  split; [exact H |]. split; [exact Hof | exact Hmo].
Defined.

Lemma folder_tools_keep_tabs_witness :
  let w' := world_of (execute SimpleEnv.env
                        (mkToolCall "delete_folder"
                           (mkArgs None None None None None None (Some "a.js")
                                   None None None None None None))
                        (Some "root") twoTabs) in
  includes folderTools "delete_folder" = true
  /\ fs w' !! "a.js" = None
  /\ JsMap.keys (openFiles w') = JsMap.keys (openFiles twoTabs)
  /\ activeFilePath w' = activeFilePath twoTabs.
Proof.
  intros w'.
  assert (H : includes folderTools "delete_folder" = true) by reflexivity.
  pose proof (folder_tools_keep_tabs SimpleEnv.env "delete_folder"
                (mkArgs None None None None None None (Some "a.js")
                        None None None None None None)
                (Some "root") twoTabs H) as (Hk & _ & _ & Ha & _).
  split; [exact H |]. split; [vm_compute; reflexivity |]. split; [exact Hk | exact Ha].
Defined.

End MoreExamples.
